(** * Storefront client: cart utilities, product client, checkout form and
    order proxy

    A shallow embedding of the TypeScript sources

    - [src/lib/cart.ts]            (module [Cart])
    - [src/lib/api.ts]             (module [ProductApi])
    - [src/app/api/orders/route.ts] (module [OrdersRoute])
    - the checkout page            (module [Checkout])

    together with the part of the JavaScript run-time those sources rely on
    (module [JS]): IEEE-754 binary64 numbers, truthiness, [Math.max],
    [parseFloat], property lookup, exceptions, the conversion of values to
    strings and what [JSON.stringify] writes.

    Numbers are Rocq's primitive floats, which are binary64 with a single
    NaN, exactly what a JavaScript program can observe.  Strings are Rocq
    strings, read as sequences of code units below 256. *)

From Stdlib Require Import Floats ZArith Bool List String Ascii DecimalString Lia.
Import ListNotations.

Set Warnings "-inexact-float,-register-all".

Local Open Scope string_scope.

(* ================================================================== *)
(** * The JavaScript run-time used by the sources *)
(* ================================================================== *)

Module JS.

(** The type [number]: binary64. *)
Abbreviation number := float (only parsing).

(** ** Values *)

Inductive JSValue : Type :=
| JSUndefined
| JSNull
| JSBoolean (b : bool)
| JSNumber (x : number)
| JSString (s : string)
| JSArray (elems : list JSValue)
| JSObject (props : list (string * JSValue))
| JSBuiltin (name : string).
(* [JSObject] is a plain object: its own properties in order, with
   prototype [Object.prototype].  [JSBuiltin] stands for a built-in
   function or object reached through a prototype, for instance
   [Object.prototype.toString]; no piece of parsed JSON is one. *)

(** ** Exceptions and completions *)

Inductive Thrown : Type :=
| ErrorObject (name : string) (message : JSValue)
    (* an instance of Error (TypeError, RangeError, Error, ...) and what
       its [message] property holds, a string *)
| NonError (asString : string).
    (* any other thrown value, kept as what [String(value)] gives *)

Inductive Completion (A : Type) : Type :=
| Normal (a : A)
| Throw (t : Thrown).
Arguments Normal {A} a.
Arguments Throw {A} t.

Definition cbind {A B} (c : Completion A) (k : A -> Completion B) : Completion B :=
  match c with
  | Normal a => k a
  | Throw t => Throw t
  end.

Declare Scope completion_scope.
Delimit Scope completion_scope with completion.
Notation "'let!' x ':=' c 'in' k" := (cbind c (fun x => k))
  (at level 10, x name, c at level 100, k at level 200) : completion_scope.

(** ** Numbers *)

Definition isNaN (x : number) : bool := PrimFloat.is_nan x.
Definition isFinite (x : number) : bool := PrimFloat.is_finite x.

(** [x === 0], [x > y], [x >= y] on numbers: IEEE comparisons. *)
Definition strictEqNumber (x y : number) : bool := PrimFloat.eqb x y.
Definition gt (x y : number) : bool := PrimFloat.ltb y x.
Definition ge (x y : number) : bool := PrimFloat.leb y x.

Definition isPositiveZero (x : number) : bool :=
  match PrimFloat.classify x with PZero => true | _ => false end.
Definition isNegativeZero (x : number) : bool :=
  match PrimFloat.classify x with NZero => true | _ => false end.

(** [Math.max(...args)] on numbers (ECMA-262, 21.3.2.24): start from
    -Infinity; a NaN argument gives NaN; +0 is larger than -0. *)
Definition Math_max_step (highest : option number) (x : number) : option number :=
  match highest with
  | None => None                      (* a NaN was met *)
  | Some h =>
      if isNaN x then None
      else if isPositiveZero x && isNegativeZero h then Some x
      else if gt x h then Some x
      else Some h
  end.

Definition Math_max (args : list number) : number :=
  match fold_left Math_max_step args (Some neg_infinity) with
  | Some h => h
  | None => nan
  end.

(** ** Truthiness and the short-circuit operators *)

Definition ToBoolean (v : JSValue) : bool :=
  match v with
  | JSUndefined | JSNull => false
  | JSBoolean b => b
  | JSNumber x => negb (isNaN x || strictEqNumber x 0%float)
  | JSString s => negb (String.eqb s "")
  | JSArray _ | JSObject _ | JSBuiltin _ => true
  end.

(** [a || b], [a && b] and [a ?? b] on already evaluated operands (the
    right operands in the sources have no effects). *)
Definition or_ (a b : JSValue) : JSValue := if ToBoolean a then a else b.
Definition and_ (a b : JSValue) : JSValue := if ToBoolean a then b else a.
Definition nullish (a b : JSValue) : JSValue :=
  match a with
  | JSUndefined | JSNull => b
  | _ => a
  end.

(** [x || y] on numbers: [x] unless it is 0, -0 or NaN. *)
Definition orNumber (x y : number) : number :=
  if ToBoolean (JSNumber x) then x else y.

Definition isArray (v : JSValue) : bool :=
  match v with JSArray _ => true | _ => false end.

(** ** Property lookup *)

Fixpoint assoc (key : string) (props : list (string * JSValue)) : option JSValue :=
  match props with
  | [] => None
  | (k, v) :: rest => if String.eqb k key then Some v else assoc key rest
  end.

(** The property names of [Object.prototype]; every one of them holds a
    function, except [__proto__], an accessor giving the prototype
    object: all are truthy values that are not strings. *)
Definition ObjectPrototype_names : list string :=
  [ "constructor"; "hasOwnProperty"; "isPrototypeOf"; "propertyIsEnumerable";
    "toLocaleString"; "toString"; "valueOf"; "__proto__";
    "__defineGetter__"; "__defineSetter__"; "__lookupGetter__"; "__lookupSetter__" ].

Definition inObjectPrototype (key : string) : bool :=
  existsb (String.eqb key) ObjectPrototype_names.

(** [o[key]] for a plain object [o] with own properties [props]: the own
    property, else the one inherited from [Object.prototype], else
    undefined. *)
Definition GetPlain (props : list (string * JSValue)) (key : string) : JSValue :=
  match assoc key props with
  | Some v => v
  | None => if inObjectPrototype key then JSBuiltin ("Object.prototype." ++ key) else JSUndefined
  end.

(** [v.key] where [key] is one of the data keys the sources read
    ([success], [data], [price], [name], ...) and [v] is a piece of parsed
    JSON: none of these keys is defined on the prototype of a string,
    number, boolean or array, so only plain objects answer; reading a
    property of undefined or null throws a TypeError. *)
Definition Get (v : JSValue) (key : string) : Completion JSValue :=
  match v with
  | JSUndefined | JSNull =>
      Throw (ErrorObject "TypeError" (JSString "Cannot read properties of null or undefined"))
  | JSObject props => Normal (GetPlain props key)
  | _ => Normal JSUndefined
  end.

(** [v?.key] *)
Definition GetOptional (v : JSValue) (key : string) : Completion JSValue :=
  match v with
  | JSUndefined | JSNull => Normal JSUndefined
  | _ => Get v key
  end.

(** ** Strings *)

(** White space and line terminators among the code units below 256:
    TAB, LF, VT, FF, CR, SP, NBSP. *)
Definition isWhiteSpace (c : ascii) : bool :=
  let n := nat_of_ascii c in
  ((9 <=? n) && (n <=? 13) || (n =? 32) || (n =? 160))%nat.

Definition isDigit (c : ascii) : bool :=
  let n := nat_of_ascii c in ((48 <=? n) && (n <=? 57))%nat.

Definition digitValue (c : ascii) : Z := Z.of_nat (nat_of_ascii c) - 48.

Fixpoint trimStart (s : string) : string :=
  match s with
  | String c r => if isWhiteSpace c then trimStart r else s
  | EmptyString => s
  end.

Fixpoint rev_string (s acc : string) : string :=
  match s with
  | String c r => rev_string r (String c acc)
  | EmptyString => acc
  end.

Definition trimEnd (s : string) : string :=
  rev_string (trimStart (rev_string s "")) "".

(** [s.trim()] *)
Definition trim (s : string) : string := trimEnd (trimStart s).

(** [s.startsWith(p)] *)
Definition startsWith (s p : string) : bool := String.prefix p s.

(** ** Regular expressions

    The patterns in the sources use only character classes, concatenation
    and [+] / [{n}] between [^] and [$] (no flags), so [test] asks whether
    the whole string matches.  Matching is by derivatives. *)

Inductive Regex : Type :=
| REmpty                                  (* matches nothing *)
| REps                                    (* matches the empty string *)
| RClass (p : ascii -> bool)              (* one code unit of a class *)
| RSeq (r1 r2 : Regex)
| RAlt (r1 r2 : Regex)
| RStar (r : Regex).

Definition RPlus (r : Regex) : Regex := RSeq r (RStar r).

Fixpoint RRepeat (n : nat) (r : Regex) : Regex :=
  match n with
  | O => REps
  | S n' => RSeq r (RRepeat n' r)
  end.

Fixpoint nullable (r : Regex) : bool :=
  match r with
  | REmpty => false
  | REps => true
  | RClass _ => false
  | RSeq r1 r2 => nullable r1 && nullable r2
  | RAlt r1 r2 => nullable r1 || nullable r2
  | RStar _ => true
  end.

Fixpoint deriv (c : ascii) (r : Regex) : Regex :=
  match r with
  | REmpty => REmpty
  | REps => REmpty
  | RClass p => if p c then REps else REmpty
  | RSeq r1 r2 =>
      if nullable r1 then RAlt (RSeq (deriv c r1) r2) (deriv c r2)
      else RSeq (deriv c r1) r2
  | RAlt r1 r2 => RAlt (deriv c r1) (deriv c r2)
  | RStar r1 => RSeq (deriv c r1) (RStar r1)
  end.

(** [/^r$/.test(s)] *)
Fixpoint test (r : Regex) (s : string) : bool :=
  match s with
  | EmptyString => nullable r
  | String c rest => test (deriv c r) rest
  end.

(** [\s] and [[0-9]] on code units below 256. *)
Definition class_s (c : ascii) : bool := isWhiteSpace c.
Definition class_digit (c : ascii) : bool := isDigit c.

(** ** Letter case, for [toLowerCase] on ASCII letters *)

Definition isUpper (c : ascii) : bool :=
  let n := nat_of_ascii c in ((65 <=? n) && (n <=? 90))%nat.

Definition toLowerChar (c : ascii) : ascii :=
  if isUpper c then ascii_of_nat (nat_of_ascii c + 32) else c.

Fixpoint toLowerCase (s : string) : string :=
  match s with
  | String c r => String (toLowerChar c) (toLowerCase r)
  | EmptyString => EmptyString
  end.

(** ** [Number.parseFloat] (ECMA-262, 19.2.4)

    Leading white space is dropped; the longest prefix that is a
    StrDecimalLiteral is read; its mathematical value is rounded to the
    nearest binary64 (ties to even); no such prefix gives NaN. *)

(** A maximal run of decimal digits: the value accumulated onto [acc], the
    number of digits read, and the rest of the string. *)
Fixpoint readDigits (s : string) (acc : Z) (n : nat) : Z * nat * string :=
  match s with
  | String c r =>
      if isDigit c then readDigits r (10 * acc + digitValue c) (S n)
      else (acc, n, s)
  | EmptyString => (acc, n, s)
  end.

(** An ExponentPart at the head of [s]: its value and what follows it;
    when there is none ([e] or [E] not followed by an optionally signed
    digit is not part of the literal), 0 and [s] itself. *)
Definition readExponent (s : string) : Z * string :=
  match s with
  | String c r =>
      if (Ascii.eqb c "e" || Ascii.eqb c "E")%char then
        let '(sgn, r') :=
          match r with
          | String "+"%char r' => (1, r')
          | String "-"%char r' => (-1, r')
          | _ => (1, r)
          end in
        let '(v, n, rest) := readDigits r' 0 0 in
        if (n =? 0)%nat then (0, s) else (sgn * v, rest)
      else (0, s)
  | EmptyString => (0, s)
  end%Z.

(** The binary64 nearest to [(-1)^neg * m * 10^e10], for [m >= 0]. *)
Definition decimalToNumber (neg : bool) (m : Z) (e10 : Z) : number :=
  match m with
  | Z0 => if neg then (-0)%float else 0%float
  | Zpos p =>
      let num := if (0 <=? e10)%Z then (p * Z.to_pos (10 ^ e10))%positive else p in
      let den := if (0 <=? e10)%Z then 1%positive else Z.to_pos (10 ^ (- e10)) in
      SF2Prim (SF64div (S754_finite neg num 0) (S754_finite false den 0))
  | Zneg _ => nan
  end.

(** The longest prefix of [t] that is a StrDecimalLiteral: its value and
    the rest of [t]; [None] when no prefix is one. *)
Definition readDecimalLiteral (t : string) : option (number * string) :=
  let '(neg, u) :=
    match t with
    | String "+"%char r => (false, r)
    | String "-"%char r => (true, r)
    | _ => (false, t)
    end in
  if String.prefix "Infinity" u then
    Some (if neg then neg_infinity else infinity, String.substring 8 (String.length u - 8) u)
  else
    let '(ip, ni, r1) := readDigits u 0 0 in
    match r1 with
    | String "."%char r2 =>
        let '(m, nf, r3) := readDigits r2 ip 0 in
        if ((ni =? 0) && (nf =? 0))%nat then None
        else
          let '(e, rest) := readExponent r3 in
          Some (decimalToNumber neg m (e - Z.of_nat nf), rest)
    | _ =>
        if (ni =? 0)%nat then None
        else
          let '(e, rest) := readExponent r1 in
          Some (decimalToNumber neg ip e, rest)
    end.

Definition parseFloat (s : string) : number :=
  match readDecimalLiteral (trimStart s) with
  | Some (x, _) => x
  | None => nan
  end.

(** ** [Number(value)]

    ToNumber (ECMA-262, 7.1.4).  A string is trimmed and must be, as a
    whole, empty, a StrDecimalLiteral, or a binary, octal or hexadecimal
    integer literal. *)

Definition digitIn (radix : Z) (c : ascii) : option Z :=
  (let n := Z.of_nat (nat_of_ascii c) in
   let v := if (48 <=? n) && (n <=? 57) then n - 48
            else if (97 <=? n) && (n <=? 102) then n - 87
            else if (65 <=? n) && (n <=? 70) then n - 55
            else radix in
   if v <? radix then Some v else None)%Z.

(** The value of a non-empty string of digits in [radix]; [None] if some
    code unit is not such a digit. *)
Fixpoint readRadix (radix : Z) (s : string) (acc : Z) : option Z :=
  match s with
  | EmptyString => Some acc
  | String c r =>
      match digitIn radix c with
      | Some v => readRadix radix r (radix * acc + v)
      | None => None
      end
  end.

Definition nonDecimalLiteral (t : string) : option number :=
  match t with
  | String "0"%char (String c (String d r)) =>
      let radix :=
        if (Ascii.eqb c "x" || Ascii.eqb c "X")%char then 16
        else if (Ascii.eqb c "o" || Ascii.eqb c "O")%char then 8
        else if (Ascii.eqb c "b" || Ascii.eqb c "B")%char then 2
        else 0 in
      if (radix =? 0)%Z then None
      else
        match readRadix radix (String d r) 0 with
        | Some m => Some (decimalToNumber false m 0)
        | None => None
        end
  | _ => None
  end%Z.

Definition StringToNumber (s : string) : number :=
  let t := trim s in
  if String.eqb t "" then 0%float
  else
    match nonDecimalLiteral t with
    | Some x => x
    | None =>
        match readDecimalLiteral t with
        | Some (x, EmptyString) => x
        | _ => nan
        end
    end.

(** On an object, an array or a function, [Number] runs the value's
    conversion protocol ([valueOf], [toString], then the string is read as
    a number), which can give any number or throw.  The sources never rely
    on its answer, so it is a parameter of the model. *)
Class Host : Type :=
  { ObjectToNumber : JSValue -> Completion number }.

Definition Number_ `{Host} (v : JSValue) : Completion number :=
  match v with
  | JSUndefined => Normal nan
  | JSNull => Normal 0%float
  | JSBoolean b => Normal (if b then 1%float else 0%float)
  | JSNumber x => Normal x
  | JSString s => Normal (StringToNumber s)
  | JSArray _ | JSObject _ | JSBuiltin _ => ObjectToNumber v
  end.

(** *** The host on plain data

    What the conversion protocol gives on values built from JSON-like
    data only, whose properties hold no functions:
    - a plain object converts through [Object.prototype.toString] to
      the string "[object Object]", hence to NaN, unless it has an own
      property [toString], which (not being callable) leaves no method
      that yields a primitive: a TypeError;
    - a built-in function converts through its source text, hence to NaN;
    - an array converts through [join]: its elements' strings separated
      by commas, null and undefined giving the empty string.  With two
      elements or more the string holds a comma and is no number.  With
      one element it is that element's string, and reading back the
      string of a number gives the number (-0 prints as 0). *)

Definition TypeError_noPrimitive : Thrown :=
  ErrorObject "TypeError" (JSString "Cannot convert object to primitive value").

(** Whether [String(v)] throws. *)
Fixpoint toStringThrows (v : JSValue) : bool :=
  match v with
  | JSObject props =>
      match assoc "toString" props with Some _ => true | None => false end
  | JSArray elems =>
      (fix any (l : list JSValue) : bool :=
         match l with
         | [] => false
         | e :: rest => toStringThrows e || any rest
         end) elems
  | _ => false
  end.

Fixpoint dataToNumber (v : JSValue) : Completion number :=
  match v with
  | JSUndefined => Normal nan
  | JSNull => Normal 0%float
  | JSBoolean b => Normal (if b then 1%float else 0%float)
  | JSNumber x => Normal x
  | JSString s => Normal (StringToNumber s)
  | JSBuiltin _ => Normal nan
  | JSObject _ => if toStringThrows v then Throw TypeError_noPrimitive else Normal nan
  | JSArray [] => Normal 0%float
  | JSArray [e] =>
      match e with
      | JSUndefined | JSNull => Normal 0%float
      | JSBoolean _ => Normal nan
      | JSNumber x => Normal (if isNegativeZero x then 0%float else x)
      | _ => dataToNumber e
      end
  | JSArray _ => if toStringThrows v then Throw TypeError_noPrimitive else Normal nan
  end.

Definition dataHost : Host := {| ObjectToNumber := dataToNumber |}.

(** ** [Number::toString] (ECMA-262, 6.1.6.1.20), radix 10

    For a finite number [x] other than 0 the standard takes integers [n],
    [k] and [s] with [k >= 1], [10^(k-1) <= s < 10^k] and [s * 10^(n-k)]
    rounding to [x], [k] as small as possible, and among those the [s] for
    which [s * 10^(n-k)] is closest to [x] (the even one when two are as
    close), which is what the engines print.  Below, [x] is [m * 2^e]. *)

(** The sign of [m * 2^e - s * 10^t], for [m] and [s] not negative. *)
Definition compareScaled (m e s t : Z) : comparison :=
  (m * 2 ^ Z.max e 0 * 10 ^ Z.max (- t) 0 ?= s * 10 ^ Z.max t 0 * 2 ^ Z.max (- e) 0)%Z.

(** The least [n] from [n0] on with [m * 2^e < 10^n]. *)
Fixpoint magnitudeFrom (fuel : nat) (m e n0 : Z) : Z :=
  match fuel with
  | O => n0
  | S fuel' =>
      match compareScaled m e 1 n0 with
      | Lt => n0
      | _ => magnitudeFrom fuel' m e (n0 + 1)
      end
  end.

(** The [n] with [10^(n-1) <= m * 2^e < 10^n]: the search starts just
    below [log10 (m * 2^e)], estimated from the binary exponent. *)
Definition magnitude (m e : Z) : Z :=
  magnitudeFrom 8 m e ((e + Z.log2 m) * 30103 / 100000 - 1).

(** The pair [(s, n)] for [x = m * 2^e] with [10^(n0-1) <= x < 10^n0],
    trying [k], [k + 1], ... digits.  With [k] digits the two candidates
    are the multiples of [10^(n0-k)] next to [x], below and above; a
    candidate [10^k] is [1] with [n0 + 1].  17 digits always suffice. *)
Fixpoint shortestFrom (fuel : nat) (x : number) (m e n0 k : Z) : Z * Z :=
  match fuel with
  | O => (0, n0)%Z
  | S fuel' =>
      let t := (n0 - k)%Z in
      let below := (m * 2 ^ Z.max e 0 * 10 ^ Z.max (- t) 0
                    / (10 ^ Z.max t 0 * 2 ^ Z.max (- e) 0))%Z in
      let above := (below + 1)%Z in
      let reads s := PrimFloat.eqb (decimalToNumber false s t) x in
      let pick s := if (s =? 10 ^ k)%Z then (s / 10, n0 + 1)%Z else (s, n0) in
      match reads below, reads above with
      | true, true =>
          match compareScaled (2 * m) e (below + above) t with
          | Lt => pick below
          | Gt => pick above
          | Eq => pick (if Z.even below then below else above)
          end
      | true, false => pick below
      | false, true => pick above
      | false, false => shortestFrom fuel' x m e n0 (k + 1)%Z
      end
  end.

Definition digitsOf (s : Z) : string := NilZero.string_of_uint (N.to_uint (Z.to_N s)).

Fixpoint zeros (n : nat) : string :=
  match n with
  | O => ""
  | S n' => String "0" (zeros n')
  end.

(** Steps 5 to 10 of the algorithm, for [x = m * 2^e > 0]. *)
Definition positiveToString (x : number) (m e : Z) : string :=
  let '(s, n) := shortestFrom 17 x m e (magnitude m e) 1 in
  let digits := digitsOf s in
  let k := Z.of_nat (String.length digits) in
  if ((k <=? n) && (n <=? 21))%Z then digits ++ zeros (Z.to_nat (n - k))
  else if ((0 <? n) && (n <=? 21))%Z then
    String.substring 0 (Z.to_nat n) digits ++ "." ++
    String.substring (Z.to_nat n) (Z.to_nat (k - n)) digits
  else if ((-6 <? n) && (n <=? 0))%Z then "0." ++ zeros (Z.to_nat (- n)) ++ digits
  else
    let exponent := (if (n - 1 <? 0)%Z then "-" else "+") ++ digitsOf (Z.abs (n - 1)) in
    if (k =? 1)%Z then digits ++ "e" ++ exponent
    else String.substring 0 1 digits ++ "." ++
         String.substring 1 (Z.to_nat (k - 1)) digits ++ "e" ++ exponent.

(** [x.toString()], [String(x)] and [`${x}`] for a number [x]. *)
Definition Number_prototype_toString (x : number) : string :=
  match Prim2SF x with
  | S754_nan => "NaN"
  | S754_zero _ => "0"
  | S754_infinity neg => if neg then "-Infinity" else "Infinity"
  | S754_finite neg m e =>
      (if neg then "-" else "") ++ positiveToString (PrimFloat.abs x) (Zpos m) e
  end.

(** ** [String(value)]

    ToString (ECMA-262, 7.1.17) on the values above, as [JSON.parse] and
    property lookup build them (no property holds a function):
    - a plain object converts through [Object.prototype.toString] to
      "[object Object]", unless it has an own property [toString]: that
      one is not callable and [Object.prototype.valueOf] gives back the
      object, so no method yields a primitive and a TypeError is thrown;
    - an array converts through [join]: the strings of its elements,
      separated by commas, with the empty string for null and undefined;
    - a built-in function converts to its source text, and the prototype
      object that [__proto__] gives converts as a plain object. *)

Definition builtinText (name : string) : string :=
  let key := String.substring 17 (String.length name - 17) name in
  if String.eqb key "__proto__" then "[object Object]"
  else "function " ++ (if String.eqb key "constructor" then "Object" else key)
       ++ "() { [native code] }".

Fixpoint ToString (v : JSValue) : Completion string :=
  match v with
  | JSUndefined => Normal "undefined"
  | JSNull => Normal "null"
  | JSBoolean b => Normal (if b then "true" else "false")
  | JSNumber x => Normal (Number_prototype_toString x)
  | JSString s => Normal s
  | JSBuiltin name => Normal (builtinText name)
  | JSObject props =>
      match assoc "toString" props with
      | Some _ => Throw TypeError_noPrimitive
      | None => Normal "[object Object]"
      end
  | JSArray elems =>
      (fix join (l : list JSValue) : Completion string :=
         match l with
         | [] => Normal ""
         | e :: rest =>
             cbind (match e with
                    | JSUndefined | JSNull => Normal ""
                    | _ => ToString e
                    end)
               (fun s =>
                  match rest with
                  | [] => Normal s
                  | _ => cbind (join rest) (fun r => Normal (s ++ "," ++ r))
                  end)
         end) elems
  end.

(** ** [JSON.stringify(value)]

    The sources hand the text that [JSON.stringify] writes to [fetch] or
    to a response, and never look at it.  The text is given here by the
    value it denotes, the one [JSON.parse] reads back from it, which is
    what the receiver gets; the text and that value determine each other.
    [None] stands for undefined: nothing is written for undefined and for
    a function.  Otherwise (ECMA-262, 25.5.2):
    - a number that is not finite is written as null, and -0 as 0; every
      other number is written by [Number::toString] and reads back as
      itself;
    - strings, booleans and null are written as they are;
    - an element of an array for which nothing is written is written as
      null;
    - a property of an object for which nothing is written is left out. *)
Fixpoint JSON_stringify (v : JSValue) : option JSValue :=
  match v with
  | JSUndefined => None
  | JSNull | JSBoolean _ | JSString _ => Some v
  | JSNumber x =>
      Some (if isFinite x then (if isNegativeZero x then JSNumber 0%float else v)
            else JSNull)
  | JSBuiltin name =>
      if String.eqb name "Object.prototype.__proto__" then Some (JSObject []) else None
  | JSArray elems =>
      Some (JSArray
              ((fix each (l : list JSValue) : list JSValue :=
                  match l with
                  | [] => []
                  | e :: rest =>
                      match JSON_stringify e with
                      | Some written => written :: each rest
                      | None => JSNull :: each rest
                      end
                  end) elems))
  | JSObject props =>
      Some (JSObject
              ((fix each (l : list (string * JSValue)) : list (string * JSValue) :=
                  match l with
                  | [] => []
                  | (key, e) :: rest =>
                      match JSON_stringify e with
                      | Some written => (key, written) :: each rest
                      | None => each rest
                      end
                  end) props))
  end.

(** ** Induction on values, through arrays and objects *)

Section NestedInduction.
Variable P : JSValue -> Prop.
Hypothesis Hundefined : P JSUndefined.
Hypothesis Hnull : P JSNull.
Hypothesis Hboolean : forall b, P (JSBoolean b).
Hypothesis Hnumber : forall x, P (JSNumber x).
Hypothesis Hstring : forall s, P (JSString s).
Hypothesis Hbuiltin : forall name, P (JSBuiltin name).
Hypothesis Harray : forall elems, Forall P elems -> P (JSArray elems).
Hypothesis Hobject : forall props, Forall (fun p => P (snd p)) props -> P (JSObject props).

Fixpoint JSValue_nested_ind (v : JSValue) : P v :=
  match v with
  | JSUndefined => Hundefined
  | JSNull => Hnull
  | JSBoolean b => Hboolean b
  | JSNumber x => Hnumber x
  | JSString s => Hstring s
  | JSBuiltin name => Hbuiltin name
  | JSArray elems =>
      Harray elems
        ((fix all (l : list JSValue) : Forall P l :=
            match l with
            | [] => Forall_nil P
            | e :: rest => Forall_cons e (JSValue_nested_ind e) (all rest)
            end) elems)
  | JSObject props =>
      Hobject props
        ((fix all (l : list (string * JSValue)) : Forall (fun p => P (snd p)) l :=
            match l with
            | [] => Forall_nil _
            | p :: rest => Forall_cons p (JSValue_nested_ind (snd p)) (all rest)
            end) props)
  end.
End NestedInduction.

End JS.

(* ================================================================== *)
(** * Asynchronous code: a state-and-exception monad over the world *)
(* ================================================================== *)

Module Async.
Import JS.

(** An HTTP request as [fetch] is given it.  Every body in the sources is
    a text written by [JSON.stringify]; [body] holds it as [JSON_stringify]
    gives it, and [None] is a request without a body. *)
Record Request : Type :=
  { url : string;
    method : string;
    headers : list (string * string);
    body : option JSValue }.

(** What the code can read from a [fetch] response: the status, and the two
    body readers, either of which may reject. *)
Record Response : Type :=
  { status : Z;
    text : Completion string;
    json : Completion JSValue }.

(** [response.ok] *)
Definition ok (r : Response) : bool := ((200 <=? status r) && (status r <=? 299))%Z.

(** Everything observable that the code does, in order.  A console event
    keeps the fixed text of the message only, not the values printed
    after it. *)
Inductive Event : Type :=
| EvFetch (req : Request)
| EvConsoleLog (label : string)
| EvConsoleError (label : string)
| EvDispatch (eventName : string)       (* window.dispatchEvent(new CustomEvent(..)) *)
| EvSleep (ms : Z)                       (* await new Promise(r => setTimeout(r, ms)) *)
| EvCall (callee : string)               (* a call to a collaborator outside the sources *)
| EvToast (kind : string) (args : list JSValue)   (* toast.error(..), toast.warning(..), .. *)
| EvSetIsProcessing (b : bool)
| EvRouterPush (path : string) (args : list JSValue).   (* router.push(path, ...args) *)

(** The world: the session token ([getAuthToken()] gives a string or null),
    how the network answers the n-th request, and the events so far. *)
Record World : Type :=
  { authToken : option string;
    network : nat -> Request -> Completion Response;
    trace : list Event }.

Definition M (A : Type) : Type := World -> Completion A * World.

Definition ret {A} (a : A) : M A := fun w => (Normal a, w).

Definition bind {A B} (m : M A) (k : A -> M B) : M B :=
  fun w =>
    match m w with
    | (Normal a, w') => k a w'
    | (Throw t, w') => (Throw t, w')
    end.

Definition throw {A} (t : Thrown) : M A := fun w => (Throw t, w).

(** [try { body } catch (error) { handler error }] *)
Definition tryCatch {A} (body : M A) (handler : Thrown -> M A) : M A :=
  fun w =>
    match body w with
    | (Normal a, w') => (Normal a, w')
    | (Throw t, w') => handler t w'
    end.

(** [try { body } finally { final }] *)
Definition tryFinally {A} (body : M A) (final : M unit) : M A :=
  fun w =>
    match body w with
    | (r, w') =>
        match final w' with
        | (Normal _, w'') => (r, w'')
        | (Throw t, w'') => (Throw t, w'')
        end
    end.

Definition lift {A} (c : Completion A) : M A := fun w => (c, w).

Definition emit (e : Event) : M unit :=
  fun w => (Normal tt, {| authToken := authToken w; network := network w;
                          trace := trace w ++ [e] |}).

Definition isFetch (e : Event) : bool :=
  match e with EvFetch _ => true | _ => false end.

Definition isCallTo (callee : string) (e : Event) : bool :=
  match e with EvCall c => String.eqb c callee | _ => false end.

Definition isSleep (e : Event) : bool :=
  match e with EvSleep _ => true | _ => false end.

Definition callCount (callee : string) (t : list Event) : nat :=
  List.length (filter (isCallTo callee) t).

Definition fetchCount (t : list Event) : nat := List.length (filter isFetch t).

Definition fetch (req : Request) : M Response :=
  fun w => (network w (fetchCount (trace w)) req,
            {| authToken := authToken w; network := network w;
               trace := trace w ++ [EvFetch req] |}).

Definition getAuthToken : M (option string) := fun w => (Normal (authToken w), w).

(** [!token] for a string or null. *)
Definition falsyToken (token : option string) : bool :=
  match token with
  | None => true
  | Some s => String.eqb s ""
  end.

Definition tokenString (token : option string) : string :=
  match token with Some s => s | None => "null" end.

Definition consoleLog (label : string) : M unit := emit (EvConsoleLog label).
Definition consoleError (label : string) : M unit := emit (EvConsoleError label).
Definition dispatchEvent (name : string) : M unit := emit (EvDispatch name).
Definition sleep (ms : Z) : M unit := emit (EvSleep ms).

(** [`${n}`] for an integer [n]. *)
Definition integerToString (n : Z) : string := NilZero.string_of_int (Z.to_int n).

(** What [throw new Error(message)] throws.  The constructor stores
    [String(message)] as the message of the new error, and no message for
    undefined, which then reads as the inherited empty string; when the
    conversion to a string throws, no error object is made and that
    exception is what is thrown. *)
Definition newError (message : JSValue) : Thrown :=
  match message with
  | JSUndefined => ErrorObject "Error" (JSString "")
  | _ =>
      match ToString message with
      | Normal text => ErrorObject "Error" (JSString text)
      | Throw t => t
      end
  end.

Declare Scope async_scope.
Delimit Scope async_scope with async.
Notation "x <- m ;; k" := (bind m (fun x => k))
  (at level 61, m at next level, right associativity) : async_scope.
Notation "m ;;; k" := (bind m (fun _ => k))
  (at level 61, right associativity) : async_scope.

(** [array.map(f)] where [f] may throw. *)
Fixpoint mapC {A B} (f : A -> Completion B) (l : list A) : Completion (list B) :=
  match l with
  | [] => Normal []
  | a :: rest =>
      cbind (f a) (fun b => cbind (mapC f rest) (fun bs => Normal (b :: bs)))
  end.

(** [array.reduce(f, init)] where [f] may throw. *)
Fixpoint reduceC {A B} (f : B -> A -> Completion B) (l : list A) (init : B) : Completion B :=
  match l with
  | [] => Normal init
  | a :: rest => cbind (f init a) (fun acc => reduceC f rest acc)
  end.

End Async.

(* ================================================================== *)
(** * [src/lib/cart.ts] *)
(* ================================================================== *)

Module Cart.
Import JS Async.
Local Open Scope completion_scope.
Local Open Scope async_scope.

(** [interface CartItem].  At run time each field holds whatever value the
    object has there, so the fields are values; [product] is the nested
    snapshot object. *)
Module CartItem.
Record t : Type :=
  { id : JSValue;
    product_id : JSValue;
    quantity : JSValue;
    color : JSValue;
    name : JSValue;
    price : JSValue;
    image_url : JSValue;
    total : JSValue;
    product : JSValue }.
End CartItem.

(** The object [getCartSummary] returns. *)
Module CartSummary.
Record t : Type :=
  { itemCount : nat;
    subtotal : number;
    tax : number;
    shipping : number;
    total : number }.
End CartSummary.

(** ** Object spread and property definition

    [{...v, key: x}] copies the own enumerable properties of [v] in
    order and then defines [key]: a key that is already there keeps its
    place and takes the new value, a new key goes to the end. *)

(** The elements of an array, or the code units of a string, under
    their indices from [i] on. *)
Fixpoint indexed (i : nat) (l : list JSValue) : list (string * JSValue) :=
  match l with
  | [] => []
  | v :: rest => (integerToString (Z.of_nat i), v) :: indexed (S i) rest
  end.

Fixpoint codeUnits (s : string) : list JSValue :=
  match s with
  | EmptyString => []
  | String c r => JSString (String c EmptyString) :: codeUnits r
  end.

(** What [{...v}] copies: the properties of a plain object, the indexed
    elements of an array or a string, nothing from any other value. *)
Definition spread (v : JSValue) : list (string * JSValue) :=
  match v with
  | JSObject props => props
  | JSArray elems => indexed 0 elems
  | JSString s => indexed 0 (codeUnits s)
  | _ => []
  end.

Fixpoint setProp (key : string) (v : JSValue) (props : list (string * JSValue))
  : list (string * JSValue) :=
  match props with
  | [] => [(key, v)]
  | (k, x) :: rest =>
      if String.eqb k key then (k, v) :: rest else (k, x) :: setProp key v rest
  end.

Section WithHost.
Context `{Host}.

(** Utility function to safely convert to number *)
Definition safeNumber (value : JSValue) : Completion number :=
  match value with
  | JSNull | JSUndefined => Normal 0%float
  | _ =>
      let! num :=
        match value with
        | JSString s => Normal (parseFloat s)     (* typeof value is string *)
        | _ => Number_ value
        end in
      Normal (if isNaN num then 0%float else num)
  end.

(** The callback of [cartItems.map] in [getCart]. *)
Definition normalizeItem (item : JSValue) : Completion CartItem.t :=
  let! rawPrice := Get item "price" in
  let! safePrice := safeNumber rawPrice in
  let! rawQuantity := Get item "quantity" in
  let! n := safeNumber rawQuantity in
  let safeQuantity := Math_max [1%float; n] in
  let calculatedTotal := (safePrice * safeQuantity)%float in
  let! item_id := Get item "id" in
  let! item_product_id := Get item "product_id" in
  let! item_color := Get item "color" in
  let! item_name := Get item "name" in
  let! item_image_url := Get item "image_url" in
  let! rawTotal := Get item "total" in
  let! safeTotal := safeNumber rawTotal in
  let! item_product := Get item "product" in
  let! product_name := GetOptional item_product "name" in
  let! product_price := GetOptional item_product "price" in
  let! snapshotPrice := safeNumber (or_ product_price rawPrice) in
  let! product_image_url := GetOptional item_product "image_url" in
  let! product_images := GetOptional item_product "images" in
  let! product_model := GetOptional item_product "model" in
  let! product_category := GetOptional item_product "category" in
  let! product_description := GetOptional item_product "description" in
  Normal
    {| CartItem.id := item_id;
       CartItem.product_id := item_product_id;
       CartItem.color := item_color;
       CartItem.name := item_name;
       CartItem.image_url := item_image_url;
       CartItem.price := JSNumber safePrice;
       CartItem.quantity := JSNumber safeQuantity;
       CartItem.total := JSNumber (orNumber safeTotal calculatedTotal);
       CartItem.product :=
         JSObject
           [ ("name", or_ (or_ product_name item_name) (JSString "Unknown Product"));
             ("price", JSNumber snapshotPrice);
             ("image_url", or_ (or_ product_image_url item_image_url) (JSString "/placeholder.svg"));
             ("images", or_ product_images
                          (JSArray [or_ item_image_url (JSString "/placeholder.svg")]));
             ("model", or_ product_model (JSString "Standard Model"));
             ("category", or_ product_category (JSString "Electric Vehicle"));
             ("description", product_description) ] |}.

Definition getCart : M (list CartItem.t) :=
  tryCatch
    (token <- getAuthToken ;;
     if falsyToken token then ret []
     else
       response <- fetch {| url := "/api/cart"; method := "GET";
                            headers := [("Authorization", "Bearer " ++ tokenString token)];
                            body := None |} ;;
       data <- lift (json response) ;;
       success <- lift (Get data "success") ;;
       if ToBoolean success then
         cartData <- lift (Get data "data") ;;
         if ToBoolean cartData then
           match cartData with
           | JSArray cartItems => lift (mapC normalizeItem cartItems)
           | _ => throw (ErrorObject "TypeError" (JSString "cartItems.map is not a function"))
           end
         else ret []
       else ret [])
    (fun error => consoleError "Get cart error:" ;;; ret []).

Definition updateCartQuantity (itemId : string) (quantity : JSValue) : M JSValue :=
  tryCatch
    (token <- getAuthToken ;;
     if falsyToken token then throw (newError (JSString "Authentication required"))
     else
       n <- lift (safeNumber quantity) ;;
       let safeQuantity := Math_max [1%float; n] in
       response <- fetch {| url := "/api/cart/" ++ itemId; method := "PUT";
                            headers := [("Content-Type", "application/json");
                                        ("Authorization", "Bearer " ++ tokenString token)];
                            body := JSON_stringify
                                      (JSObject [("quantity", JSNumber safeQuantity)]) |} ;;
       data <- lift (json response) ;;
       success <- lift (Get data "success") ;;
       (if ToBoolean success then dispatchEvent "cartUpdated" else ret tt) ;;;
       ret success)
    (fun error => consoleError "Update cart quantity error:" ;;; ret (JSBoolean false)).

(** Get cart total price with safe number handling.  The argument is an
    array, as its type says: the [Array.isArray] guard passes. *)
Definition getCartTotal (cartItems : list CartItem.t) : Completion number :=
  reduceC
    (fun (total : number) (item : CartItem.t) =>
       let! itemTotal := safeNumber (CartItem.total item) in
       let! itemTotal :=
         if strictEqNumber itemTotal 0%float then
           let! price := safeNumber (CartItem.price item) in
           let! quantity := safeNumber (CartItem.quantity item) in
           Normal (price * quantity)%float
         else Normal itemTotal in
       Normal (total + itemTotal)%float)
    cartItems 0%float.

(** Get cart subtotal (before taxes/shipping) with safe number handling *)
Definition getCartSubtotal (cartItems : list CartItem.t) : Completion number :=
  getCartTotal cartItems.

(** Get cart items count - count unique items, not quantities (again for
    an argument that is an array) *)
Definition getCartItemsCount (cartItems : list CartItem.t) : nat :=
  List.length cartItems.

(** Calculate cart summary with safe number handling *)
Definition getCartSummary (cartItems : list CartItem.t) : Completion CartSummary.t :=
  let! subtotal := getCartSubtotal cartItems in
  let itemCount := getCartItemsCount cartItems in
  let taxRate := 0.08%float in
  let tax := (subtotal * taxRate)%float in
  let shippingThreshold := 50000%float in
  let shippingFee := 500%float in
  let shipping := if gt subtotal shippingThreshold then 0%float else shippingFee in
  let total := (subtotal + tax + shipping)%float in
  Normal
    {| CartSummary.itemCount := itemCount;
       CartSummary.subtotal := Math_max [0%float; subtotal];
       CartSummary.tax := Math_max [0%float; tax];
       CartSummary.shipping := Math_max [0%float; shipping];
       CartSummary.total := Math_max [0%float; total] |}.

(** [addToCart(productId, quantity = 1, color?)]: the default applies to
    an argument that is undefined.  The function resolves to the object
    [{...cartItem, price, quantity, total}] or rejects; its own [catch]
    logs and rethrows. *)
Definition addToCart (productId quantity color : JSValue) : M JSValue :=
  tryCatch
    (let quantity := match quantity with JSUndefined => JSNumber 1%float | _ => quantity end in
     token <- getAuthToken ;;
     if falsyToken token then throw (newError (JSString "Authentication required"))
     else
       (* Ensure quantity is a valid positive number *)
       n <- lift (safeNumber quantity) ;;
       let safeQuantity := Math_max [1%float; n] in
       response <- fetch {| url := "/api/cart"; method := "POST";
                            headers := [("Content-Type", "application/json");
                                        ("Authorization", "Bearer " ++ tokenString token)];
                            body := JSON_stringify
                                      (JSObject [("product_id", productId);
                                                 ("quantity", JSNumber safeQuantity);
                                                 ("color", color)]) |} ;;
       data <- lift (json response) ;;
       (* if (data.success && data.data) *)
       success <- lift (Get data "success") ;;
       envelope <- (if ToBoolean success then lift (Get data "data") else ret success) ;;
       if ToBoolean envelope then
         dispatchEvent "cartUpdated" ;;;
         cartItem <- lift (Get data "data") ;;
         rawPrice <- lift (Get cartItem "price") ;;
         price <- lift (safeNumber rawPrice) ;;
         rawQuantity <- lift (Get cartItem "quantity") ;;
         itemQuantity <- lift (safeNumber rawQuantity) ;;
         rawTotal <- lift (Get cartItem "total") ;;
         safeTotal <- lift (safeNumber rawTotal) ;;
         total <- (if ToBoolean (JSNumber safeTotal) then ret safeTotal
                   else
                     rawPrice' <- lift (Get cartItem "price") ;;
                     price' <- lift (safeNumber rawPrice') ;;
                     rawQuantity' <- lift (Get cartItem "quantity") ;;
                     quantity' <- lift (safeNumber rawQuantity') ;;
                     ret (price' * quantity')%float) ;;
         ret (JSObject (setProp "total" (JSNumber total)
                          (setProp "quantity" (JSNumber itemQuantity)
                             (setProp "price" (JSNumber price) (spread cartItem)))))
       else
         message <- lift (Get data "message") ;;
         throw (newError (or_ message (JSString "Failed to add to cart"))))
    (fun error => consoleError "Add to cart error:" ;;; throw error).

(** Validate cart item data.  The result is the value of
    [price >= 0 && quantity > 0 && item.id && item.product_id], which is
    the last operand reached. *)
Definition validateCartItem (item : JSValue) : Completion JSValue :=
  if negb (ToBoolean item) then Normal (JSBoolean false)
  else
    let! rawPrice := Get item "price" in
    let! price := safeNumber rawPrice in
    let! rawQuantity := Get item "quantity" in
    let! quantity := safeNumber rawQuantity in
    if negb (ge price 0%float) then Normal (JSBoolean false)
    else if negb (gt quantity 0%float) then Normal (JSBoolean false)
    else
      let! item_id := Get item "id" in
      if negb (ToBoolean item_id) then Normal item_id
      else Get item "product_id".

(** Calculate individual item total safely *)
Definition calculateItemTotal (price quantity : JSValue) : Completion number :=
  let! safePrice := safeNumber price in
  let! safeQuantity := safeNumber quantity in
  Normal (safePrice * safeQuantity)%float.

End WithHost.

Definition removeFromCart (itemId : string) : M JSValue :=
  tryCatch
    (token <- getAuthToken ;;
     if falsyToken token then throw (newError (JSString "Authentication required"))
     else
       response <- fetch {| url := "/api/cart/" ++ itemId; method := "DELETE";
                            headers := [("Authorization", "Bearer " ++ tokenString token)];
                            body := None |} ;;
       data <- lift (json response) ;;
       success <- lift (Get data "success") ;;
       (if ToBoolean success then dispatchEvent "cartUpdated" else ret tt) ;;;
       ret success)
    (fun error => consoleError "Remove from cart error:" ;;; ret (JSBoolean false)).

(** Clear entire cart *)
Definition clearCart : M bool :=
  tryCatch
    (token <- getAuthToken ;;
     if falsyToken token then
       consoleError "No authentication token found" ;;;
       throw (newError (JSString "Authentication required"))
     else
       consoleLog "Attempting to clear cart with token:" ;;;
       response <- fetch {| url := "/api/cart/clear"; method := "DELETE";
                            headers := [("Authorization", "Bearer " ++ tokenString token);
                                        ("Content-Type", "application/json");
                                        ("Accept", "application/json")];
                            body := None |} ;;
       consoleLog "Clear cart response status:" ;;;
       if negb (ok response) then
         errorText <- lift (text response) ;;
         consoleError "Clear cart HTTP error:" ;;;
         throw (newError (JSString ("HTTP " ++ integerToString (status response)
                                      ++ ": " ++ errorText)))
       else
         data <- lift (json response) ;;
         consoleLog "Clear cart response data:" ;;;
         success <- lift (Get data "success") ;;
         if ToBoolean success then
           dispatchEvent "cartUpdated" ;;;
           dispatchEvent "cartCleared" ;;;
           consoleLog "Cart cleared successfully, deleted items:" ;;;
           ret true
         else
           consoleError "Failed to clear cart:" ;;;
           message <- lift (Get data "message") ;;
           throw (newError (or_ message (JSString "Failed to clear cart"))))
    (fun error => consoleError "Clear cart error:" ;;; ret false).

(** Clear cart after successful checkout with retry logic.  The callee
    [clearCart()] is a parameter, so that the wrapper can be run against any
    behaviour of the cart-clear operation; [clearCartAfterCheckout] below is
    the wrapper around [clearCart] itself. *)
Section RetryWrapper.
Variable clearCartOp : M bool.

Definition maxAttempts : nat := 3.

(** How one pass through the body of the [while] loop ends: with the
    function's [return true], or by falling through to [attempts++]. *)
Inductive BodyExit : Type :=
| ReturnTrue
| FallThrough (lastError : option Thrown).

(** [error instanceof Error ? error : new Error(String(error))] *)
Definition asError (error : Thrown) : Thrown :=
  match error with
  | ErrorObject _ _ => error
  | NonError s => newError (JSString s)
  end.

(** The [while (attempts < maxAttempts)] loop.  [None] means the fuel ran
    out before the loop ended; [Some true] that the function returned true
    from inside the loop; [Some false] cannot come out of the loop, which
    ends by handing over [lastError]. *)
Fixpoint retryLoop (fuel attempts : nat) (lastError : option Thrown)
  : M (option (bool + option Thrown)) :=
  if (attempts <? maxAttempts)%nat then
    match fuel with
    | O => ret None
    | S fuel' =>
        exit <- tryCatch
                  (success <- clearCartOp ;;
                   if success : bool then
                     consoleLog "Cart cleared after successful checkout" ;;;
                     ret ReturnTrue
                   else ret (FallThrough lastError))
                  (fun error =>
                     consoleLog "Cart clear attempt failed:" ;;;
                     ret (FallThrough (Some (asError error)))) ;;
        match exit with
        | ReturnTrue => ret (Some (inl true))
        | FallThrough lastError' =>
            let attempts' := S attempts in
            (if (attempts' <? maxAttempts)%nat then
               consoleLog "Waiting before retry attempt" ;;;
               sleep 1000
             else ret tt) ;;;
            retryLoop fuel' attempts' lastError'
        end
    end
  else ret (Some (inr lastError)).

Definition clearCartAfterCheckoutWith (fuel : nat) : M (option bool) :=
  tryCatch
    (consoleLog "Clearing cart after checkout..." ;;;
     exit <- retryLoop fuel 0 None ;;
     match exit with
     | None => ret None
     | Some (inl b) => ret (Some b)
     | Some (inr lastError) =>
         consoleError "Failed to clear cart after multiple attempts. Last error:" ;;;
         throw (match lastError with
                | Some e => e
                | None => newError (JSString "Failed to clear cart after multiple attempts")
                end)
     end)
    (fun error => consoleError "Error clearing cart after checkout:" ;;; ret (Some false)).

End RetryWrapper.

(** The exported function; three units of fuel are one per possible
    attempt. *)
Definition clearCartAfterCheckout : M (option bool) :=
  clearCartAfterCheckoutWith clearCart maxAttempts.

(** A stand-in for the cart-clear operation whose n-th call ends as
    [outcomes n] says (resolving to a boolean or rejecting), each call
    being recorded in the trace. *)
Definition clearCartStub (outcomes : nat -> Completion bool) : M bool :=
  fun w => (outcomes (callCount "clearCart" (trace w)),
            {| authToken := authToken w; network := network w;
               trace := trace w ++ [EvCall "clearCart"] |}).

End Cart.

(* ================================================================== *)
(** * [src/lib/api.ts] *)
(* ================================================================== *)

Module ProductApi.
Import JS Async.
Local Open Scope completion_scope.
Local Open Scope async_scope.

Definition baseUrl : string := "/api/products".

(** What [getProducts] does with the parsed response body [data]
    (the statements after [const data = await response.json()]). *)
Definition normalizeProducts (data : JSValue) : Completion JSValue :=
  (* Handle both direct array response and Laravel API response structure *)
  if isArray data then Normal data
  else
    (* if (data.success && data.data) *)
    let! success := Get data "success" in
    let! envelope := if ToBoolean success then Get data "data" else Normal success in
    if ToBoolean envelope then
      let! payload := Get data "data" in
      Normal (if isArray payload then payload else JSArray [payload])
    else
      (* Fallback for other response structures *)
      let! payload := Get data "data" in
      Normal (or_ (or_ payload data) (JSArray [])).

(** [getProducts(params)]; [query] is [searchParams.toString()], the
    encoded query string built from [params]. *)
Definition getProducts (query : string) : M JSValue :=
  tryCatch
    (let url := baseUrl ++ (if String.eqb query "" then "" else "?" ++ query) in
     consoleLog "Fetching products from:" ;;;
     response <- fetch {| url := url; method := "GET";
                          headers := [("Accept", "application/json");
                                      ("Content-Type", "application/json")];
                          body := None |} ;;
     if negb (ok response) then
       throw (newError (JSString ("HTTP error! status: " ++ integerToString (status response))))
     else
       data <- lift (json response) ;;
       lift (normalizeProducts data))
    (fun error => consoleError "Error fetching products:" ;;; throw error).

Definition categoryMap : list (string * JSValue) :=
  [ ("E-Bike", JSString "Electric Bicycles");
    ("E-Trike", JSString "Electric Tricycles");
    ("E-Motorcycle", JSString "Electric Motorcycles");
    ("E-Dump", JSString "Electric Dump Trucks");
    ("E-Scooter", JSString "Electric Scooters") ].

Definition getProductDisplayName (category : string) : JSValue :=
  or_ (GetPlain categoryMap category) (JSString category).

Definition displayMap : list (string * JSValue) :=
  [ ("Electric Bicycles", JSString "E-Bike");
    ("Electric Tricycles", JSString "E-Trike");
    ("Electric Motorcycles", JSString "E-Motorcycle");
    ("Electric Dump Trucks", JSString "E-Dump");
    ("Electric Scooters", JSString "E-Scooter") ].

Definition getCategoryFromDisplayName (displayName : string) : JSValue :=
  or_ (GetPlain displayMap displayName) (JSString displayName).

(** ** The other readers of the product client *)

(** What [getFeaturedProducts] does with the parsed response body. *)
Definition normalizeFeatured (data : JSValue) : Completion JSValue :=
  (* Handle Laravel API response structure *)
  let! success := Get data "success" in
  let! envelope := if ToBoolean success then Get data "data" else Normal success in
  if ToBoolean envelope then
    let! payload := Get data "data" in
    Normal (if isArray payload then payload else JSArray [payload])
  else if isArray data then Normal data
  else
    let! payload := Get data "data" in
    Normal (or_ (or_ payload data) (JSArray [])).

Definition getFeaturedProducts : M JSValue :=
  tryCatch
    (response <- fetch {| url := baseUrl ++ "/featured"; method := "GET";
                          headers := [("Accept", "application/json");
                                      ("Content-Type", "application/json")];
                          body := None |} ;;
     if negb (ok response) then
       throw (newError (JSString ("HTTP error! status: " ++ integerToString (status response))))
     else
       data <- lift (json response) ;;
       lift (normalizeFeatured data))
    (fun error => consoleError "Error fetching featured products:" ;;; throw error).

(** What [getProduct] does with the parsed response body. *)
Definition normalizeProduct (data : JSValue) : Completion JSValue :=
  (* Handle Laravel API response structure *)
  let! success := Get data "success" in
  let! envelope := if ToBoolean success then Get data "data" else Normal success in
  if ToBoolean envelope then Get data "data"
  else
    let! payload := Get data "data" in
    Normal (or_ payload data).

(** [getProduct(id)]; [id] is the text that the template [`${id}`] gives
    for the product number. *)
Definition getProduct (id : string) : M JSValue :=
  tryCatch
    (response <- fetch {| url := baseUrl ++ "/" ++ id; method := "GET";
                          headers := [("Accept", "application/json");
                                      ("Content-Type", "application/json")];
                          body := None |} ;;
     if negb (ok response) then
       throw (newError (JSString ("HTTP error! status: " ++ integerToString (status response))))
     else
       data <- lift (json response) ;;
       lift (normalizeProduct data))
    (fun error => consoleError "Error fetching product:" ;;; throw error).

Definition defaultCategories : JSValue :=
  JSArray [JSString "E-Bike"; JSString "E-Trike"; JSString "E-Scooter";
           JSString "E-Motorcycle"; JSString "E-Dump"].

(** Method to get available categories *)
Definition getCategories : M JSValue :=
  tryCatch
    (response <- fetch {| url := baseUrl ++ "/categories"; method := "GET";
                          headers := [("Accept", "application/json");
                                      ("Content-Type", "application/json")];
                          body := None |} ;;
     if negb (ok response) then
       (* If categories endpoint doesn't exist, return default categories *)
       ret defaultCategories
     else
       data <- lift (json response) ;;
       payload <- lift (Get data "data") ;;
       ret (or_ (or_ payload data) (JSArray [])))
    (fun error =>
       consoleError "Error fetching categories:" ;;;
       (* Return default categories as fallback *)
       ret defaultCategories).

(** ** The session token

    [getAuthToken()] of the product client reads the entry [session] of
    the local storage.  [hasWindow] says whether [window] is defined,
    [sessionData] is what [localStorage.getItem("session")] gives (a
    string or null, or an exception), and [JSON_parse] is [JSON.parse].
    Whatever is thrown inside is caught and answered by null. *)
Section Session.
Variable JSON_parse : string -> Completion JSValue.

Definition getAuthToken (hasWindow : bool) (sessionData : Completion (option string))
  : JSValue :=
  (* Check if we're in browser environment *)
  if negb hasWindow then JSNull
  else
    match sessionData with
    | Throw _ => JSNull
    | Normal None => JSNull
    | Normal (Some sessionData) =>
        if String.eqb sessionData "" then JSNull
        else
          match (let! session := JSON_parse sessionData in Get session "token") with
          | Normal token => or_ token JSNull
          | Throw _ => JSNull
          end
    end.

End Session.

(** ** Query parameters *)

(** [interface GetProductsParams]: each field is optional. *)
Module GetProductsParams.
Record t : Type :=
  { search : option string;
    category : option string;
    min_price : option number;
    max_price : option number;
    in_stock : option bool;
    sort_by : option string;
    sort_order : option string }.
End GetProductsParams.

(** *** [URLSearchParams.prototype.toString]

    The application/x-www-form-urlencoded serializer (URL standard): names
    and values are encoded as UTF-8; a byte that is an ASCII letter or
    digit or one of [* - . _] stands for itself, a space becomes [+], any
    other byte becomes [%] and two upper-case hexadecimal digits; a name
    and its value are joined by [=], the pairs by [&]. *)

Definition isAlphanumeric (c : ascii) : bool :=
  let n := nat_of_ascii c in
  ((48 <=? n) && (n <=? 57) || (65 <=? n) && (n <=? 90) || (97 <=? n) && (n <=? 122))%nat.

Definition isUnreserved (c : ascii) : bool :=
  isAlphanumeric c || Ascii.eqb c "*"%char || Ascii.eqb c "-"%char || Ascii.eqb c "."%char
  || Ascii.eqb c "_"%char.

Definition hexDigit (n : nat) : ascii :=
  if (n <? 10)%nat then ascii_of_nat (48 + n) else ascii_of_nat (55 + n).

(** The UTF-8 bytes of a code unit below 256. *)
Definition utf8 (c : ascii) : list ascii :=
  let n := nat_of_ascii c in
  if (n <? 128)%nat then [c]
  else [ascii_of_nat (192 + n / 64); ascii_of_nat (128 + n mod 64)].

Definition encodeByte (b : ascii) : string :=
  if isUnreserved b then String b EmptyString
  else if Ascii.eqb b " "%char then "+"
  else
    let n := nat_of_ascii b in
    String "%"%char (String (hexDigit (n / 16)) (String (hexDigit (n mod 16)) EmptyString)).

Fixpoint urlencode (s : string) : string :=
  match s with
  | EmptyString => EmptyString
  | String c r => String.concat "" (map encodeByte (utf8 c)) ++ urlencode r
  end.

Definition URLSearchParams_toString (pairs : list (string * string)) : string :=
  String.concat "&" (map (fun p => urlencode (fst p) ++ "=" ++ urlencode (snd p)) pairs).

Section Query.
(** [Number.prototype.toString], the decimal text of a number. *)
Variable Number_toString : number -> string.

Definition Boolean_toString (b : bool) : string := if b then "true" else "false".

(** [if (x) searchParams.append(name, x)] for an optional string. *)
Definition appendIfTruthy (name : string) (x : option string) : list (string * string) :=
  match x with
  | Some s => if String.eqb s "" then [] else [(name, s)]
  | None => []
  end.

(** [if (x !== undefined) searchParams.append(name, x.toString())] *)
Definition appendIfDefined {A} (name : string) (toString : A -> string) (x : option A)
  : list (string * string) :=
  match x with
  | Some a => [(name, toString a)]
  | None => []
  end.

(** The [searchParams] that [getProducts(params)] builds. *)
Definition searchParamsOf (params : option GetProductsParams.t) : list (string * string) :=
  match params with
  | None => []
  | Some p =>
      (appendIfTruthy "search" (GetProductsParams.search p)
       ++ appendIfTruthy "category" (GetProductsParams.category p)
       ++ appendIfDefined "min_price" Number_toString (GetProductsParams.min_price p)
       ++ appendIfDefined "max_price" Number_toString (GetProductsParams.max_price p)
       ++ appendIfDefined "in_stock" Boolean_toString (GetProductsParams.in_stock p)
       ++ appendIfTruthy "sort_by" (GetProductsParams.sort_by p)
       ++ appendIfTruthy "sort_order" (GetProductsParams.sort_order p))%list
  end.

(** [getProducts(params)] from its parameter object: [getProducts] above
    on the query string the parameters serialize to. *)
Definition getProductsOf (params : option GetProductsParams.t) : M JSValue :=
  getProducts (URLSearchParams_toString (searchParamsOf params)).

(** New utility methods for common filtering scenarios *)
Definition searchProducts (searchTerm : string) (category : option string) : M JSValue :=
  getProductsOf
    (Some {| GetProductsParams.search := Some searchTerm;
             GetProductsParams.category := category;
             GetProductsParams.min_price := None;
             GetProductsParams.max_price := None;
             GetProductsParams.in_stock := None;
             GetProductsParams.sort_by := None;
             GetProductsParams.sort_order := None |}).

Definition getProductsByPriceRange (minPrice maxPrice : number) (category : option string)
  : M JSValue :=
  getProductsOf
    (Some {| GetProductsParams.search := None;
             GetProductsParams.category := category;
             GetProductsParams.min_price := Some minPrice;
             GetProductsParams.max_price := Some maxPrice;
             GetProductsParams.in_stock := None;
             GetProductsParams.sort_by := None;
             GetProductsParams.sort_order := None |}).

Definition getInStockProducts (category : option string) : M JSValue :=
  getProductsOf
    (Some {| GetProductsParams.search := None;
             GetProductsParams.category := category;
             GetProductsParams.min_price := None;
             GetProductsParams.max_price := None;
             GetProductsParams.in_stock := Some true;
             GetProductsParams.sort_by := None;
             GetProductsParams.sort_order := None |}).

(** [getProductsSorted(sortBy, sortOrder = "asc", category?)] *)
Definition getProductsSorted (sortBy : string) (sortOrder category : option string)
  : M JSValue :=
  getProductsOf
    (Some {| GetProductsParams.search := None;
             GetProductsParams.category := category;
             GetProductsParams.min_price := None;
             GetProductsParams.max_price := None;
             GetProductsParams.in_stock := None;
             GetProductsParams.sort_by := Some sortBy;
             GetProductsParams.sort_order :=
               Some (match sortOrder with Some o => o | None => "asc" end) |}).

End Query.

(** ** Deleting a product *)

(** [deleteProduct(id)]; [id] is the text that the template [`${id}`]
    gives, and the token is what [this.getAuthToken()] returns: the
    session token of the world, a string or null as its type says. *)
Definition deleteProduct (id : string) : M unit :=
  tryCatch
    (token <- Async.getAuthToken ;;
     if falsyToken token then throw (newError (JSString "Authentication required"))
     else
       response <- fetch {| url := baseUrl ++ "/" ++ id; method := "DELETE";
                            headers := [("Authorization", "Bearer " ++ tokenString token);
                                        ("Accept", "application/json");
                                        ("Content-Type", "application/json")];
                            body := None |} ;;
       if negb (ok response) then
         errorData <- lift (json response) ;;
         message <- lift (Get errorData "message") ;;
         throw (newError (or_ message
                            (JSString ("HTTP error! status: "
                                         ++ integerToString (status response)))))
       else ret tt)
    (fun error => consoleError "Error deleting product:" ;;; throw error).

End ProductApi.

(* ================================================================== *)
(** * [src/app/api/orders/route.ts] *)
(* ================================================================== *)

Module OrdersRoute.
Import JS Async.
Local Open Scope completion_scope.
Local Open Scope async_scope.

(** The incoming request, as far as the handler reads it: its header
    list, names in lower case as [Headers] keeps them. *)
Record NextRequest : Type :=
  { requestHeaders : list (string * string) }.

(** [request.headers.get(name)]: null when no header has that name, else
    the values joined by a comma and a space. *)
Definition headers_get (request : NextRequest) (name : string) : option string :=
  match map snd (filter (fun h => String.eqb (fst h) name) (requestHeaders request)) with
  | [] => None
  | values => Some (String.concat ", " values)
  end.

(** A response built by [NextResponse.json]: its status and its body, the
    text that [JSON.stringify] wrote, held as [JSON_stringify] gives it. *)
Record NextResponse : Type :=
  { responseStatus : Z;
    responseBody : JSValue }.

(** A status with which a response may not carry a body. *)
Definition nullBodyStatus (s : Z) : bool :=
  ((s =? 101) || (s =? 103) || (s =? 204) || (s =? 205) || (s =? 304))%Z.

(** [NextResponse.json(body, { status })], which is [Response.json] of
    the Fetch standard: the body is serialized first, with a TypeError
    when [JSON.stringify] writes nothing; then building the response
    throws a RangeError for a status outside 200..599 and a TypeError for
    a body given with a null-body status ("initialize a response"). *)
Definition NextResponse_json (body : JSValue) (status : Z) : Completion NextResponse :=
  match JSON_stringify body with
  | None => Throw (ErrorObject "TypeError" (JSString "Value is not JSON serializable"))
  | Some written =>
      if negb ((200 <=? status) && (status <=? 599))%Z then
        Throw (ErrorObject "RangeError" (JSString "init.status must be in the range of 200 to 599, inclusive."))
      else if nullBodyStatus status then
        Throw (ErrorObject "TypeError" (JSString "Response constructor: Invalid response status code"))
      else Normal {| responseStatus := status; responseBody := written |}
  end.

Section Handlers.
(** [process.env.NEXT_PUBLIC_LARAVEL_API_URL], as it prints in a template. *)
Variable NEXT_PUBLIC_LARAVEL_API_URL : string.

Definition failure (message : string) : JSValue :=
  JSObject [("success", JSBoolean false); ("message", JSString message)].

Definition GET (request : NextRequest) : M NextResponse :=
  tryCatch
    (let authHeader := headers_get request "authorization" in
     (* Orders listing requires authentication *)
     if falsyToken authHeader then
       lift (NextResponse_json (failure "Authentication required") 401)
     else
       response <- fetch {| url := NEXT_PUBLIC_LARAVEL_API_URL ++ "/orders"; method := "GET";
                            headers := [("Authorization", tokenString authHeader);
                                        ("Accept", "application/json");
                                        ("Content-Type", "application/json")];
                            body := None |} ;;
       data <- lift (json response) ;;
       lift (NextResponse_json data (status response)))
    (fun error =>
       consoleError "Orders GET error:" ;;;
       lift (NextResponse_json (failure "Internal server error") 500)).

(** [POST(request)]; [requestBody] is what [request.json()] gives, the
    parsed body of the incoming request or an exception. *)
Definition POST (request : NextRequest) (requestBody : Completion JSValue) : M NextResponse :=
  tryCatch
    (let authHeader := headers_get request "authorization" in
     body <- lift requestBody ;;
     (* Orders can be created by both authenticated and guest users *)
     let headers :=
       ([("Accept", "application/json"); ("Content-Type", "application/json")]
        ++ (* Add authorization header if present (for authenticated users) *)
           (if falsyToken authHeader then []
            else [("Authorization", tokenString authHeader)]))%list in
     isGuest <- lift (Get body "is_guest") ;;
     shipping_info <- lift (Get body "shipping_info") ;;
     email <- lift (GetOptional shipping_info "email") ;;
     consoleLog "Creating order:" ;;;
     response <- fetch {| url := NEXT_PUBLIC_LARAVEL_API_URL ++ "/orders"; method := "POST";
                          headers := headers; body := JSON_stringify body |} ;;
     data <- lift (json response) ;;
     success <- lift (Get data "success") ;;
     message <- lift (Get data "message") ;;
     consoleLog "Order creation response:" ;;;
     lift (NextResponse_json data (status response)))
    (fun error =>
       consoleError "Orders POST error:" ;;;
       lift (NextResponse_json (failure "Internal server error") 500)).

End Handlers.
End OrdersRoute.

(* ================================================================== *)
(** * The checkout page *)
(* ================================================================== *)

Module Checkout.
Import JS Async.
Local Open Scope completion_scope.
Local Open Scope async_scope.

(** The [shippingInfo] state. *)
Record ShippingInfo : Type :=
  { firstName : string;
    lastName : string;
    email : string;
    phone : string;
    address : string;
    city : string;
    province : string;
    zipCode : string }.

Definition requiredFields : list string :=
  ["firstName"; "lastName"; "email"; "phone"; "address"; "city"; "province"; "zipCode"].

(** [shippingInfo[field]] for one of the field names above. *)
Definition shippingField (shippingInfo : ShippingInfo) (field : string) : string :=
  if String.eqb field "firstName" then firstName shippingInfo
  else if String.eqb field "lastName" then lastName shippingInfo
  else if String.eqb field "email" then email shippingInfo
  else if String.eqb field "phone" then phone shippingInfo
  else if String.eqb field "address" then address shippingInfo
  else if String.eqb field "city" then city shippingInfo
  else if String.eqb field "province" then province shippingInfo
  else zipCode shippingInfo.

(** [field.replace(/([A-Z])/g, " $1")] *)
Fixpoint spaceBeforeCapitals (s : string) : string :=
  match s with
  | String c r =>
      if isUpper c then String " "%char (String c (spaceBeforeCapitals r))
      else String c (spaceBeforeCapitals r)
  | EmptyString => EmptyString
  end.

(** [[^\\s@]] *)
Definition notSpaceNorAt (c : ascii) : bool :=
  negb (class_s c || Ascii.eqb c "@"%char).

(** [/^[^\\s@]+@[^\\s@]+\\.[^\\s@]+$/] *)
Definition emailRegex : Regex :=
  RSeq (RPlus (RClass notSpaceNorAt))
    (RSeq (RClass (Ascii.eqb "@"%char))
       (RSeq (RPlus (RClass notSpaceNorAt))
          (RSeq (RClass (Ascii.eqb "."%char))
             (RPlus (RClass notSpaceNorAt))))).

(** [/^[0-9]{11}$/] *)
Definition phoneRegex : Regex := RRepeat 11 (RClass class_digit).

Definition toastError (title message : string) : M unit :=
  emit (EvToast "error" [JSString title; JSString message]).

(** The [for (const field of requiredFields)] loop of [validateForm]:
    the first field that is blank after trimming, if any. *)
Fixpoint firstBlankField (shippingInfo : ShippingInfo) (fields : list string) : option string :=
  match fields with
  | [] => None
  | field :: rest =>
      if String.eqb (trim (shippingField shippingInfo field)) "" then Some field
      else firstBlankField shippingInfo rest
  end.

Definition validateForm (shippingInfo : ShippingInfo) : M bool :=
  match firstBlankField shippingInfo requiredFields with
  | Some field =>
      toastError "Validation Error"
        ("Please fill in " ++ toLowerCase (spaceBeforeCapitals field)) ;;;
      ret false
  | None =>
      if negb (test emailRegex (email shippingInfo)) then
        toastError "Validation Error" "Please enter a valid email address" ;;;
        ret false
      else if negb (test phoneRegex (phone shippingInfo)) then
        toastError "Validation Error" "Please enter a valid 11-digit Philippine phone number" ;;;
        ret false
      else if negb (startsWith (phone shippingInfo) "09") then
        toastError "Validation Error" "Phone number should start with 09 (e.g., 09123456789)" ;;;
        ret false
      else ret true
  end.

(** What the submit handler closes over: the form, the cart, the chosen
    payment method and the amounts computed when the page rendered. *)
Record PageState : Type :=
  { shippingInfo : ShippingInfo;
    cart : list Cart.CartItem.t;
    paymentMethod : string;
    subtotal : number;
    shipping : number;
    total : number }.

Definition shippingInfoObject (i : ShippingInfo) : JSValue :=
  JSObject
    [ ("firstName", JSString (firstName i)); ("lastName", JSString (lastName i));
      ("email", JSString (email i)); ("phone", JSString (phone i));
      ("address", JSString (address i)); ("city", JSString (city i));
      ("province", JSString (province i)); ("zipCode", JSString (zipCode i)) ].

Definition orderData (st : PageState) : JSValue :=
  JSObject
    [ ("items",
       JSArray (map (fun item =>
                       JSObject [ ("product_id", Cart.CartItem.product_id item);
                                  ("quantity", Cart.CartItem.quantity item);
                                  ("price", Cart.CartItem.price item);
                                  ("color", Cart.CartItem.color item) ])
                    (cart st)));
      ("shipping_info", shippingInfoObject (shippingInfo st));
      ("payment_method", JSString (paymentMethod st));
      ("subtotal", JSNumber (subtotal st));
      ("shipping_fee", JSNumber (shipping st));
      ("total", JSNumber (total st));
      ("is_guest", JSBoolean false) ].

(** [`/order-success?orderId=${result.data.id}&orderNumber=${result.data.order_number}`]:
    each value is converted to a string as soon as it has been read. *)
Definition orderSuccessPath (result : JSValue) : Completion string :=
  let! data := Get result "data" in
  let! order_id := Get data "id" in
  let! orderId := ToString order_id in
  let! data := Get result "data" in
  let! order_number := Get data "order_number" in
  let! orderNumber := ToString order_number in
  Normal ("/order-success?orderId=" ++ orderId ++ "&orderNumber=" ++ orderNumber).

Section Page.
(** The collaborators the page imports: [clearCartAfterCheckout] from the
    cart module and [refreshCart] from the cart context. *)
Variable clearCartAfterCheckout : M bool.
Variable refreshCart : M unit.

Definition handleSubmit (st : PageState) : M unit :=
  emit (EvCall "preventDefault") ;;;
  valid <- validateForm (shippingInfo st) ;;
  if negb valid then ret tt
  else
    emit (EvSetIsProcessing true) ;;;
    tryFinally
      (tryCatch
         (token <- getAuthToken ;;
          let headers :=
            ("Content-Type", "application/json") ::
            (if falsyToken token then []
             else [("Authorization", "Bearer " ++ tokenString token)]) in
          response <- fetch {| url := "/api/orders"; method := "POST";
                               headers := headers;
                               body := JSON_stringify (orderData st) |} ;;
          result <- lift (json response) ;;
          success <- lift (Get result "success") ;;
          if ToBoolean success then
            cartCleared <- clearCartAfterCheckout ;;
            if cartCleared : bool then
              refreshCart ;;;
              emit (EvCall "setTimeout") ;;;
              dispatchEvent "orderPlaced" ;;;
              data <- lift (Get result "data") ;;
              order_number <- lift (Get data "order_number") ;;
              emit (EvToast "orderPlaced" [order_number]) ;;;
              path <- lift (orderSuccessPath result) ;;
              emit (EvRouterPush path [])
            else
              emit (EvToast "warning"
                      [JSString "Order Placed";
                       JSString "Order successful but cart may need manual refresh"]) ;;;
              path <- lift (orderSuccessPath result) ;;
              emit (EvRouterPush path [])
          else
            message <- lift (Get result "message") ;;
            throw (newError (or_ message (JSString "Order failed"))))
         (fun error =>
            consoleError "Error placing order:" ;;;
            let errorMessage :=
              match error with
              | ErrorObject _ message => message
              | NonError _ => JSString "Unknown error occurred"
              end in
            emit (EvToast "error" [JSString "Order Failed"; errorMessage])))
      (emit (EvSetIsProcessing false)).

End Page.
(** ** Typing into the shipping form *)

Definition isLetter (c : ascii) : bool :=
  let n := nat_of_ascii c in
  ((65 <=? n) && (n <=? 90) || (97 <=? n) && (n <=? 122))%nat.

(** [[a-zA-Z\\s'-]] *)
Definition nameClass (c : ascii) : bool :=
  isLetter c || class_s c || Ascii.eqb c "'"%char || Ascii.eqb c "-"%char.

(** [s.replace(/[...]/g, "")] for a class of code units: every code unit
    of the class is dropped. *)
Fixpoint removeAll (cls : ascii -> bool) (s : string) : string :=
  match s with
  | EmptyString => EmptyString
  | String c r => if cls c then removeAll cls r else String c (removeAll cls r)
  end.

(** [s.slice(0, n)] *)
Fixpoint slice0 (n : nat) (s : string) : string :=
  match n, s with
  | S n', String c r => String c (slice0 n' r)
  | _, _ => EmptyString
  end.

(** [{...shippingInfo, [name]: value}] as far as the eight fields go: a
    name that is none of them adds a key beside them and leaves them as
    they are (the inputs wired to the handler are named after the
    fields). *)
Definition setField (shippingInfo : ShippingInfo) (name value : string) : ShippingInfo :=
  let field (f : string) (old : string) := if String.eqb name f then value else old in
  {| firstName := field "firstName" (firstName shippingInfo);
     lastName := field "lastName" (lastName shippingInfo);
     email := field "email" (email shippingInfo);
     phone := field "phone" (phone shippingInfo);
     address := field "address" (address shippingInfo);
     city := field "city" (city shippingInfo);
     province := field "province" (province shippingInfo);
     zipCode := field "zipCode" (zipCode shippingInfo) |}.

(** [handleInputChange(e)] with [name] and [value] those of [e.target]:
    the state it hands to [setShippingInfo]. *)
Definition handleInputChange (shippingInfo : ShippingInfo) (name value : string)
  : ShippingInfo :=
  (* Special handling for different field types *)
  if String.eqb name "phone" then
    let digitsOnly := removeAll (fun c => negb (class_digit c)) value in
    let limitedDigits := slice0 11 digitsOnly in
    setField shippingInfo name limitedDigits
  else if String.eqb name "firstName" || String.eqb name "lastName" then
    let lettersOnly := removeAll (fun c => negb (nameClass c)) value in
    setField shippingInfo name lettersOnly
  else if String.eqb name "zipCode" then
    let numbersOnly := removeAll (fun c => negb (class_digit c)) value in
    setField shippingInfo name numbersOnly
  else if String.eqb name "city" || String.eqb name "province" then
    let lettersOnly := removeAll (fun c => negb (nameClass c)) value in
    setField shippingInfo name lettersOnly
  else setField shippingInfo name value.

(** ** Filling the form from the signed-in user *)

(** [s.split(" ")]: the pieces between the spaces, at least one. *)
Fixpoint split_space (s : string) : list string :=
  match s with
  | EmptyString => [EmptyString]
  | String c r =>
      if Ascii.eqb c " "%char then EmptyString :: split_space r
      else
        match split_space r with
        | piece :: pieces => String c piece :: pieces
        | [] => [String c EmptyString]
        end
  end.

(** The state updater used after the user is known (on mount, after a
    login and after a registration):
    [(prev) => ({...prev, firstName: nameParts[0] || "",
                 lastName: nameParts.slice(1).join(" ") || "", email})]
    with [nameParts = name.split(" ")]. *)
Definition prefill (userName userEmail : string) (prev : ShippingInfo) : ShippingInfo :=
  let nameParts := split_space userName in
  {| firstName := hd EmptyString nameParts;
     lastName := String.concat " " (tl nameParts);
     email := userEmail;
     phone := phone prev;
     address := address prev;
     city := city prev;
     province := province prev;
     zipCode := zipCode prev |}.

(** ** Loading the cart when the page opens *)

(** [fetchCart()]; [setCart] and [setLoading] are the setters of the
    page's state. *)
Definition fetchCart `{Host} : M unit :=
  tryFinally
    (tryCatch
       (cartItems <- Cart.getCart ;;
        emit (EvCall "setCart") ;;;
        if (List.length cartItems =? 0)%nat then emit (EvRouterPush "/cart" [])
        else ret tt)
       (fun error =>
          consoleError "Error fetching cart:" ;;;
          emit (EvToast "error" [JSString "Failed to Load";
                                 JSString "Could not load cart items"])))
    (emit (EvCall "setLoading")).

End Checkout.

(* ================================================================== *)
(** * Vocabulary of the statements *)
(* ================================================================== *)

Module Spec.
Import JS Async Cart Checkout.
Local Open Scope completion_scope.

(** The sign of a number that is not NaN. *)
Definition signed (b : bool) (s : spec_float) : Prop :=
  match s with
  | S754_zero b' | S754_infinity b' | S754_finite b' _ _ => b' = b
  | S754_nan => False
  end.

Definition finiteSF (s : spec_float) : Prop :=
  match s with
  | S754_zero _ | S754_finite _ _ _ => True
  | _ => False
  end.

Section WithHost.
Context `{Host}.

(** What one line contributes to the subtotal: [item.total] if it
    normalizes to a nonzero number, else price times quantity. *)
Definition lineTotal (item : CartItem.t) : Completion number :=
  let! total := safeNumber (CartItem.total item) in
  if negb (strictEqNumber total 0%float) then Normal total
  else
    let! price := safeNumber (CartItem.price item) in
    let! quantity := safeNumber (CartItem.quantity item) in
    Normal (price * quantity)%float.

(** The sum over the items, from 0, in list order. *)
Definition sumOfLineTotals (items : list CartItem.t) : Completion number :=
  let! totals := mapC lineTotal items in
  Normal (fold_left PrimFloat.add totals 0%float).

(** What a cart item returned by [getCart] has to do with the backend's
    item [raw] it was made from: its price is the normalized backend price,
    which is never NaN; its quantity is the normalized backend quantity
    raised to at least 1; its total is the normalized backend total, or
    price times quantity when that is 0. *)
Definition normalizedFrom (raw : JSValue) (item : CartItem.t) : Prop :=
  exists rawPrice rawQuantity rawTotal price n quantity total,
    Get raw "price" = Normal rawPrice /\
    Get raw "quantity" = Normal rawQuantity /\
    Get raw "total" = Normal rawTotal /\
    safeNumber rawPrice = Normal price /\
    safeNumber rawQuantity = Normal n /\
    safeNumber rawTotal = Normal total /\
    CartItem.price item = JSNumber price /\
    isNaN price = false /\
    quantity = Math_max [1%float; n] /\
    CartItem.quantity item = JSNumber quantity /\
    ge quantity 1 = true /\
    CartItem.total item
    = JSNumber (if strictEqNumber total 0 then (price * quantity)%float else total).

End WithHost.

(** The values that [Number] converts through the host. *)
Definition convertsThroughHost (v : JSValue) : bool :=
  match v with
  | JSArray _ | JSObject _ | JSBuiltin _ => true
  | _ => false
  end.

(** The request [getCart] sends for a session token. *)
Definition cartRequest (token : string) : Request :=
  {| url := "/api/cart"; method := "GET";
     headers := [("Authorization", "Bearer " ++ token)];
     body := None |}.

(** A response with a JSON body: its text and the value it parses to (the
    runs below that never read the text leave it empty). *)
Definition jsonResponse (status : Z) (bodyText : string) (data : JSValue) : Response :=
  {| status := status; text := Normal bodyText; json := Normal data |}.

(** A world with the given session token and no events yet, in which
    every request is answered by [response]. *)
Definition worldAnswering (token : option string) (response : Completion Response) : World :=
  {| authToken := token; network := fun _ _ => response; trace := [] |}.

(** *** The order proxy *)

(** A status that [NextResponse.json] accepts together with a body. *)
Definition relayableStatus (s : Z) : bool :=
  ((200 <=? s) && (s <=? 599))%Z && negb (OrdersRoute.nullBodyStatus s).

(** The request the GET handler sends to the backend. *)
Definition ordersRequest (base authHeader : string) : Request :=
  {| url := base ++ "/orders"; method := "GET";
     headers := [("Authorization", authHeader);
                 ("Accept", "application/json");
                 ("Content-Type", "application/json")];
     body := None |}.

(** The two responses the handler builds itself. *)
Definition response401 : OrdersRoute.NextResponse :=
  {| OrdersRoute.responseStatus := 401;
     OrdersRoute.responseBody := OrdersRoute.failure "Authentication required" |}.

Definition response500 : OrdersRoute.NextResponse :=
  {| OrdersRoute.responseStatus := 500;
     OrdersRoute.responseBody := OrdersRoute.failure "Internal server error" |}.

(** *** The checkout form *)

(** Every code unit is one of 0..9. *)
Fixpoint allDigits (s : string) : bool :=
  match s with
  | EmptyString => true
  | String c r => isDigit c && allDigits r
  end.

(** Not blank: something is left after trimming. *)
Definition filled (s : string) : bool := negb (String.eqb (trim s) "").

(** Exactly 11 digits, the first two being 0 and 9. *)
Definition phoneAccepted (phone : string) : bool :=
  (String.length phone =? 11)%nat && allDigits phone && startsWith phone "09".

(** The checks on the other fields: none is blank and the email matches
    the pattern. *)
Definition otherFieldsValid (i : ShippingInfo) : bool :=
  filled (firstName i) && filled (lastName i) && filled (email i)
  && filled (address i) && filled (city i) && filled (province i)
  && filled (zipCode i) && test emailRegex (email i).

(** A form that passes every check but, possibly, the one on the phone. *)
Definition exampleForm (phone : string) : ShippingInfo :=
  {| firstName := "Juan"; lastName := "Dela Cruz"; email := "juan@example.com";
     phone := phone; address := "1 Rizal St"; city := "Manila";
     province := "Metro Manila"; zipCode := "1000" |}.

(** *** The product client *)

(** The request [getProducts] sends for an encoded query string. *)
Definition productsRequest (query : string) : Request :=
  {| url := ProductApi.baseUrl ++ (if String.eqb query "" then "" else "?" ++ query);
     method := "GET";
     headers := [("Accept", "application/json"); ("Content-Type", "application/json")];
     body := None |}.

Definition categoryCodes : list string :=
  ["E-Bike"; "E-Trike"; "E-Scooter"; "E-Motorcycle"; "E-Dump"].

Definition displayNames : list string :=
  ["Electric Bicycles"; "Electric Tricycles"; "Electric Scooters";
   "Electric Motorcycles"; "Electric Dump Trucks"].

(** [g (f s)] is the string [s]. *)
Definition roundTrips (f g : string -> JSValue) (s : string) : bool :=
  match f s with
  | JSString d =>
      match g d with
      | JSString s' => String.eqb s' s
      | _ => false
      end
  | _ => false
  end.

(** *** The retry wrapper *)


Definition sleepCount (t : list Event) : nat := List.length (filter isSleep t).


(** The world after the given events have been recorded, in order. *)
Definition after (w : World) (events : list Event) : World :=
  fold_left (fun w e => snd (emit e w)) events w.

(** What the loop does between two attempts, when [attempts] have been
    made: a log line and a pause of one second, unless that was the last
    attempt. *)
Definition pause (attempts : nat) : list Event :=
  if (attempts <? maxAttempts)%nat
  then [EvConsoleLog "Waiting before retry attempt"; EvSleep 1000]
  else [].

(** *** The cart summary *)

(** Each of the four amounts of a summary is at least 0. *)
Definition amountsNonNegative (r : CartSummary.t) : bool :=
  ge (CartSummary.subtotal r) 0 && ge (CartSummary.tax r) 0
  && ge (CartSummary.shipping r) 0 && ge (CartSummary.total r) 0.

(** The total of a summary is its subtotal plus its tax plus its
    shipping. *)
Definition totalIsSum (r : CartSummary.t) : bool :=
  strictEqNumber (CartSummary.total r)
    (CartSummary.subtotal r + CartSummary.tax r + CartSummary.shipping r).

(** A cart line with the given price, quantity and total, as numbers. *)
Definition line (price quantity total : number) : CartItem.t :=
  {| CartItem.id := JSString "1";
     CartItem.product_id := JSNumber 1%float;
     CartItem.quantity := JSNumber quantity;
     CartItem.color := JSUndefined;
     CartItem.name := JSString "E-Bike";
     CartItem.price := JSNumber price;
     CartItem.image_url := JSString "/placeholder.svg";
     CartItem.total := JSNumber total;
     CartItem.product := JSObject [] |}.


(** *** Events and requests of the cart client *)

Definition isDispatchOf (name : string) (e : Event) : bool :=
  match e with EvDispatch n => String.eqb n name | _ => false end.

(** How many times the event [name] was dispatched on the window. *)
Definition dispatchCount (name : string) (t : list Event) : nat :=
  List.length (filter (isDispatchOf name) t).

(** The first event recorded after those of [w], in a later world [w']. *)
Definition firstNewEvent (w w' : World) : option Event :=
  nth_error (trace w') (List.length (trace w)).

(** The request [addToCart] sends. *)
Definition addToCartRequest (token : string) (productId : JSValue) (quantity : number)
  (color : JSValue) : Request :=
  {| url := "/api/cart"; method := "POST";
     headers := [("Content-Type", "application/json"); ("Authorization", "Bearer " ++ token)];
     body := JSON_stringify (JSObject [("product_id", productId);
                                       ("quantity", JSNumber quantity);
                                       ("color", color)]) |}.

(** The request [updateCartQuantity] sends. *)
Definition updateQuantityRequest (token itemId : string) (quantity : number) : Request :=
  {| url := "/api/cart/" ++ itemId; method := "PUT";
     headers := [("Content-Type", "application/json"); ("Authorization", "Bearer " ++ token)];
     body := JSON_stringify (JSObject [("quantity", JSNumber quantity)]) |}.

(** The quantity argument of [addToCart] after its default 1 has been
    applied. *)
Definition defaulted (quantity : JSValue) : JSValue :=
  match quantity with JSUndefined => JSNumber 1%float | _ => quantity end.

(** The request [clearCart] sends. *)
Definition clearCartRequest (token : string) : Request :=
  {| url := "/api/cart/clear"; method := "DELETE";
     headers := [("Authorization", "Bearer " ++ token);
                 ("Content-Type", "application/json");
                 ("Accept", "application/json")];
     body := None |}.

(** The session has a token and the backend answers the request of
    [clearCart] with a status in 200..299 and a JSON body whose [success]
    is truthy. *)
Definition clearedBy (w : World) : Prop :=
  exists token response data success,
    authToken w = Some token /\ token <> "" /\
    network w (fetchCount (trace w)) (clearCartRequest token) = Normal response /\
    ok response = true /\
    json response = Normal data /\
    Get data "success" = Normal success /\
    ToBoolean success = true.

(** *** Numbers *)

(** [x === 0]: one of the two zeros. *)
Definition isZero (x : number) : bool := strictEqNumber x 0%float.

(** One of the two infinities. *)
Definition isInfinity (x : number) : bool := PrimFloat.is_infinity x.

(** *** Requests and query strings of the product client *)

Definition readerRequest (path : string) : Request :=
  {| url := ProductApi.baseUrl ++ path; method := "GET";
     headers := [("Accept", "application/json"); ("Content-Type", "application/json")];
     body := None |}.

(** What the categories endpoint gave, when it answered with a status in
    200..299 and a JSON body other than null: [data.data || data || []]. *)
Definition categoriesAnswer (w : World) : option JSValue :=
  match network w (fetchCount (trace w)) (readerRequest "/categories") with
  | Normal response =>
      if ok response then
        match json response with
        | Normal data =>
            match Get data "data" with
            | Normal payload => Some (or_ (or_ payload data) (JSArray []))
            | Throw _ => None
            end
        | Throw _ => None
        end
      else None
  | Throw _ => None
  end.


(** The first value recorded for a name in a list of parameters. *)
Fixpoint lookup (name : string) (pairs : list (string * string)) : option string :=
  match pairs with
  | [] => None
  | (k, v) :: rest => if String.eqb k name then Some v else lookup name rest
  end.

(** An optional string that is present and not empty. *)
Definition nonEmpty (x : option string) : option string :=
  match x with
  | Some s => if String.eqb s "" then None else Some s
  | None => None
  end.

Fixpoint allChars (p : ascii -> bool) (s : string) : bool :=
  match s with
  | EmptyString => true
  | String c r => p c && allChars p r
  end.

Fixpoint countChar (c : ascii) (s : string) : nat :=
  match s with
  | EmptyString => 0
  | String d r => (if Ascii.eqb d c then 1 else 0) + countChar c r
  end.

(** The code units an encoded name or value is made of. *)
Definition isEncoded (c : ascii) : bool :=
  ProductApi.isUnreserved c || Ascii.eqb c "%"%char || Ascii.eqb c "+"%char.

(** *** The order proxy, creating an order *)

(** Undefined or null. *)
Definition isNullish (v : JSValue) : bool :=
  match v with JSUndefined | JSNull => true | _ => false end.

(** The request the POST handler sends to the backend for an incoming
    authorization header (or none) and a parsed body. *)
Definition createOrderRequest (base : string) (authHeader : option string) (body : JSValue)
  : Request :=
  {| url := base ++ "/orders"; method := "POST";
     headers := [("Accept", "application/json"); ("Content-Type", "application/json")]
                ++ (if falsyToken authHeader then []
                    else [("Authorization", tokenString authHeader)]);
     body := JSON_stringify body |}.

(** *** The checkout form, field by field *)

(** The strings a pattern matches, as a relation. *)
Inductive Matches : Regex -> string -> Prop :=
| MEps : Matches REps EmptyString
| MClass p c : p c = true -> Matches (RClass p) (String c EmptyString)
| MSeq r1 r2 s1 s2 : Matches r1 s1 -> Matches r2 s2 -> Matches (RSeq r1 r2) (s1 ++ s2)
| MAltL r1 r2 s : Matches r1 s -> Matches (RAlt r1 r2) s
| MAltR r1 r2 s : Matches r2 s -> Matches (RAlt r1 r2) s
| MStar0 r : Matches (RStar r) EmptyString
| MStarS r s1 s2 : Matches r s1 -> Matches (RStar r) s2 -> Matches (RStar r) (s1 ++ s2).


(** A piece of an email address: not empty, no white space, no [@]. *)
Definition emailPiece (s : string) : Prop :=
  s <> EmptyString /\ allChars notSpaceNorAt s = true.

(** [local@domain.tld], each of the three a piece as above (the domain
    and the last piece may hold further dots). *)
Definition emailShape (s : string) : Prop :=
  exists local domain tld,
    s = local ++ "@" ++ domain ++ "." ++ tld /\
    emailPiece local /\ emailPiece domain /\ emailPiece tld.

(** The code units the form keeps in a field: digits in the phone and
    the zip code, letters, white space, apostrophe and hyphen in the names
    of persons and places, anything in the email and the address. *)
Definition fieldClass (name : string) : ascii -> bool :=
  if String.eqb name "phone" || String.eqb name "zipCode" then class_digit
  else if String.eqb name "firstName" || String.eqb name "lastName"
          || String.eqb name "city" || String.eqb name "province" then nameClass
  else fun _ => true.

(** How many code units the form keeps in a field, if it has a limit. *)
Definition fieldLimit (name : string) : option nat :=
  if String.eqb name "phone" then Some 11 else None.

(** What the form keeps of a typed value: the code units of the field's
    class, up to the field's limit. *)
Definition kept (name value : string) : string :=
  let clean := removeAll (fun c => negb (fieldClass name c)) value in
  match fieldLimit name with
  | Some n => slice0 n clean
  | None => clean
  end.



(** The form passes [validateForm]. *)
Definition formAccepted (i : ShippingInfo) : bool :=
  otherFieldsValid i && phoneAccepted (phone i).

(** *** The submit handler *)



(** [String(message || fallback)]: the message that
    [new Error(message || fallback)] stores, or what the conversion to a
    string throws. *)
Definition messageText (message : JSValue) (fallback : string) : Completion string :=
  ToString (or_ message (JSString fallback)).


(** *** Serialization *)

(** A value that [JSON.stringify] writes as it is: at no depth does it
    hold undefined, a function, or a number that is infinite, NaN or -0. *)
Fixpoint writtenAsIs (v : JSValue) : bool :=
  match v with
  | JSUndefined | JSBuiltin _ => false
  | JSNull | JSBoolean _ | JSString _ => true
  | JSNumber x => isFinite x && negb (isNegativeZero x)
  | JSArray elems =>
      (fix all (l : list JSValue) : bool :=
         match l with
         | [] => true
         | e :: rest => writtenAsIs e && all rest
         end) elems
  | JSObject props =>
      (fix all (l : list (string * JSValue)) : bool :=
         match l with
         | [] => true
         | (_, e) :: rest => writtenAsIs e && all rest
         end) props
  end.

End Spec.

(* ================================================================== *)
(** * Facts about binary64 arithmetic *)
(* ================================================================== *)

Module FloatFacts.
Import JS Spec.

Lemma shr_1_nonneg mrs : (0 <= shr_m mrs)%Z -> (0 <= shr_m (shr_1 mrs))%Z.
Proof.
  destruct mrs as [m r s]; simpl.
  destruct m as [|p|p]; simpl; try lia; destruct p; simpl; lia.
Qed.

Lemma iter_shr_1_nonneg p : forall mrs,
  (0 <= shr_m mrs)%Z -> (0 <= shr_m (SpecFloat.iter_pos shr_1 p mrs))%Z.
Proof.
  induction p; intros mrs Hm; simpl; auto using shr_1_nonneg.
Qed.

Lemma shr_fexp_nonneg m e l :
  (0 <= m)%Z -> (0 <= shr_m (fst (shr_fexp prec emax m e l)))%Z.
Proof.
  intros Hm. unfold shr_fexp, shr.
  assert (H0 : (0 <= shr_m (shr_record_of_loc m l))%Z)
    by (destruct l as [|[]]; simpl; assumption).
  destruct (fexp prec emax (Zdigits2 m + e) - e)%Z; simpl; auto using iter_shr_1_nonneg.
Qed.

Lemma round_nearest_even_nonneg m l : (0 <= m)%Z -> (0 <= round_nearest_even m l)%Z.
Proof.
  intros Hm. destruct l as [|[]]; simpl; try lia.
  destruct (Z.even m); lia.
Qed.

Lemma binary_round_aux_signed sx mx ex lx :
  (0 <= mx)%Z -> signed sx (binary_round_aux prec emax sx mx ex lx).
Proof.
  intros Hm. unfold binary_round_aux.
  pose proof (shr_fexp_nonneg _ ex lx Hm) as H1.
  destruct (shr_fexp prec emax mx ex lx) as [mrs' e']. simpl in H1.
  pose proof (round_nearest_even_nonneg _ (loc_of_shr_record mrs') H1) as H2.
  pose proof (shr_fexp_nonneg _ e' loc_Exact H2) as H3.
  destruct (shr_fexp prec emax _ e' loc_Exact) as [mrs'' e'']. simpl in H3.
  destruct (shr_m mrs'') as [|p|p].
  - exact eq_refl.
  - destruct (e'' <=? emax - prec)%Z; exact eq_refl.
  - lia.
Qed.

Lemma binary_round_signed sx mx ex : signed sx (binary_round prec emax sx mx ex).
Proof.
  unfold binary_round.
  destruct (shl_align mx ex _) as [mz ez].
  apply binary_round_aux_signed. lia.
Qed.

Lemma SFmul_signed b x m e :
  signed b x -> signed b (SF64mul x (S754_finite false m e)).
Proof.
  destruct x as [s|s| |s mx ex]; simpl; intros H; try contradiction; subst;
    try (destruct b; exact eq_refl).
  replace (xorb b false) with b by (destruct b; reflexivity).
  apply binary_round_aux_signed. lia.
Qed.

Lemma SFadd_signed b x y : signed b x -> signed b y -> signed b (SF64add x y).
Proof.
  destruct x as [s|s| |s mx ex], y as [s'|s'| |s' my ey]; simpl;
    intros Hx Hy; try contradiction; subst; try (destruct b; exact eq_refl).
  unfold binary_normalize.
  destruct b; simpl; apply binary_round_signed.
Qed.

Lemma SFadd_finite_not_nan x y :
  x <> S754_nan -> finiteSF y -> SF64add x y <> S754_nan.
Proof.
  destruct x as [s|s| |s mx ex], y as [s'|s'| |s' my ey]; simpl;
    intros Hx Hy; try contradiction; try congruence;
    try (destruct s, s'; congruence).
  unfold binary_normalize.
  match goal with |- context [match ?z with Z0 => _ | Zpos _ => _ | Zneg _ => _ end] =>
    destruct z eqn:Ez end; try congruence.
  - pose proof (binary_round_signed false p (Z.min ex ey)) as H.
    intros E. rewrite E in H. exact H.
  - pose proof (binary_round_signed true p (Z.min ex ey)) as H.
    intros E. rewrite E in H. exact H.
Qed.


(** *** Primitive floats through their specification *)

Lemma isNaN_spec x :
  isNaN x = match Prim2SF x with S754_nan => true | _ => false end.
Proof.
  unfold isNaN, is_nan. rewrite FloatAxioms.eqb_spec. unfold SFeqb.
  destruct (Prim2SF x) as [s|s| |s m e]; simpl; try reflexivity.
  - destruct s; reflexivity.
  - destruct s; rewrite Z.compare_refl, Pos.compare_cont_refl; reflexivity.
Qed.

Lemma Prim2SF_nan x : Prim2SF x = S754_nan -> x = nan.
Proof. intros E. apply Prim2SF_inj. rewrite E. reflexivity. Qed.

Lemma Prim2SF_zero x b : Prim2SF x = S754_zero b -> x = if b then (-0)%float else 0%float.
Proof. intros E. apply Prim2SF_inj. rewrite E. destruct b; reflexivity. Qed.

Lemma Prim2SF_infinity x b :
  Prim2SF x = S754_infinity b -> x = if b then neg_infinity else infinity.
Proof. intros E. apply Prim2SF_inj. rewrite E. destruct b; reflexivity. Qed.

Lemma signed_not_nan b x : signed b (Prim2SF x) -> isNaN x = false.
Proof. rewrite isNaN_spec. destruct (Prim2SF x); simpl; intros H; [reflexivity..|contradiction|reflexivity]. Qed.

Lemma not_nan_signed x : isNaN x = false -> exists b, signed b (Prim2SF x).
Proof.
  rewrite isNaN_spec. destruct (Prim2SF x) as [s|s| |s m e]; intros H;
    try discriminate; exists s; reflexivity.
Qed.

Lemma SFltb_SFleb a b : SFltb a b = true -> SFleb a b = true.
Proof. unfold SFltb, SFleb. destruct (SFcompare a b) as [[]|]; intros H; congruence. Qed.

Lemma gt_ge x y : gt x y = true -> ge x y = true.
Proof. unfold gt, ge. rewrite ltb_spec, leb_spec. apply SFltb_SFleb. Qed.

(** [Math.max(c, y)] for a first argument that is a number other than -0
    and -Infinity. *)
Lemma Math_max_pair c y :
  isNaN c = false -> isNegativeZero c = false -> gt c neg_infinity = true ->
  Math_max [c; y] = if isNaN y then nan else if gt y c then y else c.
Proof.
  intros Hn Hz Hg. unfold Math_max. simpl. rewrite Hn.
  replace (isNegativeZero neg_infinity) with false by reflexivity.
  rewrite Bool.andb_false_r, Hg. simpl.
  destruct (isNaN y); [reflexivity|].
  rewrite Hz, Bool.andb_false_r.
  destruct (gt y c); reflexivity.
Qed.

Lemma Math_max_0 y :
  Math_max [0%float; y] = if isNaN y then nan else if gt y 0%float then y else 0%float.
Proof. apply Math_max_pair; reflexivity. Qed.

Lemma Math_max_1 y :
  Math_max [1%float; y] = if isNaN y then nan else if gt y 1%float then y else 1%float.
Proof. apply Math_max_pair; reflexivity. Qed.

Lemma Math_max_0_nan y : isNaN y = true -> Math_max [0%float; y] = nan.
Proof. intros H. rewrite Math_max_0, H. reflexivity. Qed.

Lemma Math_max_0_nonneg y : signed false (Prim2SF y) -> Math_max [0%float; y] = y.
Proof.
  intros H. rewrite Math_max_0, (signed_not_nan _ _ H).
  unfold gt. rewrite ltb_spec.
  destruct (Prim2SF y) as [s|s| |s m e] eqn:E; simpl in H; try contradiction; subst s.
  - apply Prim2SF_zero in E. subst y. reflexivity.
  - reflexivity.
  - reflexivity.
Qed.

Lemma Math_max_0_neg y : signed true (Prim2SF y) -> Math_max [0%float; y] = 0%float.
Proof.
  intros H. rewrite Math_max_0, (signed_not_nan _ _ H).
  unfold gt. rewrite ltb_spec.
  destruct (Prim2SF y) as [s|s| |s m e] eqn:E; simpl in H; try contradiction; subst s;
    reflexivity.
Qed.

Lemma mul_rate_signed b x : signed b (Prim2SF x) -> signed b (Prim2SF (x * 0.08)%float).
Proof. intros H. rewrite mul_spec. apply SFmul_signed. exact H. Qed.

Lemma add_signed b x y :
  signed b (Prim2SF x) -> signed b (Prim2SF y) -> signed b (Prim2SF (x + y)%float).
Proof. intros Hx Hy. rewrite add_spec. apply SFadd_signed; assumption. Qed.

End FloatFacts.

(* ================================================================== *)
(** * Facts about the cart utilities *)
(* ================================================================== *)

Module CartFacts.
Import JS Async Cart Spec FloatFacts.
Local Open Scope completion_scope.
Local Open Scope async_scope.

Section WithHost.
Context `{Host}.

Lemma guard_not_nan num : isNaN (if isNaN num then 0%float else num) = false.
Proof. destruct (isNaN num) eqn:E; [reflexivity | exact E]. Qed.

Lemma safeNumber_not_nan v x : safeNumber v = Normal x -> isNaN x = false.
Proof.
  unfold safeNumber.
  destruct v; simpl; intros E;
    try (injection E as <-; first [reflexivity | apply guard_not_nan]).
  all: destruct (ObjectToNumber _) as [num|t]; simpl in E; try discriminate;
    injection E as <-; apply guard_not_nan.
Qed.

Lemma safeNumber_number x :
  safeNumber (JSNumber x) = Normal (if isNaN x then 0%float else x).
Proof. reflexivity. Qed.

Lemma safeNumber_string s :
  safeNumber (JSString s) = Normal (if isNaN (parseFloat s) then 0%float else parseFloat s).
Proof. reflexivity. Qed.

(** The callback of [reduce] adds the line total to the accumulator. *)
Lemma reduce_step (acc : number) item :
  (let! itemTotal := safeNumber (CartItem.total item) in
   let! itemTotal :=
     if strictEqNumber itemTotal 0%float then
       let! price := safeNumber (CartItem.price item) in
       let! quantity := safeNumber (CartItem.quantity item) in
       Normal (price * quantity)%float
     else Normal itemTotal in
   Normal (acc + itemTotal)%float)
  = (let! t := lineTotal item in Normal (acc + t)%float).
Proof.
  unfold lineTotal.
  destruct (safeNumber (CartItem.total item)) as [t|e]; simpl; [|reflexivity].
  destruct (strictEqNumber t 0); simpl; [|reflexivity].
  destruct (safeNumber (CartItem.price item)); simpl; [|reflexivity].
  destruct (safeNumber (CartItem.quantity item)); reflexivity.
Qed.

Lemma getCartTotal_from acc items :
  reduceC
    (fun (total : number) (item : CartItem.t) =>
       let! itemTotal := safeNumber (CartItem.total item) in
       let! itemTotal :=
         if strictEqNumber itemTotal 0%float then
           let! price := safeNumber (CartItem.price item) in
           let! quantity := safeNumber (CartItem.quantity item) in
           Normal (price * quantity)%float
         else Normal itemTotal in
       Normal (total + itemTotal)%float)
    items acc
  = (let! totals := mapC lineTotal items in Normal (fold_left PrimFloat.add totals acc)).
Proof.
  revert acc. induction items as [|item items IH]; intros acc; simpl; [reflexivity|].
  rewrite reduce_step.
  destruct (lineTotal item) as [t|e]; simpl; [|reflexivity].
  rewrite IH. destruct (mapC lineTotal items); reflexivity.
Qed.

Lemma getCartTotal_sum items : getCartTotal items = sumOfLineTotals items.
Proof. apply getCartTotal_from. Qed.

Lemma clamped_ge_1 n : isNaN n = false -> ge (Math_max [1%float; n]) 1 = true.
Proof.
  intros Hn. rewrite Math_max_1, Hn.
  destruct (gt n 1) eqn:E; [apply gt_ge, E | reflexivity].
Qed.

Lemma orNumber_not_nan t c :
  isNaN t = false -> orNumber t c = if strictEqNumber t 0 then c else t.
Proof.
  intros Hn. unfold orNumber, ToBoolean. rewrite Hn. simpl.
  destruct (strictEqNumber t 0); reflexivity.
Qed.

Ltac cbind_inv H :=
  repeat match type of H with
    | cbind ?c _ = Normal _ =>
        let E := fresh "E" in
        destruct c eqn:E; cbn [cbind] in H; [|discriminate H]
    end.

Lemma normalizeItem_normalizedFrom raw item :
  normalizeItem raw = Normal item -> normalizedFrom raw item.
Proof.
  intros Hi. unfold normalizeItem in Hi. cbind_inv Hi. injection Hi as <-.
  unfold normalizedFrom. cbn [CartItem.price CartItem.quantity CartItem.total].
  do 7 eexists. repeat split; try eassumption; try reflexivity.
  - eapply safeNumber_not_nan; eassumption.
  - apply clamped_ge_1. eapply safeNumber_not_nan; eassumption.
  - f_equal. apply orNumber_not_nan. eapply safeNumber_not_nan; eassumption.
Qed.

Lemma mapC_normalizeItem raws : forall items,
  mapC normalizeItem raws = Normal items -> Forall2 normalizedFrom raws items.
Proof.
  induction raws as [|raw raws IH]; intros items Hm; simpl in Hm.
  - injection Hm as <-. constructor.
  - cbind_inv Hm. injection Hm as <-. constructor.
    + apply normalizeItem_normalizedFrom; assumption.
    + apply IH; reflexivity.
Qed.

Lemma getCart_items w :
  exists items w' raws,
    getCart w = (Normal items, w') /\
    Forall2 normalizedFrom raws items /\
    (items <> [] ->
     exists token response data,
       authToken w = Some token /\
       network w (fetchCount (trace w)) (cartRequest token) = Normal response /\
       json response = Normal data /\
       Get data "data" = Normal (JSArray raws)).
Proof.
  unfold getCart, tryCatch, bind, getAuthToken, fetch, lift, ret, throw, consoleError, emit.
  destruct (authToken w) as [token|] eqn:Etok; cbn [falsyToken tokenString].
  2: { exists [], w, []. repeat split; [constructor | congruence]. }
  destruct (String.eqb token "") eqn:Ee.
  { exists [], w, []. repeat split; [constructor | congruence]. }
  cbn [trace authToken network].
  destruct (network w (fetchCount (trace w)) _) as [response|t] eqn:Enet.
  2: { eexists [], _, []. repeat split; [constructor | congruence]. }
  destruct (json response) as [data|t] eqn:Ejson.
  2: { eexists [], _, []. repeat split; [constructor | congruence]. }
  destruct (Get data "success") as [success|t] eqn:Esucc.
  2: { eexists [], _, []. repeat split; [constructor | congruence]. }
  destruct (ToBoolean success).
  2: { eexists [], _, []. repeat split; [constructor | congruence]. }
  destruct (Get data "data") as [cartData|t] eqn:Edata.
  2: { eexists [], _, []. repeat split; [constructor | congruence]. }
  destruct (ToBoolean cartData).
  2: { eexists [], _, []. repeat split; [constructor | congruence]. }
  destruct cartData as [ | | | | |cartItems| | ];
    try (eexists [], _, []; repeat split; [constructor | congruence]).
  destruct (mapC normalizeItem cartItems) as [items|t] eqn:Emap.
  2: { eexists [], _, []. repeat split; [constructor | congruence]. }
  exists items. eexists. exists cartItems. split; [reflexivity|]. split.
  - apply mapC_normalizeItem, Emap.
  - intros _. exists token, response, data. repeat split; assumption.
Qed.

(** [getCartSummary] in terms of the sum of the line totals. *)
Lemma getCartSummary_sum items :
  getCartSummary items =
  (let! sum := sumOfLineTotals items in
   let shipping := if gt sum 50000 then 0%float else 500%float in
   Normal {| CartSummary.itemCount := List.length items;
             CartSummary.subtotal := Math_max [0%float; sum];
             CartSummary.tax := Math_max [0%float; (sum * 0.08)%float];
             CartSummary.shipping := Math_max [0%float; shipping];
             CartSummary.total := Math_max [0%float; (sum + sum * 0.08 + shipping)%float] |}).
Proof.
  unfold getCartSummary, getCartSubtotal. rewrite getCartTotal_sum. reflexivity.
Qed.

End WithHost.

(** The three float identities behind the summary. *)

Lemma sign_cases s :
  s = nan \/ signed false (Prim2SF s) \/ signed true (Prim2SF s).
Proof.
  destruct (Prim2SF s) as [b|b| |b m e] eqn:E; simpl.
  - right. destruct b; auto.
  - right. destruct b; auto.
  - left. apply Prim2SF_nan, E.
  - right. destruct b; auto.
Qed.

Lemma clamped_tax s :
  Math_max [0%float; (s * 0.08)%float] = (Math_max [0%float; s] * 0.08)%float.
Proof.
  destruct (sign_cases s) as [-> | [Hs | Hs]].
  - reflexivity.
  - rewrite (Math_max_0_nonneg _ Hs).
    apply Math_max_0_nonneg, mul_rate_signed, Hs.
  - rewrite (Math_max_0_neg _ Hs).
    rewrite (Math_max_0_neg _ (mul_rate_signed _ _ Hs)). reflexivity.
Qed.

Lemma gt_threshold_negative s : signed true (Prim2SF s) -> gt s 50000 = false.
Proof.
  intros Hs. unfold gt. rewrite ltb_spec.
  destruct (Prim2SF s) as [b|b| |b m e]; simpl in Hs; try contradiction; subst b;
    reflexivity.
Qed.

Lemma clamped_threshold s : gt (Math_max [0%float; s]) 50000 = gt s 50000.
Proof.
  destruct (sign_cases s) as [-> | [Hs | Hs]].
  - reflexivity.
  - rewrite (Math_max_0_nonneg _ Hs). reflexivity.
  - rewrite (Math_max_0_neg _ Hs), (gt_threshold_negative _ Hs). reflexivity.
Qed.

Lemma clamped_shipping s :
  Math_max [0%float; if gt s 50000 then 0%float else 500%float]
  = if gt s 50000 then 0%float else 500%float.
Proof. destruct (gt s 50000); reflexivity. Qed.

(** Clamping at 0 gives a number that is at least 0, unless it gives NaN. *)
Lemma clamped_ge_0 y : isNaN y = false -> ge (Math_max [0%float; y]) 0 = true.
Proof.
  intros Hn. destruct (not_nan_signed _ Hn) as [[|] Hs].
  - rewrite (Math_max_0_neg _ Hs). reflexivity.
  - rewrite (Math_max_0_nonneg _ Hs). unfold ge. rewrite leb_spec.
    destruct (Prim2SF y) as [b|b| |b m e]; simpl in Hs; try contradiction; subst b;
      reflexivity.
Qed.

Lemma shipping_signed s :
  signed false (Prim2SF (if gt s 50000 then 0%float else 500%float)).
Proof. destruct (gt s 50000); vm_compute; reflexivity. Qed.

Lemma shipping_finite s :
  finiteSF (Prim2SF (if gt s 50000 then 0%float else 500%float)).
Proof. destruct (gt s 50000); vm_compute; exact I. Qed.

Lemma raw_total_not_nan s :
  isNaN s = false ->
  isNaN (s + s * 0.08 + (if gt s 50000 then 0 else 500))%float = false.
Proof.
  intros Hn. destruct (not_nan_signed _ Hn) as [b Hs].
  pose proof (add_signed _ _ _ Hs (mul_rate_signed _ _ Hs)) as Hst.
  rewrite isNaN_spec, add_spec.
  assert (Hne : Prim2SF (s + s * 0.08)%float <> S754_nan)
    by (intros E; rewrite E in Hst; exact Hst).
  pose proof (SFadd_finite_not_nan _ _ Hne (shipping_finite s)) as Hr.
  destruct (SF64add _ _); congruence.
Qed.

Lemma ge_0_cases s : ge s 0 = true -> s = (-0)%float \/ signed false (Prim2SF s).
Proof.
  unfold ge. rewrite leb_spec.
  destruct (Prim2SF s) as [b|b| |b m e] eqn:E; simpl; intros Hge; try discriminate.
  - destruct b; [left; apply (Prim2SF_zero _ _ E) | right; reflexivity].
  - destruct b; [discriminate | right; reflexivity].
  - destruct b; [discriminate | right; reflexivity].
Qed.

(** For a sum that is at least 0 nothing is clamped, so the returned total
    is the sum of the three returned amounts. *)
Lemma clamped_total_additive s :
  ge s 0 = true ->
  let shipping := if gt s 50000 then 0%float else 500%float in
  Math_max [0%float; (s + s * 0.08 + shipping)%float]
  = (Math_max [0%float; s] + Math_max [0%float; (s * 0.08)%float]
     + Math_max [0%float; shipping])%float.
Proof.
  intros Hge shipping. destruct (ge_0_cases _ Hge) as [-> | Hs].
  - reflexivity.
  - unfold shipping. rewrite clamped_shipping.
    rewrite (Math_max_0_nonneg _ Hs).
    rewrite (Math_max_0_nonneg _ (mul_rate_signed _ _ Hs)).
    apply Math_max_0_nonneg.
    apply add_signed; [apply add_signed; [exact Hs | apply mul_rate_signed, Hs]|].
    apply shipping_signed.
Qed.

End CartFacts.

(* ================================================================== *)
(** * Facts about the retry wrapper *)
(* ================================================================== *)

Module RetryFacts.
Import JS Async Cart Spec.
Local Open Scope async_scope.




Section Loop.
Variable op : M bool.



End Loop.

Lemma trace_after es : forall w, trace (after w es) = (trace w ++ es)%list.
Proof.
  induction es as [|e es IH]; intros w; simpl.
  - rewrite app_nil_r. reflexivity.
  - rewrite IH. simpl. rewrite <- app_assoc. reflexivity.
Qed.



Section Stub.
Variable outcomes : nat -> Completion bool.




End Stub.
End RetryFacts.

(* ================================================================== *)
(** * Facts about serialization *)
(* ================================================================== *)

Module JsonFacts.
Import JS Spec.

(** A value without anything that serialization changes is written as it
    is. *)
Lemma JSON_stringify_writtenAsIs v : writtenAsIs v = true -> JSON_stringify v = Some v.
Proof.
  induction v using JSValue_nested_ind; cbn [writtenAsIs JSON_stringify]; intros Hv;
    try discriminate; try reflexivity.
  - apply andb_prop in Hv. destruct Hv as [Hf Hz]. rewrite Hf.
    apply negb_true_iff in Hz. rewrite Hz. reflexivity.
  - do 2 f_equal. induction H as [|e rest He Hrest IH]; [reflexivity|].
    apply andb_prop in Hv. destruct Hv as [H1 H2].
    rewrite (He H1), (IH H2). reflexivity.
  - do 2 f_equal. induction H as [|[k e] rest He Hrest IH]; [reflexivity|].
    apply andb_prop in Hv. destruct Hv as [H1 H2]. cbn [snd] in He.
    rewrite (He H1), (IH H2). reflexivity.
Qed.

(** What is written holds nothing that serialization would change. *)
Lemma JSON_stringify_settled v written :
  JSON_stringify v = Some written -> writtenAsIs written = true.
Proof.
  revert written.
  induction v using JSValue_nested_ind; cbn [JSON_stringify]; intros written Hw;
    try discriminate; try (injection Hw as <-; reflexivity).
  - injection Hw as <-. destruct (isFinite x) eqn:Hf; [|reflexivity].
    destruct (isNegativeZero x) eqn:Hz; [reflexivity|].
    cbn [writtenAsIs]. rewrite Hf, Hz. reflexivity.
  - destruct (String.eqb name "Object.prototype.__proto__"); [|discriminate].
    injection Hw as <-. reflexivity.
  - injection Hw as <-. cbn [writtenAsIs].
    induction H as [|e rest He Hrest IH]; [reflexivity|].
    destruct (JSON_stringify e) as [we|] eqn:Ee.
    + rewrite (He we eq_refl). exact IH.
    + cbn [writtenAsIs andb]. exact IH.
  - injection Hw as <-. cbn [writtenAsIs].
    induction H as [|[k e] rest He Hrest IH]; [reflexivity|]. cbn [snd] in He.
    destruct (JSON_stringify e) as [we|] eqn:Ee.
    + rewrite (He we eq_refl). exact IH.
    + exact IH.
Qed.

Lemma JSON_stringify_idempotent v written :
  JSON_stringify v = Some written -> JSON_stringify written = Some written.
Proof. intros Hw. apply JSON_stringify_writtenAsIs, (JSON_stringify_settled v), Hw. Qed.

End JsonFacts.

(* ================================================================== *)
(** * Facts about the order proxy and the checkout form *)
(* ================================================================== *)

Module RouteFacts.
Import JS Async Spec OrdersRoute.
Local Open Scope async_scope.

Lemma GET_unauthenticated base request w :
  falsyToken (headers_get request "authorization") = true ->
  GET base request w = (Normal response401, w).
Proof.
  intros Hf. unfold GET, tryCatch. rewrite Hf. reflexivity.
Qed.

Lemma GET_forwarded base request w value :
  headers_get request "authorization" = Some value ->
  value <> "" ->
  let req := ordersRequest base value in
  let w1 := after w [EvFetch req] in
  GET base request w =
  match network w (fetchCount (trace w)) req with
  | Normal response =>
      match json response with
      | Normal data =>
          match JSON_stringify data with
          | Some written =>
              if relayableStatus (status response)
              then (Normal {| responseStatus := status response;
                              responseBody := written |}, w1)
              else (Normal response500, after w1 [EvConsoleError "Orders GET error:"])
          | None => (Normal response500, after w1 [EvConsoleError "Orders GET error:"])
          end
      | Throw _ => (Normal response500, after w1 [EvConsoleError "Orders GET error:"])
      end
  | Throw _ => (Normal response500, after w1 [EvConsoleError "Orders GET error:"])
  end.
Proof.
  intros Hh Hv req w1. unfold GET, tryCatch. rewrite Hh.
  cbn [falsyToken tokenString].
  replace (String.eqb value "") with false
    by (symmetry; apply String.eqb_neq; exact Hv).
  unfold bind at 1, fetch. fold (ordersRequest base value). fold req.
  destruct (network w (fetchCount (trace w)) req) as [response|t]; [|reflexivity].
  unfold bind, lift.
  destruct (json response) as [data|t]; [|reflexivity].
  unfold NextResponse_json, relayableStatus.
  destruct (JSON_stringify data) as [written|]; [|reflexivity].
  destruct ((200 <=? status response) && (status response <=? 599))%Z; [|reflexivity].
  destruct (nullBodyStatus (status response)); reflexivity.
Qed.

End RouteFacts.

Module CheckoutFacts.
Import JS Async Spec Checkout.
Local Open Scope async_scope.

Lemma test_REmpty_seq r s : test (RSeq REmpty r) s = false.
Proof. induction s as [|c s IH]; simpl; [reflexivity | exact IH]. Qed.

Lemma test_REmpty s : test REmpty s = false.
Proof. induction s as [|c s IH]; simpl; [reflexivity | exact IH]. Qed.

Lemma test_RAlt s : forall r1 r2, test (RAlt r1 r2) s = test r1 s || test r2 s.
Proof. induction s as [|c s IH]; intros r1 r2; simpl; [reflexivity | apply IH]. Qed.

Lemma test_REps_seq s : forall r, test (RSeq REps r) s = test r s.
Proof.
  destruct s as [|c s]; intros r; simpl; [reflexivity|].
  rewrite test_RAlt, test_REmpty_seq. reflexivity.
Qed.

(** [{n}] of a class: exactly [n] code units, all of the class. *)
Lemma test_RRepeat_class p n : forall s,
  test (RRepeat n (RClass p)) s
  = (String.length s =? n)%nat
    && (fix all (s : string) : bool :=
          match s with
          | EmptyString => true
          | String c r => p c && all r
          end) s.
Proof.
  induction n as [|n IH]; intros [|c s]; simpl; try reflexivity.
  - rewrite test_REmpty. reflexivity.
  - destruct (p c); simpl.
    + rewrite test_REps_seq. apply IH.
    + rewrite test_REmpty_seq. rewrite Bool.andb_false_r. reflexivity.
Qed.

Lemma test_phoneRegex s :
  test phoneRegex s = (String.length s =? 11)%nat && allDigits s.
Proof. unfold phoneRegex. rewrite test_RRepeat_class. reflexivity. Qed.

Lemma digit_not_space c : isDigit c = true -> isWhiteSpace c = false.
Proof.
  unfold isDigit, isWhiteSpace. intros H.
  apply Bool.andb_true_iff in H. destruct H as [H1 H2].
  apply Nat.leb_le in H1. apply Nat.leb_le in H2.
  repeat match goal with
    | |- context [(?a <=? ?b)%nat] => destruct (Nat.leb_spec a b); try lia
    | |- context [(?a =? ?b)%nat] => destruct (Nat.eqb_spec a b); try lia
    end; reflexivity.
Qed.

Lemma length_rev_string s : forall acc,
  String.length (rev_string s acc) = String.length s + String.length acc.
Proof.
  induction s as [|c s IH]; intros acc; simpl; [reflexivity|].
  rewrite IH. simpl. lia.
Qed.

(** Reversing digits onto a string that starts with a digit, or reversing
    at least one digit, gives a string that starts with a digit. *)
Lemma rev_string_digits s : forall acc,
  allDigits s = true ->
  (s <> EmptyString \/ exists d t, acc = String d t /\ isDigit d = true) ->
  exists d t, rev_string s acc = String d t /\ isDigit d = true.
Proof.
  induction s as [|c s IH]; intros acc Ha Hs; simpl.
  - destruct Hs as [Hs|Hs]; [congruence | exact Hs].
  - simpl in Ha. apply Bool.andb_true_iff in Ha. destruct Ha as [Hc Ha].
    apply IH; [exact Ha|]. right. exists c, acc. split; [reflexivity | exact Hc].
Qed.

Lemma digits_filled s : allDigits s = true -> s <> EmptyString -> filled s = true.
Proof.
  intros Ha Hs. unfold filled, trim, trimEnd.
  destruct s as [|c s]; [congruence|].
  assert (Hc : isDigit c = true) by (simpl in Ha; apply Bool.andb_true_iff in Ha; tauto).
  cbn [trimStart]. rewrite (digit_not_space _ Hc).
  destruct (rev_string_digits (String c s) EmptyString Ha (or_introl Hs)) as (d & t & E & Hd).
  rewrite E. cbn [trimStart]. rewrite (digit_not_space _ Hd).
  destruct (rev_string (String d t) "") eqn:Er; [|reflexivity].
  pose proof (length_rev_string (String d t) "") as Hl. rewrite Er in Hl. simpl in Hl. lia.
Qed.

Lemma phoneAccepted_filled s : phoneAccepted s = true -> filled s = true.
Proof.
  unfold phoneAccepted. intros H.
  apply Bool.andb_true_iff in H. destruct H as [H _].
  apply Bool.andb_true_iff in H. destruct H as [Hl Ha].
  apply digits_filled; [exact Ha|].
  intros ->. discriminate.
Qed.

Lemma validateForm_result i w :
  exists w',
    validateForm i w = (Normal (otherFieldsValid i && phoneAccepted (phone i)), w') /\
    (otherFieldsValid i && phoneAccepted (phone i) = true -> w' = w) /\
    (otherFieldsValid i && phoneAccepted (phone i) = false ->
     exists message, w' = after w [EvToast "error" [JSString "Validation Error"; JSString message]]).
Proof.
  pose proof (phoneAccepted_filled (phone i)) as Hpf.
  unfold otherFieldsValid, phoneAccepted in *.
  rewrite <- test_phoneRegex in *.
  unfold validateForm, requiredFields. cbn [firstBlankField shippingField String.eqb Ascii.eqb Bool.eqb].
  unfold filled in *.
  destruct (String.eqb (trim (firstName i)) ""); cbn [negb andb];
    [eexists; split; [reflexivity|split; [discriminate|intros _; eexists; reflexivity]]|].
  destruct (String.eqb (trim (lastName i)) ""); cbn [negb andb];
    [eexists; split; [reflexivity|split; [discriminate|intros _; eexists; reflexivity]]|].
  destruct (String.eqb (trim (email i)) ""); cbn [negb andb];
    [eexists; split; [reflexivity|split; [discriminate|intros _; eexists; reflexivity]]|].
  destruct (String.eqb (trim (phone i)) "") eqn:Ep; cbn [negb andb].
  { assert (Hno : test phoneRegex (phone i) && startsWith (phone i) "09" = false).
    { destruct (test phoneRegex (phone i) && startsWith (phone i) "09"); [|reflexivity].
      specialize (Hpf eq_refl). discriminate. }
    rewrite Hno, !Bool.andb_false_r.
    eexists; split; [reflexivity|split; [discriminate|intros _; eexists; reflexivity]]. }
  destruct (String.eqb (trim (address i)) ""); cbn [negb andb];
    [eexists; split; [reflexivity|split; [discriminate|intros _; eexists; reflexivity]]|].
  destruct (String.eqb (trim (city i)) ""); cbn [negb andb];
    [eexists; split; [reflexivity|split; [discriminate|intros _; eexists; reflexivity]]|].
  destruct (String.eqb (trim (province i)) ""); cbn [negb andb];
    [eexists; split; [reflexivity|split; [discriminate|intros _; eexists; reflexivity]]|].
  destruct (String.eqb (trim (zipCode i)) ""); cbn [negb andb];
    [eexists; split; [reflexivity|split; [discriminate|intros _; eexists; reflexivity]]|].
  destruct (test emailRegex (email i)); cbn [negb andb];
    [|eexists; split; [reflexivity|split; [discriminate|intros _; eexists; reflexivity]]].
  destruct (test phoneRegex (phone i)); cbn [negb andb];
    [|eexists; split; [reflexivity|split; [discriminate|intros _; eexists; reflexivity]]].
  destruct (startsWith (phone i) "09"); cbn [negb andb];
    [|eexists; split; [reflexivity|split; [discriminate|intros _; eexists; reflexivity]]].
  exists w. split; [reflexivity|]. split; [reflexivity | discriminate].
Qed.

(** A form that is not accepted stops [handleSubmit] after the toast. *)
Lemma handleSubmit_blocked clear refresh st w :
  otherFieldsValid (shippingInfo st) && phoneAccepted (phone (shippingInfo st)) = false ->
  exists message,
    handleSubmit clear refresh st w
    = (Normal tt,
       after w [EvCall "preventDefault";
                EvToast "error" [JSString "Validation Error"; JSString message]]).
Proof.
  intros Hno. unfold handleSubmit.
  unfold bind at 1. unfold emit at 1. cbv iota beta.
  unfold bind at 1.
  match goal with |- context [validateForm _ ?w1] =>
    destruct (validateForm_result (shippingInfo st) w1) as (w' & E & _ & Hw)
  end.
  rewrite E, Hno. cbn [negb].
  destruct (Hw Hno) as (message & ->). exists message. reflexivity.
Qed.

End CheckoutFacts.

(* ================================================================== *)
(** * Facts about the product client *)
(* ================================================================== *)

Module ProductFacts.
Import JS Async Spec ProductApi.
Local Open Scope async_scope.

(** [getProducts] hands the parsed body of an OK response to the
    normalization, and resolves or rejects as the normalization does. *)
Lemma getProducts_normalizes query w response data :
  network w (fetchCount (trace w)) (productsRequest query) = Normal response ->
  ok response = true ->
  json response = Normal data ->
  fst (getProducts query w) = normalizeProducts data.
Proof.
  intros Hn Hok Hj.
  unfold getProducts, tryCatch, bind, consoleLog, fetch, lift.
  cbn [emit trace authToken network].
  replace (fetchCount (trace w ++ [EvConsoleLog "Fetching products from:"]))
    with (fetchCount (trace w))
    by (unfold fetchCount; rewrite filter_app, length_app; cbn; lia).
  fold (productsRequest query). rewrite Hn, Hok. cbn [negb]. rewrite Hj.
  destruct (normalizeProducts data); reflexivity.
Qed.

End ProductFacts.

(* ================================================================== *)
(** * The claims *)
(* ================================================================== *)

Import JS Async Cart Spec.
Local Open Scope completion_scope.

(** ** Cart summary *)

(** C1 (as stated, refuted): for the one-line cart with price -1000,
    quantity 1 and no total, the sum of the line totals is -1000 but
    [getCartSummary] returns subtotal 0: the returned subtotal is not the
    sum. *)
Lemma C1_negative_sum_is_clamped :
  let cart := [line (-1000) 1 0] in
  let r := {| CartSummary.itemCount := 1;
              CartSummary.subtotal := 0;
              CartSummary.tax := 0;
              CartSummary.shipping := 500;
              CartSummary.total := 0 |} in
  @sumOfLineTotals dataHost cart = Normal (-1000)%float /\
  @getCartSummary dataHost cart = Normal r /\
  strictEqNumber (CartSummary.subtotal r) (-1000) = false.
Proof. repeat split. Qed.

(** C1 (amended): for every list of cart items, [getCartSummary] returns
    [itemCount] equal to the number of line items; [subtotal] equal to the
    sum over the items of (item.total if it normalizes to a nonzero number,
    else price times quantity) clamped below at 0 by [Math.max(0, _)];
    [tax] equal to 8% of the returned subtotal; [shipping] equal to 0 when
    the returned subtotal exceeds 50000 and 500 otherwise.  It throws
    exactly when normalizing a field throws.  For the one-item cart
    [{price:1000, quantity:2, total:0}] it returns subtotal 2000, tax 160,
    shipping 500 and total 2660, and whenever the subtotal is 60000 the
    shipping is 0. *)
Theorem C1_getCartSummary_amounts :
  forall (host : Host) (items : list CartItem.t),
    match sumOfLineTotals items with
    | Normal sum =>
        exists r,
          getCartSummary items = Normal r /\
          CartSummary.itemCount r = List.length items /\
          CartSummary.subtotal r = Math_max [0%float; sum] /\
          CartSummary.tax r = (CartSummary.subtotal r * 0.08)%float /\
          CartSummary.shipping r
            = (if gt (CartSummary.subtotal r) 50000 then 0%float else 500%float) /\
          (CartSummary.subtotal r = 60000%float -> CartSummary.shipping r = 0%float)
    | Throw t => getCartSummary items = Throw t
    end
    /\ getCartSummary [line 1000 2 0]
        = Normal {| CartSummary.itemCount := 1;
                    CartSummary.subtotal := 2000;
                    CartSummary.tax := 160;
                    CartSummary.shipping := 500;
                    CartSummary.total := 2660 |}.
Proof.
  intros host items. split; [|reflexivity].
  rewrite CartFacts.getCartSummary_sum.
  destruct (sumOfLineTotals items) as [sum|t]; [|reflexivity].
  cbn [cbind]. eexists. split; [reflexivity|].
  cbn [CartSummary.itemCount CartSummary.subtotal CartSummary.tax CartSummary.shipping].
  rewrite CartFacts.clamped_tax, CartFacts.clamped_shipping, CartFacts.clamped_threshold.
  repeat split.
  intros E. rewrite <- CartFacts.clamped_threshold, E. reflexivity.
Qed.

(** The theorem at a cart of one line, 30000 times 2: the subtotal is
    60000 and the shipping is 0. *)
Lemma C1_witness_subtotal_60000 :
  exists r,
    @getCartSummary dataHost [line 30000 2 0] = Normal r /\
    CartSummary.subtotal r = 60000%float /\
    CartSummary.shipping r = 0%float.
Proof.
  destruct (C1_getCartSummary_amounts dataHost [line 30000 2 0]) as [H _].
  change (@sumOfLineTotals dataHost [line 30000 2 0]) with (@Normal float 60000%float) in H.
  destruct H as (r & Hr & _ & Hs & _ & _ & H60).
  exists r. split; [exact Hr|].
  assert (E : CartSummary.subtotal r = 60000%float) by (rewrite Hs; reflexivity).
  split; [exact E | exact (H60 E)].
Defined.

(** C7 (as stated, refuted): for the one-line cart with price -1000 the
    returned total, 0, is not subtotal + tax + shipping, 500; and for two
    lines of 1e308 times 10 and -1e308 times 10, whose totals overflow to
    +Infinity and -Infinity, subtotal, tax and total are NaN, which is not
    at least 0. *)
Lemma C7_clamping_breaks_the_sum :
  let r1 := {| CartSummary.itemCount := 1;
               CartSummary.subtotal := 0;
               CartSummary.tax := 0;
               CartSummary.shipping := 500;
               CartSummary.total := 0 |} in
  let r2 := {| CartSummary.itemCount := 2;
               CartSummary.subtotal := nan;
               CartSummary.tax := nan;
               CartSummary.shipping := 500;
               CartSummary.total := nan |} in
  (@getCartSummary dataHost [line (-1000) 1 0] = Normal r1 /\ totalIsSum r1 = false) /\
  (@getCartSummary dataHost [line 1e308 10 0; line (-1e308) 10 0] = Normal r2 /\
   amountsNonNegative r2 = false).
Proof. repeat split. Qed.

(** C7 (amended): for every list of cart items on which [getCartSummary]
    returns, with [sum] the sum of the line totals: the shipping is at
    least 0; when [sum] is not NaN, subtotal, tax and total are at least 0
    too; and when [sum] is at least 0, the total equals subtotal + tax +
    shipping. *)
Theorem C7_summary_nonnegative_and_additive :
  forall (host : Host) (items : list CartItem.t) (sum : float) (r : CartSummary.t),
    sumOfLineTotals items = Normal sum ->
    getCartSummary items = Normal r ->
    ge (CartSummary.shipping r) 0 = true /\
    (isNaN sum = false ->
       ge (CartSummary.subtotal r) 0 = true /\
       ge (CartSummary.tax r) 0 = true /\
       ge (CartSummary.total r) 0 = true) /\
    (ge sum 0 = true ->
       CartSummary.total r
       = (CartSummary.subtotal r + CartSummary.tax r + CartSummary.shipping r)%float).
Proof.
  intros host items sum r Hsum Hr.
  rewrite CartFacts.getCartSummary_sum, Hsum in Hr. cbn [cbind] in Hr.
  injection Hr as <-.
  cbn [CartSummary.subtotal CartSummary.tax CartSummary.shipping CartSummary.total].
  split; [|split].
  - rewrite CartFacts.clamped_shipping. destruct (gt sum 50000); reflexivity.
  - intros Hn. destruct (FloatFacts.not_nan_signed _ Hn) as [b Hs].
    repeat split; apply CartFacts.clamped_ge_0.
    + exact Hn.
    + exact (FloatFacts.signed_not_nan _ _ (FloatFacts.mul_rate_signed _ _ Hs)).
    + apply CartFacts.raw_total_not_nan, Hn.
  - intros Hge. apply CartFacts.clamped_total_additive, Hge.
Qed.

(** The theorem at the cart [{price:1000, quantity:2, total:0}], whose sum
    is 2000: all four amounts are at least 0 and 2660 = 2000 + 160 + 500. *)
Lemma C7_witness_example_cart :
  let r := {| CartSummary.itemCount := 1;
              CartSummary.subtotal := 2000;
              CartSummary.tax := 160;
              CartSummary.shipping := 500;
              CartSummary.total := 2660 |} in
  amountsNonNegative r = true /\
  CartSummary.total r
  = (CartSummary.subtotal r + CartSummary.tax r + CartSummary.shipping r)%float.
Proof.
  destruct (C7_summary_nonnegative_and_additive dataHost [line 1000 2 0] 2000
              {| CartSummary.itemCount := 1;
                 CartSummary.subtotal := 2000;
                 CartSummary.tax := 160;
                 CartSummary.shipping := 500;
                 CartSummary.total := 2660 |} eq_refl eq_refl)
    as (Hship & Hnn & Hadd).
  destruct (Hnn eq_refl) as (Hsub & Htax & Htot).
  split; [|exact (Hadd eq_refl)].
  unfold amountsNonNegative. rewrite Hsub, Htax, Hship, Htot. reflexivity.
Defined.

(** ** The numeric normalizer *)

(** C2 (as stated, refuted): [safeNumber(Infinity)] is Infinity, and so is
    [safeNumber("Infinity")]: the result is not a finite number. *)
Lemma C2_infinity_passes_through :
  @safeNumber dataHost (JSNumber infinity) = Normal infinity /\
  @safeNumber dataHost (JSString "Infinity") = Normal infinity /\
  isFinite infinity = false.
Proof. repeat split. Qed.

(** C2 (amended): for every input value, [safeNumber] returns a number
    that is not NaN, unless the value is an object, array or function
    whose conversion by [Number] throws, which it lets through.  It
    returns 0 for null, undefined, NaN and every string that [parseFloat]
    cannot read; for a string that [parseFloat] can read it returns the
    number read, which is an infinity for "Infinity" and "-Infinity"; and
    it returns a number that is not NaN unchanged: finite numbers stay
    finite, negative numbers stay negative, and the infinities are
    returned as they are.  In particular [safeNumber("12.5") = 12.5],
    [safeNumber(null) = 0], [safeNumber(NaN) = 0] and
    [safeNumber(-3) = -3]. *)
Theorem C2_safeNumber_never_NaN :
  forall (host : Host),
    (forall value,
       match safeNumber value with
       | Normal x => isNaN x = false
       | Throw t => convertsThroughHost value = true /\ ObjectToNumber value = Throw t
       end) /\
    safeNumber JSNull = Normal 0%float /\
    safeNumber JSUndefined = Normal 0%float /\
    safeNumber (JSNumber nan) = Normal 0%float /\
    (forall s, isNaN (parseFloat s) = true -> safeNumber (JSString s) = Normal 0%float) /\
    (forall s, isNaN (parseFloat s) = false ->
       safeNumber (JSString s) = Normal (parseFloat s)) /\
    (forall x, isNaN x = false -> safeNumber (JSNumber x) = Normal x) /\
    safeNumber (JSString "12.5") = Normal 12.5%float /\
    safeNumber (JSNumber (-3)) = Normal (-3)%float /\
    safeNumber (JSString "abc") = Normal 0%float /\
    safeNumber (JSString "") = Normal 0%float /\
    safeNumber (JSString "Infinity") = Normal infinity /\
    safeNumber (JSString "-Infinity") = Normal neg_infinity.
Proof.
  intros host. split; [|repeat split].
  - intros value.
    destruct (safeNumber value) as [x|t] eqn:E.
    + exact (CartFacts.safeNumber_not_nan _ _ E).
    + destruct value; simpl in E; try discriminate; split; try reflexivity;
        destruct (ObjectToNumber _); simpl in E; congruence.
  - intros s Hs. rewrite CartFacts.safeNumber_string, Hs. reflexivity.
  - intros s Hs. rewrite CartFacts.safeNumber_string, Hs. reflexivity.
  - intros x Hx. rewrite CartFacts.safeNumber_number, Hx. reflexivity.
Qed.

(** The theorem at the strings "abc", "1e5x" and "  -1e999" and at the
    number -3. *)
Lemma C2_witness_strings_and_negative :
  @safeNumber dataHost (JSString "abc") = Normal 0%float /\
  isNaN 100000 = false /\
  @safeNumber dataHost (JSString "1e5x") = Normal 100000%float /\
  @safeNumber dataHost (JSString "  -1e999") = Normal neg_infinity /\
  @safeNumber dataHost (JSNumber (-3)) = Normal (-3)%float.
Proof.
  destruct (C2_safeNumber_never_NaN dataHost)
    as (Hall & _ & _ & _ & Hstr & Hread & Hnum & _).
  split; [exact (Hstr "abc" eq_refl)|].
  split; [exact (Hall (JSString "1e5x"))|].
  split; [exact (Hread "1e5x" eq_refl)|].
  split; [exact (Hread "  -1e999" eq_refl)|].
  exact (Hnum (-3)%float eq_refl).
Defined.

(** ** The cart list *)

(** C6 (as stated, refuted): when the backend sends the price "Infinity"
    (a string, as it sends other prices), the item resolved by [getCart]
    has price Infinity, which is not finite. *)
Lemma C6_price_need_not_be_finite :
  let data :=
    JSObject [("success", JSBoolean true);
              ("data", JSArray [JSObject [("price", JSString "Infinity");
                                          ("quantity", JSNumber 2)]])] in
  let w := worldAnswering (Some "token") (Normal (jsonResponse 200 "" data)) in
  match fst (@getCart dataHost w) with
  | Normal items =>
      map CartItem.price items = [JSNumber infinity] /\
      map CartItem.quantity items = [JSNumber 2] /\
      map CartItem.total items = [JSNumber infinity]
  | Throw _ => False
  end /\
  isFinite infinity = false.
Proof. repeat split. Qed.

(** C6 (amended): [getCart] always resolves, and every cart item in the
    list it resolves to comes from an item of the backend's list in such a
    way that: its quantity is at least 1; its price is the normalized
    backend price, a number that is not NaN; its total equals price times
    quantity whenever the backend-supplied total normalizes to 0, and is
    the normalized backend total otherwise.  A list that is not empty is
    built from the [data] array of the response to the cart request. *)
Theorem C6_getCart_items_normalized :
  forall (host : Host) (w : World),
    exists items w' raws,
      getCart w = (Normal items, w') /\
      Forall2 normalizedFrom raws items /\
      (items <> [] ->
       exists token response data,
         authToken w = Some token /\
         network w (fetchCount (trace w)) (cartRequest token) = Normal response /\
         json response = Normal data /\
         Get data "data" = Normal (JSArray raws)).
Proof. intros host w. apply CartFacts.getCart_items. Qed.

(** The theorem in a world where the backend lists one item with the
    price "1999.50" (a string), quantity 0 and no total: the item resolved
    has price 1999.5, quantity 1 and total 1999.5. *)
Lemma C6_witness_stringy_price :
  let data :=
    JSObject [("success", JSBoolean true);
              ("data", JSArray [JSObject [("price", JSString "1999.50");
                                          ("quantity", JSNumber 0)]])] in
  let w := worldAnswering (Some "token") (Normal (jsonResponse 200 "" data)) in
  exists items raws,
    fst (@getCart dataHost w) = Normal items /\
    Forall2 (@normalizedFrom dataHost) raws items /\
    map CartItem.price items = [JSNumber 1999.5] /\
    map CartItem.quantity items = [JSNumber 1] /\
    map CartItem.total items = [JSNumber 1999.5].
Proof.
  intros data w.
  destruct (C6_getCart_items_normalized dataHost w) as (items & w' & raws & Hg & Hf & _).
  exists items, raws.
  assert (E : fst (@getCart dataHost w) = Normal items) by (rewrite Hg; reflexivity).
  split; [exact E|]. split; [exact Hf|].
  vm_compute in E. injection E as <-. repeat split.
Defined.

(** ** The retry wrapper *)


(** Two runs of the wrapper from the empty trace: against an operation
    that fails twice and then succeeds it resolves to true after exactly 3
    attempts and 2 pauses; against one that always rejects it resolves to
    false after exactly 3 attempts. *)
Example retry_wrapper_runs :
  let w := worldAnswering None (Throw (NonError "offline")) in
  let twice := fun n => Normal (Nat.leb 2 n) in
  let never := fun _ : nat => @Throw bool (NonError "boom") in
  let run1 := clearCartAfterCheckoutWith (clearCartStub twice) maxAttempts w in
  let run2 := clearCartAfterCheckoutWith (clearCartStub never) maxAttempts w in
  fst run1 = Normal (Some true) /\
  callCount "clearCart" (trace (snd run1)) = 3 /\
  sleepCount (trace (snd run1)) = 2 /\
  fst run2 = Normal (Some false) /\
  callCount "clearCart" (trace (snd run2)) = 3.
Proof. repeat split. Qed.

(** ** The order proxy *)

(** C4 (as stated, refuted): a request whose authorization header is
    present with an empty value is answered 401 without any request to the
    backend; and when the header is "Bearer abc" and the backend answers
    502 with a body that is not JSON, the handler answers 500 with its own
    body instead of the backend's status and body. *)
Lemma C4_present_header_not_always_relayed :
  let w := worldAnswering None
             (Normal {| status := 502;
                        text := Normal "<html>Bad Gateway</html>";
                        json := Throw (ErrorObject "SyntaxError"
                                         (JSString "Unexpected token < in JSON")) |}) in
  let empty := {| OrdersRoute.requestHeaders := [("authorization", "")] |} in
  let bearer := {| OrdersRoute.requestHeaders := [("authorization", "Bearer abc")] |} in
  OrdersRoute.headers_get empty "authorization" = Some "" /\
  OrdersRoute.GET "http://backend/api" empty w = (Normal response401, w) /\
  OrdersRoute.GET "http://backend/api" bearer w
  = (Normal response500,
     after w [EvFetch (ordersRequest "http://backend/api" "Bearer abc");
              EvConsoleError "Orders GET error:"]).
Proof. repeat split. Qed.

(** C4 (amended): for every GET request to the order proxy endpoint in
    which no authorization header is present, or only an empty one, the
    handler returns HTTP status 401 with body
    [{success:false, message:"Authentication required"}] and performs no
    request to the backend.  When the header has a non-empty value, it
    sends one GET request for [/orders] to the backend, carrying that
    value; when the backend answers with a body that parses as JSON and a
    status that a response with a body may carry (200 to 599 other than
    204, 205 and 304), it relays that status and, as the body, the parsed
    body written again by [JSON.stringify]; in every other case (no
    answer, a body that is not JSON, another status) it logs the error and
    answers 500 with [{success:false, message:"Internal server error"}].
    The body relayed is the backend's when that holds no number that is
    infinite or -0; otherwise it differs from it: the parsed body 1e400
    (Infinity) is relayed as null, and -0 as 0. *)
Theorem C4_orders_GET :
  forall (base : string) (request : OrdersRoute.NextRequest) (w : World),
    (forall data, writtenAsIs data = true -> JSON_stringify data = Some data) /\
    JSON_stringify (JSNumber (parseFloat "1e400")) = Some JSNull /\
    JSON_stringify (JSObject [("total", JSNumber (parseFloat "-0"))])
    = Some (JSObject [("total", JSNumber 0)]) /\
    match OrdersRoute.headers_get request "authorization" with
    | None => OrdersRoute.GET base request w = (Normal response401, w)
    | Some value =>
        if String.eqb value "" then
          OrdersRoute.GET base request w = (Normal response401, w)
        else
          let req := ordersRequest base value in
          let w1 := after w [EvFetch req] in
          let failed := (Normal response500, after w1 [EvConsoleError "Orders GET error:"]) in
          OrdersRoute.GET base request w =
          match network w (fetchCount (trace w)) req with
          | Normal response =>
              match json response with
              | Normal data =>
                  match JSON_stringify data with
                  | Some written =>
                      if relayableStatus (status response)
                      then (Normal {| OrdersRoute.responseStatus := status response;
                                      OrdersRoute.responseBody := written |}, w1)
                      else failed
                  | None => failed
                  end
              | Throw _ => failed
              end
          | Throw _ => failed
          end
    end.
Proof.
  intros base request w.
  split; [exact JsonFacts.JSON_stringify_writtenAsIs|].
  split; [reflexivity|]. split; [reflexivity|].
  destruct (OrdersRoute.headers_get request "authorization") as [value|] eqn:Hh.
  - destruct (String.eqb value "") eqn:He.
    + apply RouteFacts.GET_unauthenticated. rewrite Hh. exact He.
    + apply (RouteFacts.GET_forwarded base request w value Hh).
      apply String.eqb_neq, He.
  - apply RouteFacts.GET_unauthenticated. rewrite Hh. reflexivity.
Qed.

(** The handler on a request without headers, and on one with a bearer
    token that the backend answers with status 200 and a list of orders:
    once with finite amounts, once with an amount that overflows. *)
Example orders_GET_runs :
  let orders amount :=
    JSObject [("success", JSBoolean true);
              ("data", JSArray [JSObject [("id", JSNumber 7); ("total", amount)]])] in
  let w amount := worldAnswering None (Normal (jsonResponse 200 "" (orders amount))) in
  let anonymous := {| OrdersRoute.requestHeaders := [] |} in
  let bearer := {| OrdersRoute.requestHeaders := [("authorization", "Bearer abc")] |} in
  let finite := JSNumber 2500 in
  let overflow := JSNumber (parseFloat "1e400") in
  OrdersRoute.GET "http://backend/api" anonymous (w finite) = (Normal response401, w finite) /\
  OrdersRoute.GET "http://backend/api" bearer (w finite)
  = (Normal {| OrdersRoute.responseStatus := 200;
               OrdersRoute.responseBody := orders finite |},
     after (w finite) [EvFetch (ordersRequest "http://backend/api" "Bearer abc")]) /\
  OrdersRoute.GET "http://backend/api" bearer (w overflow)
  = (Normal {| OrdersRoute.responseStatus := 200;
               OrdersRoute.responseBody := orders JSNull |},
     after (w overflow) [EvFetch (ordersRequest "http://backend/api" "Bearer abc")]).
Proof. repeat split. Qed.

(** ** The cart client without a token *)

(** C5: for every call made while no auth token is present (the token is
    null, or the empty string), [getCart] resolves to the empty list, and
    [updateCartQuantity], [removeFromCart] and [clearCart] each resolve to
    false rather than rejecting; none of them makes a network request:
    [getCart] leaves the world as it is, the others only log an error. *)
Theorem C5_no_token_no_request :
  forall (host : Host) (w : World) (itemId : string) (quantity : JSValue),
    falsyToken (authToken w) = true ->
    getCart w = (Normal [], w) /\
    updateCartQuantity itemId quantity w
    = (Normal (JSBoolean false), after w [EvConsoleError "Update cart quantity error:"]) /\
    removeFromCart itemId w
    = (Normal (JSBoolean false), after w [EvConsoleError "Remove from cart error:"]) /\
    clearCart w
    = (Normal false, after w [EvConsoleError "No authentication token found";
                               EvConsoleError "Clear cart error:"]) /\
    fetchCount (trace (snd (getCart w))) = fetchCount (trace w) /\
    fetchCount (trace (snd (updateCartQuantity itemId quantity w))) = fetchCount (trace w) /\
    fetchCount (trace (snd (removeFromCart itemId w))) = fetchCount (trace w) /\
    fetchCount (trace (snd (clearCart w))) = fetchCount (trace w).
Proof.
  intros host w itemId quantity Hf.
  assert (E1 : getCart w = (Normal [], w))
    by (unfold getCart, tryCatch, bind, getAuthToken; rewrite Hf; reflexivity).
  assert (E2 : updateCartQuantity itemId quantity w
               = (Normal (JSBoolean false),
                  after w [EvConsoleError "Update cart quantity error:"]))
    by (unfold updateCartQuantity, tryCatch, bind, getAuthToken; rewrite Hf; reflexivity).
  assert (E3 : removeFromCart itemId w
               = (Normal (JSBoolean false),
                  after w [EvConsoleError "Remove from cart error:"]))
    by (unfold removeFromCart, tryCatch, bind, getAuthToken; rewrite Hf; reflexivity).
  assert (E4 : clearCart w
               = (Normal false,
                  after w [EvConsoleError "No authentication token found";
                           EvConsoleError "Clear cart error:"]))
    by (unfold clearCart, tryCatch, bind, getAuthToken; rewrite Hf; reflexivity).
  rewrite E1, E2, E3, E4. cbn [snd].
  repeat split; unfold fetchCount; rewrite RetryFacts.trace_after, filter_app, length_app;
    cbn; lia.
Qed.

(** The theorem in a world without a token whose backend would answer
    every request with a success: nothing is requested all the same. *)
Lemma C5_witness_guest :
  let w := worldAnswering None
             (Normal (jsonResponse 200 "" (JSObject [("success", JSBoolean true)]))) in
  @getCart dataHost w = (Normal [], w) /\
  fst (@updateCartQuantity dataHost "7" (JSNumber 2) w) = Normal (JSBoolean false) /\
  fst (removeFromCart "7" w) = Normal (JSBoolean false) /\
  fst (clearCart w) = Normal false /\
  fetchCount (trace (snd (clearCart w))) = 0.
Proof.
  intros w.
  destruct (C5_no_token_no_request dataHost w "7" (JSNumber 2) eq_refl)
    as (E1 & E2 & E3 & E4 & _ & _ & _ & F4).
  split; [exact E1|]. rewrite E2, E3. split; [reflexivity|]. split; [reflexivity|].
  split; [rewrite E4; reflexivity | exact F4].
Defined.

(** ** The product client *)

(** C8 (as stated, refuted): on the body [{data: 0}], which is none of
    the recognized shapes, [getProducts] returns the body itself, where
    [data.data ?? data ?? []] is 0; on the body [0] it returns the empty
    list, where [data.data ?? data ?? []] is 0. *)
Lemma C8_fallback_is_not_nullish_coalescing :
  let body := JSObject [("data", JSNumber 0)] in
  ProductApi.normalizeProducts body = Normal body /\
  nullish (nullish (JSNumber 0) body) (JSArray []) = JSNumber 0 /\
  ProductApi.normalizeProducts (JSNumber 0) = Normal (JSArray []) /\
  nullish (nullish JSUndefined (JSNumber 0)) (JSArray []) = JSNumber 0.
Proof. repeat split. Qed.

(** C8 (amended): the response normalization in [getProducts] maps each
    of the three success shapes to a list of products: a bare array is
    returned as it is; an envelope [{success:true, data:[...]}] yields the
    array; an envelope [{success:true, data:{...}}] yields a one-element
    list holding that object.  The envelope is recognized by truthiness
    alone: every body that is not an array and whose [success] and [data]
    are both truthy yields [data] when that is an array and the
    one-element list [[data]] when it is anything else, so that
    [{success:true, data:"abc"}] yields [["abc"]] and
    [{success:"yes", data:{...}}] yields a one-element list.  Every other
    body but null and undefined (its [success] or its [data] is falsy)
    falls back to [data.data || data || []], the first of the three that
    is truthy.  On the bodies null and undefined it throws.  These cases
    cover every body.  [getProducts] resolves (or rejects) with what this
    normalization gives on the parsed body of an OK response. *)
Theorem C8_getProducts_normalization :
  forall data : JSValue,
    (isArray data = true -> ProductApi.normalizeProducts data = Normal data) /\
    (forall props items,
       data = JSObject props ->
       assoc "success" props = Some (JSBoolean true) ->
       assoc "data" props = Some (JSArray items) ->
       ProductApi.normalizeProducts data = Normal (JSArray items)) /\
    (forall props fields,
       data = JSObject props ->
       assoc "success" props = Some (JSBoolean true) ->
       assoc "data" props = Some (JSObject fields) ->
       ProductApi.normalizeProducts data = Normal (JSArray [JSObject fields])) /\
    (forall success payload,
       isArray data = false ->
       Get data "success" = Normal success ->
       Get data "data" = Normal payload ->
       ToBoolean success = true ->
       ToBoolean payload = true ->
       ProductApi.normalizeProducts data
       = Normal (if isArray payload then payload else JSArray [payload])) /\
    (forall success payload,
       isArray data = false ->
       Get data "success" = Normal success ->
       Get data "data" = Normal payload ->
       ToBoolean success && ToBoolean payload = false ->
       ProductApi.normalizeProducts data = Normal (or_ (or_ payload data) (JSArray []))) /\
    (isNullish data = true -> exists t, ProductApi.normalizeProducts data = Throw t) /\
    (isNullish data = false ->
     exists success payload,
       Get data "success" = Normal success /\ Get data "data" = Normal payload) /\
    (forall query w response,
       network w (fetchCount (trace w)) (productsRequest query) = Normal response ->
       ok response = true ->
       json response = Normal data ->
       fst (ProductApi.getProducts query w) = ProductApi.normalizeProducts data).
Proof.
  intros data.
  split; [|split; [|split; [|split; [|split; [|split; [|split]]]]]].
  - intros Ha. unfold ProductApi.normalizeProducts. rewrite Ha. reflexivity.
  - intros props items -> Hs Hd. unfold ProductApi.normalizeProducts. cbn.
    unfold GetPlain. rewrite Hs, Hd. reflexivity.
  - intros props fields -> Hs Hd. unfold ProductApi.normalizeProducts. cbn.
    unfold GetPlain. rewrite Hs, Hd. reflexivity.
  - intros success payload Ha Hs Hd Ht Hp. unfold ProductApi.normalizeProducts.
    rewrite Ha, Hs. cbn [cbind]. rewrite Ht, Hd. cbn [cbind]. rewrite Hp.
    reflexivity.
  - intros success payload Ha Hs Hd Hf. unfold ProductApi.normalizeProducts.
    rewrite Ha, Hs. cbn [cbind].
    destruct (ToBoolean success) eqn:Et.
    + rewrite Hd. cbn [cbind]. cbn [andb] in Hf. rewrite Hf. reflexivity.
    + cbn [cbind]. rewrite Et, Hd. reflexivity.
  - intros Hn. destruct data; try discriminate; eexists; reflexivity.
  - intros Hn. destruct data; try discriminate; do 2 eexists; split; reflexivity.
  - intros query w response. apply ProductFacts.getProducts_normalizes.
Qed.

(** The theorem at a bare array, at the two envelopes, at an envelope
    that holds a string and one whose [success] is a string, at two bodies
    of no recognized shape, and at a request for one category. *)
Lemma C8_witness_shapes :
  let product := JSObject [("id", JSNumber 1); ("name", JSString "E-Bike X")] in
  let enveloped d := JSObject [("success", JSBoolean true); ("data", d)] in
  let failed := JSObject [("success", JSBoolean false); ("message", JSString "down")] in
  ProductApi.normalizeProducts (JSArray [product]) = Normal (JSArray [product]) /\
  ProductApi.normalizeProducts (enveloped (JSArray [product])) = Normal (JSArray [product]) /\
  ProductApi.normalizeProducts (enveloped product) = Normal (JSArray [product]) /\
  ProductApi.normalizeProducts (enveloped (JSString "abc")) = Normal (JSArray [JSString "abc"]) /\
  ProductApi.normalizeProducts (JSObject [("success", JSString "yes"); ("data", product)])
  = Normal (JSArray [product]) /\
  ProductApi.normalizeProducts failed = Normal failed /\
  ProductApi.normalizeProducts (JSObject [("data", JSNumber 0)])
  = Normal (JSObject [("data", JSNumber 0)]) /\
  fst (ProductApi.getProducts "category=E-Bike"
         (worldAnswering None (Normal (jsonResponse 200 "" (enveloped product)))))
  = ProductApi.normalizeProducts (enveloped product).
Proof.
  intros product enveloped failed.
  split; [exact (proj1 (C8_getProducts_normalization (JSArray [product])) eq_refl)|].
  split.
  { destruct (C8_getProducts_normalization (enveloped (JSArray [product])))
      as (_ & H & _).
    exact (H _ _ eq_refl eq_refl eq_refl). }
  split.
  { destruct (C8_getProducts_normalization (enveloped product)) as (_ & _ & H & _).
    exact (H _ _ eq_refl eq_refl eq_refl). }
  split.
  { destruct (C8_getProducts_normalization (enveloped (JSString "abc")))
      as (_ & _ & _ & H & _).
    exact (H (JSBoolean true) (JSString "abc") eq_refl eq_refl eq_refl eq_refl eq_refl). }
  split.
  { destruct (C8_getProducts_normalization
                (JSObject [("success", JSString "yes"); ("data", product)]))
      as (_ & _ & _ & H & _).
    exact (H (JSString "yes") product eq_refl eq_refl eq_refl eq_refl eq_refl). }
  split.
  { destruct (C8_getProducts_normalization failed) as (_ & _ & _ & _ & H & _).
    exact (H (JSBoolean false) JSUndefined eq_refl eq_refl eq_refl eq_refl). }
  split.
  { destruct (C8_getProducts_normalization (JSObject [("data", JSNumber 0)]))
      as (_ & _ & _ & _ & H & _).
    exact (H JSUndefined (JSNumber 0) eq_refl eq_refl eq_refl eq_refl). }
  destruct (C8_getProducts_normalization (enveloped product))
    as (_ & _ & _ & _ & _ & _ & _ & H).
  exact (H "category=E-Bike"
           (worldAnswering None (Normal (jsonResponse 200 "" (enveloped product))))
           (jsonResponse 200 "" (enveloped product)) eq_refl eq_refl eq_refl).
Defined.

(** ** The checkout form *)

(** C9: checkout submission validation accepts a form exactly when the
    checks on the other fields pass and the phone consists of exactly 11
    digits and starts with "09": so, the other fields being valid, it
    accepts the phone field exactly then.  "09123456789" passes;
    "9123456789" (no leading 0, 10 digits) and "0912345678" (10 digits)
    fail.  A validation failure blocks submission: [handleSubmit] shows the
    validation message and returns, and no request is sent. *)
Theorem C9_checkout_phone_validation :
  (forall (i : Checkout.ShippingInfo) (w : World),
     exists w',
       Checkout.validateForm i w
       = (Normal (otherFieldsValid i && phoneAccepted (Checkout.phone i)), w')) /\
  (forall (clearCartAfterCheckout : M bool) (refreshCart : M unit)
          (st : Checkout.PageState) (w : World),
     otherFieldsValid (Checkout.shippingInfo st)
     && phoneAccepted (Checkout.phone (Checkout.shippingInfo st)) = false ->
     exists message,
       Checkout.handleSubmit clearCartAfterCheckout refreshCart st w
       = (Normal tt,
          after w [EvCall "preventDefault";
                   EvToast "error" [JSString "Validation Error"; JSString message]]) /\
       fetchCount (trace (snd (Checkout.handleSubmit clearCartAfterCheckout refreshCart st w)))
       = fetchCount (trace w)) /\
  phoneAccepted "09123456789" = true /\
  phoneAccepted "9123456789" = false /\
  phoneAccepted "0912345678" = false.
Proof.
  split; [|split; [|repeat split]].
  - intros i w. destruct (CheckoutFacts.validateForm_result i w) as (w' & E & _).
    exists w'. exact E.
  - intros clear refresh st w Hno.
    destruct (CheckoutFacts.handleSubmit_blocked clear refresh st w Hno) as (message & E).
    exists message. split; [exact E|]. rewrite E. cbn [snd].
    unfold fetchCount. rewrite RetryFacts.trace_after, filter_app, length_app. cbn. lia.
Qed.

(** The theorem at a form that is valid but for a phone of 10 digits,
    submitted in a world whose backend would accept the order: a
    validation message is shown and nothing is requested; and at the same
    form with the phone "09123456789", which is accepted. *)
Lemma C9_witness_ten_digits :
  let w := worldAnswering (Some "token")
             (Normal (jsonResponse 200 "" (JSObject [("success", JSBoolean true)]))) in
  let st :=
    {| Checkout.shippingInfo := exampleForm "0912345678";
       Checkout.cart := [line 1000 2 2000];
       Checkout.paymentMethod := "cod";
       Checkout.subtotal := 2000;
       Checkout.shipping := 500;
       Checkout.total := 2500 |} in
  let submit := Checkout.handleSubmit (fun w => (Normal true, w)) (fun w => (Normal tt, w)) in
  fst (Checkout.validateForm (exampleForm "09123456789") w) = Normal true /\
  fst (Checkout.validateForm (exampleForm "0912345678") w) = Normal false /\
  (exists message,
     submit st w
     = (Normal tt,
        after w [EvCall "preventDefault";
                 EvToast "error" [JSString "Validation Error"; JSString message]])) /\
  fetchCount (trace (snd (submit st w))) = 0.
Proof.
  intros w st submit.
  destruct C9_checkout_phone_validation as (Hv & Hs & _).
  split.
  { destruct (Hv (exampleForm "09123456789") w) as (w' & E). rewrite E. reflexivity. }
  split.
  { destruct (Hv (exampleForm "0912345678") w) as (w' & E). rewrite E. reflexivity. }
  destruct (Hs (fun w => (Normal true, w)) (fun w => (Normal tt, w)) st w eq_refl)
    as (message & E & F).
  split; [exists message; exact E | exact F].
Defined.

(** The checks of [validateForm] on the example form, and what
    [handleSubmit] does when the phone has 10 digits only. *)
Example checkout_form_runs :
  let w := worldAnswering (Some "token") (Throw (NonError "offline")) in
  let st :=
    {| Checkout.shippingInfo := exampleForm "0912345678";
       Checkout.cart := [line 1000 2 2000];
       Checkout.paymentMethod := "cod";
       Checkout.subtotal := 2000;
       Checkout.shipping := 500;
       Checkout.total := 2500 |} in
  fst (Checkout.validateForm (exampleForm "09123456789") w) = Normal true /\
  fst (Checkout.validateForm (exampleForm "9123456789") w) = Normal false /\
  fst (Checkout.validateForm (exampleForm "09-234-6789") w) = Normal false /\
  fst (Checkout.validateForm (exampleForm "19123456789") w) = Normal false /\
  Checkout.handleSubmit (fun w => (Normal true, w)) (fun w => (Normal tt, w)) st w
  = (Normal tt,
     after w [EvCall "preventDefault";
              EvToast "error"
                [JSString "Validation Error";
                 JSString "Please enter a valid 11-digit Philippine phone number"]]).
Proof. repeat split. Qed.

(** ** Category names *)

(** The two maps are inverse to each other on the five category codes and
    on the five display names, and each returns unchanged any string that
    is neither one of its keys nor the name of a property of
    [Object.prototype]. *)
Lemma category_names_round_trip :
  forallb (roundTrips ProductApi.getProductDisplayName
             ProductApi.getCategoryFromDisplayName) categoryCodes = true /\
  forallb (roundTrips ProductApi.getCategoryFromDisplayName
             ProductApi.getProductDisplayName) displayNames = true /\
  (forall s,
     assoc s ProductApi.categoryMap = None -> inObjectPrototype s = false ->
     ProductApi.getProductDisplayName s = JSString s) /\
  (forall s,
     assoc s ProductApi.displayMap = None -> inObjectPrototype s = false ->
     ProductApi.getCategoryFromDisplayName s = JSString s).
Proof.
  split; [reflexivity|]. split; [reflexivity|].
  split; intros s Ha Hp.
  - unfold ProductApi.getProductDisplayName, GetPlain. rewrite Ha, Hp. reflexivity.
  - unfold ProductApi.getCategoryFromDisplayName, GetPlain. rewrite Ha, Hp. reflexivity.
Qed.

(** C10 (the code departs from the claim): "toString" and "constructor"
    are in neither mapping, yet [getProductDisplayName("toString")] is not
    the string "toString" but the function [Object.prototype.toString],
    found through the prototype of the object literal; likewise
    [getCategoryFromDisplayName("constructor")]. *)
Lemma C10_inherited_keys_are_not_returned :
  assoc "toString" ProductApi.categoryMap = None /\
  ProductApi.getProductDisplayName "toString" = JSBuiltin "Object.prototype.toString" /\
  assoc "constructor" ProductApi.displayMap = None /\
  ProductApi.getCategoryFromDisplayName "constructor"
  = JSBuiltin "Object.prototype.constructor".
Proof. repeat split. Qed.

(* ================================================================== *)
(** * Facts behind the further properties *)
(* ================================================================== *)

Module TraceFacts.
Import JS Async Spec.

Lemma nth_error_first_new {A} (t : list A) e rest :
  nth_error (t ++ e :: rest) (List.length t) = Some e.
Proof. induction t as [|a t IH]; simpl; [reflexivity | exact IH]. Qed.

Lemma fetchCount_app t u : fetchCount (t ++ u) = fetchCount t + fetchCount u.
Proof. unfold fetchCount. rewrite filter_app, length_app. reflexivity. Qed.

Lemma dispatchCount_app name t u :
  dispatchCount name (t ++ u) = dispatchCount name t + dispatchCount name u.
Proof. unfold dispatchCount. rewrite filter_app, length_app. reflexivity. Qed.

Lemma sleepCount_app t u : sleepCount (t ++ u) = sleepCount t + sleepCount u.
Proof. unfold sleepCount. rewrite filter_app, length_app. reflexivity. Qed.

Lemma after_after w es fs : after (after w es) fs = after w (es ++ fs).
Proof. unfold after. rewrite fold_left_app. reflexivity. Qed.

Lemma authToken_after es : forall w, authToken (after w es) = authToken w.
Proof. induction es as [|e es IH]; intros w; simpl; [reflexivity | rewrite IH; reflexivity]. Qed.

Lemma network_after es : forall w, network (after w es) = network w.
Proof. induction es as [|e es IH]; intros w; simpl; [reflexivity | rewrite IH; reflexivity]. Qed.

End TraceFacts.

Module CartMoreFacts.
Import JS Async Cart Spec TraceFacts FloatFacts CartFacts.
Local Open Scope completion_scope.
Local Open Scope async_scope.

Ltac counts :=
  cbv delta [fetchCount dispatchCount sleepCount] in *; cbn [trace snd fst];
  repeat rewrite filter_app; repeat rewrite length_app;
  cbn [filter isFetch isDispatchOf isSleep List.length String.eqb Ascii.eqb Bool.eqb ToBoolean];
  lia.

Section WithHost.
Context `{Host}.


End WithHost.


Lemma clearCart_outcome w :
  exists b es,
    clearCart w = (Normal b, after w es) /\
    fetchCount es <= 1 /\ sleepCount es = 0 /\
    dispatchCount "cartUpdated" es = (if b then 1 else 0) /\
    dispatchCount "cartCleared" es = (if b then 1 else 0) /\
    (b = true <-> clearedBy w).
Proof.
  unfold clearCart, tryCatch, bind, getAuthToken.
  destruct (authToken w) as [token|] eqn:Etok; cbn [falsyToken tokenString].
  2: { exists false. eexists [_; _]. split; [reflexivity|]. repeat split; try counts.
       - intros (token & r & d & s & E & _). congruence. }
  destruct (String.eqb token "") eqn:Ee.
  { exists false. eexists [_; _]. split; [reflexivity|]. repeat split; try counts.
    - intros (token' & r & d & s & E & Hne & _). apply String.eqb_eq in Ee. congruence. }
  unfold consoleLog at 1, emit at 1. unfold fetch at 1. cbn [trace authToken network].
  replace (fetchCount (trace w ++ [EvConsoleLog "Attempting to clear cart with token:"]))
    with (fetchCount (trace w)) by (rewrite fetchCount_app; cbn; lia).
  fold (clearCartRequest token).
  assert (Hinv : forall P : Prop,
    (forall response data success,
       network w (fetchCount (trace w)) (clearCartRequest token) = Normal response ->
       ok response = true -> json response = Normal data ->
       Get data "success" = Normal success -> ToBoolean success = true -> P) ->
    clearedBy w -> P).
  { intros P HP (token' & r & d & s & E & _ & En & Eo & Ej & Eg & Es).
    assert (token' = token) by congruence. subst token'. eapply HP; eassumption. }
  destruct (network w (fetchCount (trace w)) (clearCartRequest token)) as [response|t] eqn:En.
  2: { exists false. eexists [_; _; _]. split; [reflexivity|]. repeat split; try counts.
       - apply Hinv. intros; discriminate. }
  unfold consoleLog at 1, emit at 1.
  destruct (ok response) eqn:Eok; cbn [negb].
  2: { unfold lift. destruct (text response) as [errorText|t].
       - exists false. eexists [_; _; _; _; _]. split; [reflexivity|].
         repeat split; try counts.
         + apply Hinv. intros r d s Er. injection Er as <-. congruence.
       - exists false. eexists [_; _; _; _]. split; [reflexivity|].
         repeat split; try counts.
         + apply Hinv. intros r d s Er. injection Er as <-. congruence. }
  unfold lift. destruct (json response) as [data|t] eqn:Ej.
  2: { exists false. eexists [_; _; _; _]. split; [reflexivity|].
       repeat split; try counts.
       - apply Hinv. intros r d s Er. injection Er as <-. congruence. }
  unfold consoleLog at 1, emit at 1.
  destruct (Get data "success") as [success|t] eqn:Eg.
  2: { exists false. eexists [_; _; _; _; _]. split; [reflexivity|].
       repeat split; try counts.
       - apply Hinv. intros r d s Er. injection Er as <-. congruence. }
  destruct (ToBoolean success) eqn:Es.
  - exists true. eexists [_; _; _; _; _; _; _]. split; [reflexivity|].
    repeat split; try counts.
    intros _. exists token, response, data, success.
    apply String.eqb_neq in Ee. repeat split; assumption.
  - unfold consoleError at 1, emit at 1.
    destruct (Get data "message") as [message|t].
    + exists false. eexists [_; _; _; _; _; _]. split; [reflexivity|].
      repeat split; try counts.
      * apply Hinv. intros r d s Er. injection Er as <-. congruence.
    + exists false. eexists [_; _; _; _; _; _]. split; [reflexivity|].
      repeat split; try counts.
      * apply Hinv. intros r d s Er. injection Er as <-. congruence.
Qed.

(** The loop around an operation that never rejects and only records
    events. *)
Section QuietOp.
Variable op : M bool.
Hypothesis op_outcome : forall w,
  exists b es,
    op w = (Normal b, after w es) /\
    fetchCount es <= 1 /\ sleepCount es = 0 /\
    dispatchCount "cartCleared" es = (if b then 1 else 0).

Lemma retryLoop_quiet : forall fuel attempts lastError w,
  attempts + fuel = maxAttempts ->
  exists exit es,
    retryLoop op fuel attempts lastError w = (Normal (Some exit), after w es) /\
    exit <> inl false /\
    fetchCount es <= fuel /\
    sleepCount es <= fuel - 1 /\
    dispatchCount "cartCleared" es = (match exit with inl _ => 1 | inr _ => 0 end).
Proof.
  induction fuel as [|fuel IH]; intros attempts lastError w Hf.
  - cbn [retryLoop].
    replace (attempts <? maxAttempts)%nat with false by (symmetry; apply Nat.ltb_ge; lia).
    exists (inr lastError), []. repeat split; try counts. discriminate.
  - cbn [retryLoop].
    replace (attempts <? maxAttempts)%nat with true by (symmetry; apply Nat.ltb_lt; lia).
    unfold bind at 1, tryCatch, bind at 1.
    destruct (op_outcome w) as (b & es & E & Hfe & Hsl & Hd). rewrite E.
    destruct b.
    + exists (inl true), (es ++ [EvConsoleLog "Cart cleared after successful checkout"])%list.
      rewrite <- after_after. split; [reflexivity|].
      rewrite fetchCount_app, sleepCount_app, dispatchCount_app, Hsl, Hd.
      repeat split; try counts. discriminate.
    + unfold ret at 1. cbv iota beta.
      destruct (IH (S attempts) lastError (after w (es ++ pause (S attempts))) ltac:(lia))
        as (exit & es2 & E2 & Hx & Hf2 & Hs2 & Hd2).
      exists exit, ((es ++ pause (S attempts)) ++ es2)%list.
      rewrite <- after_after. split.
      * rewrite <- E2. rewrite <- after_after. unfold pause.
        destruct (S attempts <? maxAttempts)%nat; reflexivity.
      * rewrite !fetchCount_app, !sleepCount_app, !dispatchCount_app, Hsl, Hd.
        assert (Hp : fetchCount (pause (S attempts)) = 0 /\
                     dispatchCount "cartCleared" (pause (S attempts)) = 0 /\
                     sleepCount (pause (S attempts)) = (match fuel with O => 0 | S _ => 1 end)).
        { unfold pause. destruct (S attempts <? maxAttempts)%nat eqn:El.
          - apply Nat.ltb_lt in El. destruct fuel; [lia|]. repeat split.
          - apply Nat.ltb_ge in El. destruct fuel; [|lia]. repeat split. }
        destruct Hp as (-> & -> & ->).
        repeat split; try assumption; destruct fuel; lia.
Qed.

Lemma clearCartAfterCheckoutWith_quiet w :
  exists b es,
    clearCartAfterCheckoutWith op maxAttempts w = (Normal (Some b), after w es) /\
    fetchCount es <= 3 /\
    sleepCount es <= 2 /\
    dispatchCount "cartCleared" es = (if b then 1 else 0).
Proof.
  unfold clearCartAfterCheckoutWith, tryCatch.
  unfold bind at 1, consoleLog, emit. unfold bind at 1.
  change {| authToken := authToken w; network := network w;
            trace := (trace w ++ [EvConsoleLog "Clearing cart after checkout..."])%list |}
    with (after w [EvConsoleLog "Clearing cart after checkout..."]).
  destruct (retryLoop_quiet maxAttempts 0 None
              (after w [EvConsoleLog "Clearing cart after checkout..."]) eq_refl)
    as (exit & es & E & Hx & Hf & Hs & Hd).
  rewrite E. destruct exit as [[|]|lastError].
  - eexists true, (_ :: es). split; [reflexivity|].
    change (?e :: es) with ([e] ++ es)%list.
    rewrite fetchCount_app, sleepCount_app, dispatchCount_app, Hd.
    change maxAttempts with 3 in *. repeat split; try counts.
  - congruence.
  - unfold bind, consoleError, emit, throw, ret.
    exists false.
    exists ([EvConsoleLog "Clearing cart after checkout..."] ++ es
            ++ [EvConsoleError "Failed to clear cart after multiple attempts. Last error:";
                EvConsoleError "Error clearing cart after checkout:"])%list.
    rewrite <- !after_after. split; [reflexivity|].
    rewrite !fetchCount_app, !sleepCount_app, !dispatchCount_app, Hd.
    change maxAttempts with 3 in *. repeat split; try counts.
Qed.

End QuietOp.

(** *** Properties set on a spread object *)

Lemma assoc_setProp_same key v props : assoc key (setProp key v props) = Some v.
Proof.
  induction props as [|[k x] props IH]; simpl.
  - rewrite String.eqb_refl. reflexivity.
  - destruct (String.eqb k key) eqn:E; simpl; rewrite E; [reflexivity | exact IH].
Qed.

Lemma assoc_setProp_other key key' v props :
  key' <> key -> assoc key' (setProp key v props) = assoc key' props.
Proof.
  intros Hne. induction props as [|[k x] props IH]; simpl.
  - replace (String.eqb key key') with false
      by (symmetry; apply String.eqb_neq; congruence). reflexivity.
  - destruct (String.eqb k key) eqn:E; simpl.
    + apply String.eqb_eq in E. subst k.
      replace (String.eqb key key') with false
        by (symmetry; apply String.eqb_neq; congruence). reflexivity.
    + destruct (String.eqb k key'); [reflexivity | exact IH].
Qed.

Lemma GetPlain_setProp_same key v props : GetPlain (setProp key v props) key = v.
Proof. unfold GetPlain. rewrite assoc_setProp_same. reflexivity. Qed.

Lemma GetPlain_setProp_other key key' v props :
  key' <> key -> GetPlain (setProp key v props) key' = GetPlain props key'.
Proof. intros Hne. unfold GetPlain. rewrite (assoc_setProp_other _ _ _ _ Hne). reflexivity. Qed.

Section AddToCart.
Context `{Host}.

Lemma safeNumber_defaulted quantity n :
  safeNumber quantity = Normal n ->
  exists n', safeNumber (defaulted quantity) = Normal n' /\
             Math_max [1%float; n'] = Math_max [1%float; n].
Proof.
  destruct quantity; intros E; try (exists n; split; [exact E | reflexivity]).
  injection E as <-. exists 1%float. split; reflexivity.
Qed.

Lemma addToCart_guest productId quantity color w :
  falsyToken (authToken w) = true ->
  addToCart productId quantity color w
  = (Throw (newError (JSString "Authentication required")),
     after w [EvConsoleError "Add to cart error:"]).
Proof.
  intros Hf. unfold addToCart, tryCatch, bind, getAuthToken. rewrite Hf. reflexivity.
Qed.

(** What a call that resolves went through. *)
Lemma addToCart_resolved productId quantity color w result w' :
  addToCart productId quantity color w = (Normal result, w') ->
  exists token n response data cartItem rawPrice price rawQuantity itemQuantity rawTotal safeTotal,
    authToken w = Some token /\ token <> "" /\
    safeNumber (defaulted quantity) = Normal n /\
    network w (fetchCount (trace w))
      (addToCartRequest token productId (Math_max [1%float; n]) color) = Normal response /\
    json response = Normal data /\
    Get data "data" = Normal cartItem /\ ToBoolean cartItem = true /\
    Get cartItem "price" = Normal rawPrice /\ safeNumber rawPrice = Normal price /\
    Get cartItem "quantity" = Normal rawQuantity /\ safeNumber rawQuantity = Normal itemQuantity /\
    Get cartItem "total" = Normal rawTotal /\ safeNumber rawTotal = Normal safeTotal /\
    result = JSObject (setProp "total" (JSNumber (orNumber safeTotal (price * itemQuantity)))
                         (setProp "quantity" (JSNumber itemQuantity)
                            (setProp "price" (JSNumber price) (spread cartItem)))) /\
    w' = after w [EvFetch (addToCartRequest token productId (Math_max [1%float; n]) color);
                  EvDispatch "cartUpdated"].
Proof.
  unfold addToCart, tryCatch, bind, getAuthToken. fold (defaulted quantity).
  destruct (authToken w) as [token|] eqn:Etok; cbn [falsyToken tokenString];
    [|intros E; discriminate E].
  destruct (String.eqb token "") eqn:Ee; [intros E; discriminate E|].
  unfold lift at 1.
  destruct (safeNumber (defaulted quantity)) as [n|t] eqn:En; [|intros E; discriminate E].
  unfold fetch at 1. fold (addToCartRequest token productId (Math_max [1%float; n]) color).
  destruct (network w (fetchCount (trace w)) _) as [response|t] eqn:Enet;
    [|intros E; discriminate E].
  unfold lift at 1.
  destruct (json response) as [data|t] eqn:Ej; [|intros E; discriminate E].
  unfold lift at 1.
  destruct (Get data "success") as [success|t] eqn:Es; [|intros E; discriminate E].
  destruct (ToBoolean success) eqn:Ets.
  2: { unfold ret at 1. rewrite Ets. unfold lift at 1.
       destruct (Get data "message"); intros E; discriminate E. }
  unfold lift at 1.
  destruct (Get data "data") as [cartItem|t] eqn:Ed; [|intros E; discriminate E].
  destruct (ToBoolean cartItem) eqn:Etc.
  2: { unfold lift at 1. destruct (Get data "message"); intros E; discriminate E. }
  unfold dispatchEvent at 1, emit at 1. unfold lift at 1.
  unfold lift at 1.
  destruct (Get cartItem "price") as [rawPrice|t] eqn:Ep; [|intros E; discriminate E].
  unfold lift at 1.
  destruct (safeNumber rawPrice) as [price|t] eqn:Esp; [|intros E; discriminate E].
  unfold lift at 1.
  destruct (Get cartItem "quantity") as [rawQuantity|t] eqn:Eq; [|intros E; discriminate E].
  unfold lift at 1.
  destruct (safeNumber rawQuantity) as [itemQuantity|t] eqn:Esq; [|intros E; discriminate E].
  unfold lift at 1.
  destruct (Get cartItem "total") as [rawTotal|t] eqn:Et; [|intros E; discriminate E].
  unfold lift at 1.
  destruct (safeNumber rawTotal) as [safeTotal|t] eqn:Est; [|intros E; discriminate E].
  assert (Hne : token <> "") by (apply String.eqb_neq; exact Ee).
  unfold orNumber.
  destruct (ToBoolean (JSNumber safeTotal)) eqn:Ett.
  - unfold ret. intros E. injection E as <- <-.
    exists token, n, response, data, cartItem, rawPrice, price, rawQuantity, itemQuantity,
      rawTotal, safeTotal.
    repeat split; try assumption; try reflexivity; rewrite Ett; reflexivity.
  - unfold lift, ret. cbv beta iota. rewrite Esp, Esq. intros E. injection E as <- <-.
    exists token, n, response, data, cartItem, rawPrice, price, rawQuantity, itemQuantity,
      rawTotal, safeTotal.
    repeat split; try assumption; try reflexivity; rewrite Ett; reflexivity.
Qed.

Lemma addToCart_refused productId quantity color w token n response data success payload message :
  authToken w = Some token -> token <> "" ->
  safeNumber (defaulted quantity) = Normal n ->
  let req := addToCartRequest token productId (Math_max [1%float; n]) color in
  network w (fetchCount (trace w)) req = Normal response ->
  json response = Normal data ->
  Get data "success" = Normal success ->
  Get data "data" = Normal payload ->
  ToBoolean (and_ success payload) = false ->
  Get data "message" = Normal message ->
  addToCart productId quantity color w
  = (Throw (newError (or_ message (JSString "Failed to add to cart"))),
     after w [EvFetch req; EvConsoleError "Add to cart error:"]).
Proof.
  intros Etok Hne En req Enet Ej Es Ed Ea Em.
  unfold addToCart, tryCatch, bind, getAuthToken. fold (defaulted quantity).
  rewrite Etok. cbn [falsyToken tokenString].
  replace (String.eqb token "") with false by (symmetry; apply String.eqb_neq; exact Hne).
  unfold lift at 1. rewrite En.
  unfold fetch at 1. fold (addToCartRequest token productId (Math_max [1%float; n]) color).
  fold req. rewrite Enet. unfold lift at 1. rewrite Ej. unfold lift at 1. rewrite Es.
  unfold and_ in Ea.
  destruct (ToBoolean success) eqn:Ets.
  - unfold lift at 1. rewrite Ed, Ea. unfold lift at 1. rewrite Em. reflexivity.
  - unfold ret at 1. rewrite Ets. unfold lift at 1. rewrite Em. reflexivity.
Qed.

Ltac crunch :=
  repeat match goal with
    | |- context [match ?c with Normal _ => _ | Throw _ => _ end] => destruct c
    | |- context [if ?b then _ else _] => destruct b
    end.

Ltac prefix_done :=
  eexists; cbn [snd trace]; repeat rewrite <- app_assoc; cbn [app]; reflexivity.

Lemma addToCart_first_request productId quantity color w token n :
  authToken w = Some token -> token <> "" ->
  safeNumber (defaulted quantity) = Normal n ->
  exists rest,
    trace (snd (addToCart productId quantity color w))
    = (trace w ++ EvFetch (addToCartRequest token productId (Math_max [1%float; n]) color)
         :: rest)%list.
Proof.
  intros Etok Hne En.
  unfold addToCart, tryCatch, bind, getAuthToken. fold (defaulted quantity).
  rewrite Etok. cbn [falsyToken tokenString].
  replace (String.eqb token "") with false by (symmetry; apply String.eqb_neq; exact Hne).
  unfold lift at 1. rewrite En.
  unfold fetch at 1. fold (addToCartRequest token productId (Math_max [1%float; n]) color).
  unfold lift, ret, throw, dispatchEvent, consoleError, emit.
  crunch; prefix_done.
Qed.

Lemma updateCartQuantity_first_request itemId quantity w token n :
  authToken w = Some token -> token <> "" ->
  safeNumber quantity = Normal n ->
  exists rest,
    trace (snd (updateCartQuantity itemId quantity w))
    = (trace w ++ EvFetch (updateQuantityRequest token itemId (Math_max [1%float; n]))
         :: rest)%list.
Proof.
  intros Etok Hne En.
  unfold updateCartQuantity, tryCatch, bind, getAuthToken.
  rewrite Etok. cbn [falsyToken tokenString].
  replace (String.eqb token "") with false by (symmetry; apply String.eqb_neq; exact Hne).
  unfold lift at 1. rewrite En.
  unfold fetch at 1. fold (updateQuantityRequest token itemId (Math_max [1%float; n])).
  unfold lift, ret, throw, dispatchEvent, consoleError, emit.
  crunch; prefix_done.
Qed.

End AddToCart.

Section Totals.
Context `{Host}.

Lemma mapC_app {A B} (f : A -> Completion B) l1 l2 :
  mapC f (l1 ++ l2) = (let! a := mapC f l1 in let! b := mapC f l2 in Normal (a ++ b)%list).
Proof.
  induction l1 as [|x l1 IH]; simpl.
  - destruct (mapC f l2); reflexivity.
  - destruct (f x) as [y|t]; simpl; [|reflexivity].
    rewrite IH. destruct (mapC f l1) as [a|t]; simpl; [|reflexivity].
    destruct (mapC f l2); reflexivity.
Qed.

Lemma getCartTotal_snoc items item :
  getCartTotal (items ++ [item])
  = (let! sum := getCartTotal items in
     let! t := lineTotal item in
     Normal (sum + t)%float).
Proof.
  rewrite !getCartTotal_sum. unfold sumOfLineTotals. rewrite mapC_app.
  destruct (mapC lineTotal items) as [totals|t]; simpl; [|reflexivity].
  destruct (lineTotal item) as [x|t]; simpl; [|reflexivity].
  rewrite fold_left_app. reflexivity.
Qed.

Lemma lineTotal_without_total item :
  safeNumber (CartItem.total item) = Normal 0%float ->
  lineTotal item = calculateItemTotal (CartItem.price item) (CartItem.quantity item).
Proof. intros E. unfold lineTotal, calculateItemTotal. rewrite E. reflexivity. Qed.

Lemma lineTotal_normalized raw item :
  normalizedFrom raw item -> exists t, lineTotal item = Normal t.
Proof.
  intros (rp & rq & rt & price & n & quantity & total & _ & _ & _ & _ & _ & _
          & Ep & _ & _ & Eq & _ & Et).
  unfold lineTotal. rewrite Et, Ep, Eq. cbn [safeNumber Number_ cbind].
  match goal with |- context [if negb ?b then _ else _] => destruct b end;
    eexists; reflexivity.
Qed.

Lemma mapC_lineTotal_normalized raws items :
  Forall2 normalizedFrom raws items -> exists totals, mapC lineTotal items = Normal totals.
Proof.
  induction 1 as [|raw item raws items Hn _ IH]; simpl.
  - eexists; reflexivity.
  - destruct (lineTotal_normalized _ _ Hn) as (t & ->).
    destruct IH as (ts & ->). eexists; reflexivity.
Qed.

Lemma getCart_then_summary w :
  exists items w' summary,
    getCart w = (Normal items, w') /\
    getCartSummary items = Normal summary /\
    CartSummary.itemCount summary = List.length items.
Proof.
  destruct (getCart_items w) as (items & w' & raws & E & Hn & _).
  destruct (mapC_lineTotal_normalized _ _ Hn) as (totals & Et).
  exists items, w'. rewrite getCartSummary_sum. unfold sumOfLineTotals. rewrite Et.
  eexists. repeat split. exact E.
Qed.

Lemma validateCartItem_accepted item v :
  validateCartItem item = Normal v /\ ToBoolean v = true <->
  exists rawPrice price rawQuantity quantity item_id,
    ToBoolean item = true /\
    Get item "price" = Normal rawPrice /\ safeNumber rawPrice = Normal price /\
    ge price 0 = true /\
    Get item "quantity" = Normal rawQuantity /\ safeNumber rawQuantity = Normal quantity /\
    gt quantity 0 = true /\
    Get item "id" = Normal item_id /\ ToBoolean item_id = true /\
    Get item "product_id" = Normal v /\ ToBoolean v = true.
Proof.
  unfold validateCartItem. split.
  - intros [E Hv].
    destruct (ToBoolean item) eqn:Ei; cbn [negb] in E;
      [|injection E as <-; discriminate Hv].
    destruct (Get item "price") as [rawPrice|t] eqn:Ep; cbn [cbind] in E; [|discriminate E].
    destruct (safeNumber rawPrice) as [price|t] eqn:Esp; cbn [cbind] in E; [|discriminate E].
    destruct (Get item "quantity") as [rawQuantity|t] eqn:Eq; cbn [cbind] in E;
      [|discriminate E].
    destruct (safeNumber rawQuantity) as [quantity|t] eqn:Esq; cbn [cbind] in E;
      [|discriminate E].
    destruct (ge price 0) eqn:Eg; cbn [negb] in E; [|injection E as <-; discriminate Hv].
    destruct (gt quantity 0) eqn:Egt; cbn [negb] in E; [|injection E as <-; discriminate Hv].
    destruct (Get item "id") as [item_id|t] eqn:Eid; cbn [cbind] in E; [|discriminate E].
    destruct (ToBoolean item_id) eqn:Eti; cbn [negb] in E;
      [|injection E as <-; congruence].
    exists rawPrice, price, rawQuantity, quantity, item_id. repeat split; assumption.
  - intros (rawPrice & price & rawQuantity & quantity & item_id
            & Ei & Ep & Esp & Eg & Eq & Esq & Egt & Eid & Eti & Epid & Hv).
    rewrite Ei, Ep. cbn [negb cbind]. rewrite Esp. cbn [cbind]. rewrite Eq. cbn [cbind].
    rewrite Esq. cbn [cbind]. rewrite Eg, Egt. cbn [negb]. rewrite Eid. cbn [cbind].
    rewrite Eti. cbn [negb]. split; assumption.
Qed.

End Totals.

(** *** When a product of two numbers is NaN *)

Lemma isZero_spec x :
  isZero x = match Prim2SF x with S754_zero _ => true | _ => false end.
Proof.
  unfold isZero, strictEqNumber. rewrite FloatAxioms.eqb_spec.
  change (Prim2SF 0) with (S754_zero false).
  destruct (Prim2SF x) as [s|s| |s m e]; try reflexivity; destruct s; reflexivity.
Qed.

Lemma isInfinity_spec x :
  isInfinity x = match Prim2SF x with S754_infinity _ => true | _ => false end.
Proof.
  unfold isInfinity, is_infinity. rewrite FloatAxioms.eqb_spec, abs_spec.
  change (Prim2SF infinity) with (S754_infinity false).
  destruct (Prim2SF x) as [s|s| |s m e]; try reflexivity; destruct s; reflexivity.
Qed.

Lemma mul_nan x y :
  isNaN x = false -> isNaN y = false ->
  isNaN (x * y)%float = isZero x && isInfinity y || isInfinity x && isZero y.
Proof.
  rewrite !isNaN_spec, !isZero_spec, !isInfinity_spec, mul_spec.
  destruct (Prim2SF x) as [sx|sx| |sx mx ex], (Prim2SF y) as [sy|sy| |sy my ey];
    intros Hx Hy; try discriminate; try reflexivity.
  cbn [SF64mul SFmul andb orb].
  pose proof (binary_round_aux_signed (xorb sx sy) (Z.pos (mx * my)) (ex + ey) loc_Exact
                ltac:(lia)) as Hs.
  destruct (binary_round_aux _ _ _ _ _ _); [reflexivity..|contradiction|reflexivity].
Qed.

End CartMoreFacts.

Module ProductMoreFacts.
Import JS Async Spec ProductApi TraceFacts.
Local Open Scope completion_scope.
Local Open Scope async_scope.

Lemma normalizeFeatured_normalizeProducts data :
  normalizeFeatured data = normalizeProducts data.
Proof.
  unfold normalizeFeatured, normalizeProducts.
  destruct data; try reflexivity.
Qed.

Lemma normalizeProduct_payload data :
  normalizeProduct data = (let! payload := Get data "data" in Normal (or_ payload data)).
Proof.
  unfold normalizeProduct.
  destruct data; try reflexivity.
  cbn [Get cbind].
  destruct (ToBoolean (GetPlain props "success")) eqn:E; cbn [cbind];
    [|rewrite E; reflexivity].
  unfold or_. destruct (ToBoolean (GetPlain props "data")); reflexivity.
Qed.

(** The three readers share one shape: one request, an error for a
    status outside 200..299, else the normalized body. *)
Lemma reader_run path label (normalize : JSValue -> Completion JSValue) w :
  tryCatch
    (response <- fetch (readerRequest path) ;;
     if negb (ok response) then
       throw (newError (JSString ("HTTP error! status: " ++ integerToString (status response))))
     else
       data <- lift (json response) ;;
       lift (normalize data))
    (fun error => consoleError label ;;; throw error) w
  = match
      (let! response := network w (fetchCount (trace w)) (readerRequest path) in
       if ok response then let! data := json response in normalize data
       else Throw (newError (JSString ("HTTP error! status: "
                                         ++ integerToString (status response)))))
    with
    | Normal v => (Normal v, after w [EvFetch (readerRequest path)])
    | Throw t => (Throw t, after w [EvFetch (readerRequest path); EvConsoleError label])
    end.
Proof.
  unfold tryCatch, bind, fetch, lift, throw, consoleError, emit.
  destruct (network w (fetchCount (trace w)) (readerRequest path)) as [response|t];
    [|reflexivity].
  cbn [cbind]. destruct (ok response); cbn [negb]; [|reflexivity].
  destruct (json response) as [data|t]; [|reflexivity].
  cbn [cbind]. destruct (normalize data); reflexivity.
Qed.

Lemma getFeaturedProducts_run w :
  getFeaturedProducts w
  = match
      (let! response := network w (fetchCount (trace w)) (readerRequest "/featured") in
       if ok response then let! data := json response in normalizeProducts data
       else Throw (newError (JSString ("HTTP error! status: "
                                         ++ integerToString (status response)))))
    with
    | Normal v => (Normal v, after w [EvFetch (readerRequest "/featured")])
    | Throw t => (Throw t, after w [EvFetch (readerRequest "/featured");
                                    EvConsoleError "Error fetching featured products:"])
    end.
Proof.
  rewrite <- (reader_run "/featured" "Error fetching featured products:" normalizeProducts).
  unfold getFeaturedProducts, tryCatch, bind, lift.
  destruct (fetch _ w) as [[response|t] w1]; [|reflexivity].
  destruct (negb (ok response)); [reflexivity|].
  destruct (json response) as [data|t]; [|reflexivity].
  rewrite normalizeFeatured_normalizeProducts. reflexivity.
Qed.

Lemma getProduct_run id w :
  getProduct id w
  = match
      (let! response := network w (fetchCount (trace w)) (readerRequest ("/" ++ id)) in
       if ok response then
         let! data := json response in
         let! payload := Get data "data" in
         Normal (or_ payload data)
       else Throw (newError (JSString ("HTTP error! status: "
                                         ++ integerToString (status response)))))
    with
    | Normal v => (Normal v, after w [EvFetch (readerRequest ("/" ++ id))])
    | Throw t => (Throw t, after w [EvFetch (readerRequest ("/" ++ id));
                                    EvConsoleError "Error fetching product:"])
    end.
Proof.
  rewrite <- (reader_run ("/" ++ id) "Error fetching product:"
                (fun data => let! payload := Get data "data" in Normal (or_ payload data))).
  unfold getProduct, tryCatch, bind, lift.
  destruct (fetch _ w) as [[response|t] w1]; [|reflexivity].
  destruct (negb (ok response)); [reflexivity|].
  destruct (json response) as [data|t]; [|reflexivity].
  rewrite normalizeProduct_payload. reflexivity.
Qed.

Lemma getCategories_run w :
  exists es,
    getCategories w
    = (Normal (match categoriesAnswer w with Some v => v | None => defaultCategories end),
       after w (EvFetch (readerRequest "/categories") :: es)) /\
    fetchCount es = 0.
Proof.
  unfold getCategories, categoriesAnswer, tryCatch, bind, fetch, lift, ret, consoleError, emit.
  fold (readerRequest "/categories").
  destruct (network w (fetchCount (trace w)) (readerRequest "/categories")) as [response|t].
  2: { eexists [_]. split; reflexivity. }
  destruct (ok response); cbn [negb].
  2: { exists []. split; reflexivity. }
  destruct (json response) as [data|t].
  2: { eexists [_]. split; reflexivity. }
  destruct (Get data "data") as [payload|t].
  - exists []. split; reflexivity.
  - eexists [_]. split; reflexivity.
Qed.

Lemma getAuthToken_null_or_truthy JSON_parse hasWindow sessionData :
  let token := getAuthToken JSON_parse hasWindow sessionData in
  token = JSNull \/ ToBoolean token = true.
Proof.
  unfold getAuthToken.
  destruct hasWindow; [|left; reflexivity].
  destruct sessionData as [[s|]|t]; try (left; reflexivity).
  cbn [negb]. destruct (String.eqb s ""); [left; reflexivity|].
  destruct (JSON_parse s) as [session|t]; [|left; reflexivity].
  cbn [cbind]. destruct (Get session "token") as [token|t]; [|left; reflexivity].
  unfold or_. destruct (ToBoolean token) eqn:E; [right; exact E | left; reflexivity].
Qed.

(** *** Query strings *)

Lemma lookup_app name l1 l2 :
  lookup name (l1 ++ l2)
  = match lookup name l1 with Some v => Some v | None => lookup name l2 end.
Proof.
  induction l1 as [|[k v] l1 IH]; simpl; [reflexivity|].
  destruct (String.eqb k name); [reflexivity | exact IH].
Qed.

Lemma lookup_appendIfTruthy name key x :
  lookup name (appendIfTruthy key x) = if String.eqb key name then nonEmpty x else None.
Proof.
  unfold appendIfTruthy, nonEmpty.
  destruct x as [s|]; [|destruct (String.eqb key name); reflexivity].
  destruct (String.eqb s ""); simpl; destruct (String.eqb key name); reflexivity.
Qed.

Lemma lookup_appendIfDefined {A} name key (f : A -> string) x :
  lookup name (appendIfDefined key f x)
  = if String.eqb key name then option_map f x else None.
Proof.
  unfold appendIfDefined.
  destruct x as [a|]; simpl; destruct (String.eqb key name); reflexivity.
Qed.

Lemma names_appendIfTruthy key x :
  exists b : bool, map fst (appendIfTruthy key x) = if b then [key] else [].
Proof.
  destruct x as [s|]; [|exists false; reflexivity]. unfold appendIfTruthy.
  destruct (String.eqb s ""); [exists false | exists true]; reflexivity.
Qed.

Lemma names_appendIfDefined {A} key (f : A -> string) x :
  exists b : bool, map fst (appendIfDefined key f x) = if b then [key] else [].
Proof. destruct x; [exists true | exists false]; reflexivity. Qed.

(** Keeping some of the names of a list without repeats, in order. *)
Lemma optional_names_not_in (k : string) : forall (names : list string) (bs : list bool),
  ~ In k names ->
  ~ In k (List.concat (map (fun nb : string * bool => if snd nb then [fst nb] else [])
                    (combine names bs))).
Proof.
  induction names as [|n names IH]; intros bs Hn; [intros []|].
  destruct bs as [|b bs]; [intros []|]. cbn [combine map List.concat fst snd].
  intros Hi. apply in_app_or in Hi. destruct Hi as [Hi|Hi].
  - destruct b; [|destruct Hi]. destruct Hi as [->|[]]. apply Hn. left. reflexivity.
  - revert Hi. apply IH. intros Hi. apply Hn. right. exact Hi.
Qed.

Lemma optional_names_NoDup : forall (names : list string) (bs : list bool),
  NoDup names ->
  NoDup (List.concat (map (fun nb : string * bool => if snd nb then [fst nb] else [])
                   (combine names bs))).
Proof.
  induction names as [|n names IH]; intros bs Hn; [constructor|].
  destruct bs as [|b bs]; [constructor|]. cbn [combine map List.concat fst snd].
  inversion Hn as [|? ? Hi Hn']; subst.
  destruct b; cbn [app].
  - constructor; [apply optional_names_not_in; exact Hi | apply IH; exact Hn'].
  - apply IH; exact Hn'.
Qed.

Lemma searchParams_names_NoDup Number_toString p :
  NoDup (map fst (searchParamsOf Number_toString (Some p))).
Proof.
  unfold searchParamsOf. rewrite !map_app.
  destruct (names_appendIfTruthy "search" (GetProductsParams.search p)) as (b1 & ->).
  destruct (names_appendIfTruthy "category" (GetProductsParams.category p)) as (b2 & ->).
  destruct (names_appendIfDefined "min_price" Number_toString (GetProductsParams.min_price p))
    as (b3 & ->).
  destruct (names_appendIfDefined "max_price" Number_toString (GetProductsParams.max_price p))
    as (b4 & ->).
  destruct (names_appendIfDefined "in_stock" Boolean_toString (GetProductsParams.in_stock p))
    as (b5 & ->).
  destruct (names_appendIfTruthy "sort_by" (GetProductsParams.sort_by p)) as (b6 & ->).
  destruct (names_appendIfTruthy "sort_order" (GetProductsParams.sort_order p)) as (b7 & ->).
  assert (Hall : NoDup ["search"; "category"; "min_price"; "max_price"; "in_stock";
                        "sort_by"; "sort_order"]).
  { repeat constructor; cbn; intuition discriminate. }
  pose proof (optional_names_NoDup _ [b1; b2; b3; b4; b5; b6; b7] Hall) as Hgen.
  cbn [combine map List.concat fst snd] in Hgen. rewrite app_nil_r in Hgen. exact Hgen.
Qed.

Lemma allChars_app p s1 s2 : allChars p (s1 ++ s2) = allChars p s1 && allChars p s2.
Proof.
  induction s1 as [|c s1 IH]; simpl; [reflexivity|].
  rewrite IH. apply Bool.andb_assoc.
Qed.

Lemma countChar_app c s1 s2 : countChar c (s1 ++ s2) = countChar c s1 + countChar c s2.
Proof. induction s1 as [|d s1 IH]; simpl; [reflexivity | rewrite IH; lia]. Qed.

Lemma allChars_countChar p c s :
  allChars p s = true -> p c = false -> countChar c s = 0.
Proof.
  intros Ha Hc. induction s as [|d s IH]; simpl in *; [reflexivity|].
  apply Bool.andb_true_iff in Ha. destruct Ha as [Hd Ha].
  destruct (Ascii.eqb_spec d c) as [->|_]; [congruence|].
  rewrite (IH Ha). reflexivity.
Qed.

Lemma hexDigit_unreserved n : n < 16 -> isUnreserved (hexDigit n) = true.
Proof.
  intros Hn. do 16 (destruct n as [|n]; [reflexivity|]). lia.
Qed.

Lemma encodeByte_encoded b : allChars isEncoded (encodeByte b) = true.
Proof.
  unfold encodeByte.
  destruct (isUnreserved b) eqn:Eu.
  - simpl. unfold isEncoded. rewrite Eu. reflexivity.
  - destruct (Ascii.eqb b " "); [reflexivity|].
    pose proof (nat_ascii_bounded b) as Hb.
    cbn [allChars]. unfold isEncoded at 1. cbn [Ascii.eqb Bool.eqb orb].
    unfold isEncoded.
    rewrite !hexDigit_unreserved; [reflexivity| |].
    + apply Nat.mod_upper_bound. lia.
    + apply Nat.Div0.div_lt_upper_bound. lia.
Qed.

Lemma urlencode_encoded s : allChars isEncoded (urlencode s) = true.
Proof.
  induction s as [|c s IH]; cbn [urlencode allChars]; [reflexivity|].
  rewrite allChars_app, IH, Bool.andb_true_r.
  unfold utf8. destruct (nat_of_ascii c <? 128)%nat; cbn [map String.concat].
  - apply encodeByte_encoded.
  - rewrite !allChars_app, !encodeByte_encoded. reflexivity.
Qed.

Lemma pair_counts k v :
  countChar "&" (urlencode k ++ "=" ++ urlencode v) = 0 /\
  countChar "=" (urlencode k ++ "=" ++ urlencode v) = 1 /\
  allChars (fun c => isEncoded c || Ascii.eqb c "&"%char || Ascii.eqb c "="%char)
    (urlencode k ++ "=" ++ urlencode v) = true.
Proof.
  rewrite !countChar_app, !allChars_app.
  rewrite !(allChars_countChar isEncoded "&" _ (urlencode_encoded _) eq_refl).
  rewrite !(allChars_countChar isEncoded "=" _ (urlencode_encoded _) eq_refl).
  repeat split.
  assert (Hw : forall s, allChars isEncoded s = true ->
                 allChars (fun c => isEncoded c || Ascii.eqb c "&"%char || Ascii.eqb c "="%char) s
                 = true).
  { induction s as [|c s IH]; simpl; [reflexivity|].
    intros Ha. apply Bool.andb_true_iff in Ha. destruct Ha as [Hc Ha].
    rewrite Hc, (IH Ha). reflexivity. }
  rewrite (Hw (urlencode k)), (Hw (urlencode v)) by apply urlencode_encoded. reflexivity.
Qed.

Lemma concat_cons sep x y l :
  String.concat sep (x :: y :: l) = x ++ sep ++ String.concat sep (y :: l).
Proof. reflexivity. Qed.

Lemma query_counts pairs :
  let q := URLSearchParams_toString pairs in
  countChar "&" q = List.length pairs - 1 /\
  countChar "=" q = List.length pairs /\
  allChars (fun c => isEncoded c || Ascii.eqb c "&"%char || Ascii.eqb c "="%char) q = true.
Proof.
  unfold URLSearchParams_toString.
  induction pairs as [|[k v] pairs IH]; [repeat split|].
  destruct (pair_counts k v) as (Ha & He & Hc).
  destruct pairs as [|p pairs]; [cbn [map String.concat fst snd List.length]; auto|].
  destruct IH as (IHa & IHe & IHc).
  set (f := fun p : string * string => urlencode (fst p) ++ "=" ++ urlencode (snd p)) in *.
  change (map f ((k, v) :: p :: pairs)) with (f (k, v) :: f p :: map f pairs).
  change (map f (p :: pairs)) with (f p :: map f pairs) in IHa, IHe, IHc.
  rewrite concat_cons.
  change (f (k, v)) with (urlencode k ++ "=" ++ urlencode v).
  set (kv := urlencode k ++ "=" ++ urlencode v) in *.
  set (rest := String.concat "&" _) in *.
  rewrite !(countChar_app _ kv), (allChars_app _ kv), Ha, He, Hc.
  cbn [append countChar allChars Ascii.eqb Bool.eqb isEncoded orb andb].
  rewrite IHa, IHe, IHc. rewrite !Bool.orb_true_r.
  repeat split; cbn [List.length]; lia.
Qed.

(** *** Deleting a product *)


End ProductMoreFacts.

Module RouteMoreFacts.
Import JS Async Spec OrdersRoute TraceFacts.
Local Open Scope completion_scope.
Local Open Scope async_scope.

Lemma Get_not_nullish v key : isNullish v = false -> exists x, Get v key = Normal x.
Proof. destruct v; intros Hn; try discriminate; eexists; reflexivity. Qed.

Lemma Get_nullish v key : isNullish v = true -> exists t, Get v key = Throw t.
Proof. destruct v; intros Hn; try discriminate; eexists; reflexivity. Qed.

Lemma GetOptional_normal v key : exists x, GetOptional v key = Normal x.
Proof. destruct v; eexists; reflexivity. Qed.

Lemma POST_unreadable base request requestBody w :
  match requestBody with
  | Normal body => isNullish body = true
  | Throw _ => True
  end ->
  POST base request requestBody w
  = (Normal response500, after w [EvConsoleError "Orders POST error:"]).
Proof.
  intros Hb. unfold POST, tryCatch, bind, lift.
  destruct requestBody as [body|t]; [|reflexivity].
  destruct (Get_nullish body "is_guest" Hb) as (t & ->). reflexivity.
Qed.

Lemma POST_forwarded base request body w :
  isNullish body = false ->
  let req := createOrderRequest base (headers_get request "authorization") body in
  let w1 := after w [EvConsoleLog "Creating order:"; EvFetch req] in
  POST base request (Normal body) w =
  match network w (fetchCount (trace w)) req with
  | Normal response =>
      match json response with
      | Normal data =>
          if isNullish data then
            (Normal response500, after w1 [EvConsoleError "Orders POST error:"])
          else
            match JSON_stringify data with
            | Some written =>
                if relayableStatus (status response) then
                  (Normal {| responseStatus := status response; responseBody := written |},
                   after w1 [EvConsoleLog "Order creation response:"])
                else
                  (Normal response500,
                   after w1 [EvConsoleLog "Order creation response:";
                             EvConsoleError "Orders POST error:"])
            | None =>
                (Normal response500,
                 after w1 [EvConsoleLog "Order creation response:";
                           EvConsoleError "Orders POST error:"])
            end
      | Throw _ => (Normal response500, after w1 [EvConsoleError "Orders POST error:"])
      end
  | Throw _ => (Normal response500, after w1 [EvConsoleError "Orders POST error:"])
  end.
Proof.
  intros Hb req w1. unfold POST, tryCatch.
  unfold bind at 1, lift at 1.
  destruct (Get_not_nullish body "is_guest" Hb) as (g & Eg).
  destruct (Get_not_nullish body "shipping_info" Hb) as (si & Esi).
  destruct (GetOptional_normal si "email") as (em & Eem).
  unfold bind at 1, lift at 1. rewrite Eg.
  unfold bind at 1, lift at 1. rewrite Esi.
  unfold bind at 1, lift at 1. rewrite Eem.
  unfold bind at 1, consoleLog at 1, emit at 1.
  unfold bind at 1, fetch at 1. cbn [trace authToken network].
  replace (fetchCount (trace w ++ [EvConsoleLog "Creating order:"]))
    with (fetchCount (trace w)) by (rewrite fetchCount_app; cbn; lia).
  fold (createOrderRequest base (headers_get request "authorization") body). fold req.
  destruct (network w (fetchCount (trace w)) req) as [response|t]; [|reflexivity].
  unfold bind at 1, lift at 1.
  destruct (json response) as [data|t]; [|reflexivity].
  destruct (isNullish data) eqn:En.
  - destruct (Get_nullish data "success" En) as (t & Et).
    unfold bind at 1, lift at 1. rewrite Et. reflexivity.
  - destruct (Get_not_nullish data "success" En) as (s & Es).
    destruct (Get_not_nullish data "message" En) as (m & Em).
    unfold bind at 1, lift at 1. rewrite Es.
    unfold bind at 1, lift at 1. rewrite Em.
    unfold bind, consoleLog, consoleError, emit, lift.
    unfold NextResponse_json, relayableStatus.
    destruct (JSON_stringify data) as [written|]; [|reflexivity].
    destruct ((200 <=? status response) && (status response <=? 599))%Z; [|reflexivity].
    destruct (nullBodyStatus (status response)); reflexivity.
Qed.

Lemma POST_settles base request requestBody w :
  exists r es,
    POST base request requestBody w = (Normal r, after w es) /\
    fetchCount es <= 1 /\
    (r = response500 \/
     exists body response data written,
       requestBody = Normal body /\
       network w (fetchCount (trace w))
         (createOrderRequest base (headers_get request "authorization") body)
       = Normal response /\
       json response = Normal data /\
       JSON_stringify data = Some written /\
       r = {| responseStatus := status response; responseBody := written |}).
Proof.
  destruct requestBody as [body|t].
  2: { rewrite POST_unreadable by exact I. eexists _, _. split; [reflexivity|].
       split; [cbn; lia | left; reflexivity]. }
  destruct (isNullish body) eqn:Hb.
  { rewrite POST_unreadable by exact Hb. eexists _, _. split; [reflexivity|].
    split; [cbn; lia | left; reflexivity]. }
  rewrite (POST_forwarded base request body w Hb). cbv zeta.
  destruct (network w _ _) as [response|t] eqn:En.
  2: { rewrite after_after. eexists _, _. split; [reflexivity|].
       split; [cbn; lia | left; reflexivity]. }
  destruct (json response) as [data|t] eqn:Ej.
  2: { rewrite after_after. eexists _, _. split; [reflexivity|].
       split; [cbn; lia | left; reflexivity]. }
  destruct (isNullish data).
  { rewrite after_after. eexists _, _. split; [reflexivity|].
    split; [cbn; lia | left; reflexivity]. }
  destruct (JSON_stringify data) as [written|] eqn:Ew.
  2: { rewrite after_after. eexists _, _. split; [reflexivity|].
       split; [cbn; lia | left; reflexivity]. }
  destruct (relayableStatus (status response)).
  - rewrite after_after. eexists _, _. split; [reflexivity|].
    split; [cbn; lia | right]. exists body, response, data, written.
    repeat split; assumption.
  - rewrite after_after. eexists _, _. split; [reflexivity|].
    split; [cbn; lia | left; reflexivity].
Qed.

End RouteMoreFacts.

Module RegexFacts.
Import JS Spec.

Lemma append_nil_r s : s ++ "" = s.
Proof. induction s as [|c s IH]; simpl; [reflexivity | rewrite IH; reflexivity]. Qed.

Lemma append_assoc s1 s2 s3 : (s1 ++ s2) ++ s3 = s1 ++ s2 ++ s3.
Proof. induction s1 as [|c s1 IH]; simpl; [reflexivity | rewrite IH; reflexivity]. Qed.

Lemma append_eq_nil s1 s2 : s1 ++ s2 = "" -> s1 = "" /\ s2 = "".
Proof. destruct s1; simpl; intros E; [split; [reflexivity | exact E] | discriminate]. Qed.

Lemma nullable_Matches r : nullable r = true <-> Matches r EmptyString.
Proof.
  induction r as [| |p|r1 IH1 r2 IH2|r1 IH1 r2 IH2|r IH]; simpl; split; intros Hm;
    try discriminate; try (inversion Hm; fail).
  - constructor.
  - reflexivity.
  - apply Bool.andb_true_iff in Hm. destruct Hm as [H1 H2].
    change EmptyString with (EmptyString ++ EmptyString).
    constructor; [apply IH1 | apply IH2]; assumption.
  - inversion Hm as [| |? ? s1 s2 M1 M2| | | |]; subst.
    match goal with E : _ ++ _ = EmptyString |- _ =>
      apply append_eq_nil in E; destruct E as [-> ->] end.
    apply Bool.andb_true_iff. split; [apply IH1 | apply IH2]; assumption.
  - apply Bool.orb_true_iff in Hm. destruct Hm as [H1|H2].
    + apply MAltL, IH1, H1.
    + apply MAltR, IH2, H2.
  - apply Bool.orb_true_iff. inversion Hm; subst; [left; apply IH1 | right; apply IH2]; assumption.
  - constructor.
  - reflexivity.
Qed.

(** A non-empty match of a star starts with a non-empty match of its
    body. *)
Lemma Matches_star_cons r c s :
  Matches (RStar r) (String c s) ->
  exists s1 s2, s = s1 ++ s2 /\ Matches r (String c s1) /\ Matches (RStar r) s2.
Proof.
  intros Hm. remember (RStar r) as r' eqn:Er. remember (String c s) as cs eqn:Ecs.
  revert s Ecs.
  induction Hm as [| | | | | |r0 s1 s2 M1 _ M2 IH2]; try discriminate; intros s Ecs;
    try discriminate.
  injection Er as ->.
  destruct s1 as [|d s1]; simpl in Ecs.
  - apply IH2; [reflexivity | exact Ecs].
  - injection Ecs as -> <-. exists s1, s2. repeat split; assumption.
Qed.

Lemma deriv_Matches r : forall c s, Matches (deriv c r) s <-> Matches r (String c s).
Proof.
  induction r as [| |p|r1 IH1 r2 IH2|r1 IH1 r2 IH2|r IH]; intros c s; simpl.
  - split; intros Hm; inversion Hm.
  - split; intros Hm; inversion Hm.
  - destruct (p c) eqn:Ep; split; intros Hm.
    + inversion Hm; subst. constructor. exact Ep.
    + inversion Hm; subst. constructor.
    + inversion Hm.
    + inversion Hm; subst. congruence.
  - assert (Hseq : Matches (RSeq (deriv c r1) r2) s ->
                   Matches (RSeq r1 r2) (String c s)).
    { intros Hm. inversion Hm as [| |? ? s1 s2 M1 M2| | | |]; subst.
      change (String c (s1 ++ s2)) with (String c s1 ++ s2).
      constructor; [apply IH1; exact M1 | exact M2]. }
    assert (Hrev : Matches (RSeq r1 r2) (String c s) ->
                   Matches (RSeq (deriv c r1) r2) s \/
                   (nullable r1 = true /\ Matches (deriv c r2) s)).
    { intros Hm. inversion Hm as [| |? ? s1 s2 M1 M2| | | |]; subst.
      match goal with E : _ ++ _ = String _ _ |- _ => rename E into E0 end.
      destruct s1 as [|d s1]; simpl in E0.
      - right. split; [apply nullable_Matches; exact M1|]. subst s2. apply IH2. exact M2.
      - injection E0 as -> <-. left. constructor; [apply IH1; exact M1 | exact M2]. }
    destruct (nullable r1) eqn:En; split; intros Hm.
    + inversion Hm; subst; [apply Hseq; assumption|].
      change (String c s) with (EmptyString ++ String c s).
      constructor; [apply nullable_Matches; exact En | apply IH2; assumption].
    + destruct (Hrev Hm) as [H1|[_ H2]]; [apply MAltL | apply MAltR]; assumption.
    + apply Hseq; exact Hm.
    + destruct (Hrev Hm) as [H1|[H2 _]]; [exact H1 | discriminate].
  - split; intros Hm.
    + inversion Hm; subst; [apply MAltL, IH1 | apply MAltR, IH2]; assumption.
    + inversion Hm; subst; [apply MAltL, IH1 | apply MAltR, IH2]; assumption.
  - split; intros Hm.
    + inversion Hm as [| |? ? s1 s2 M1 M2| | | |]; subst.
      change (String c (s1 ++ s2)) with (String c s1 ++ s2).
      constructor; [apply IH; exact M1 | exact M2].
    + destruct (Matches_star_cons _ _ _ Hm) as (s1 & s2 & -> & M1 & M2).
      constructor; [apply IH; exact M1 | exact M2].
Qed.

Lemma test_Matches s : forall r, test r s = true <-> Matches r s.
Proof.
  induction s as [|c s IH]; intros r; simpl.
  - apply nullable_Matches.
  - rewrite IH. apply deriv_Matches.
Qed.

(** One or more code units of a class. *)
Lemma Matches_star_class p s : Matches (RStar (RClass p)) s <-> allChars p s = true.
Proof.
  split.
  - intros Hm. remember (RStar (RClass p)) as r eqn:Er.
    induction Hm as [| | | | | |r0 s1 s2 M1 _ M2 IH2]; try discriminate; [reflexivity|].
    injection Er as ->. inversion M1; subst. simpl.
    rewrite (IH2 eq_refl). rewrite H0. reflexivity.
  - induction s as [|c s IH]; simpl; intros Ha; [constructor|].
    apply Bool.andb_true_iff in Ha. destruct Ha as [Hc Ha].
    change (String c s) with (String c EmptyString ++ s).
    constructor; [constructor; exact Hc | apply IH; exact Ha].
Qed.

Lemma Matches_plus_class p s :
  Matches (RPlus (RClass p)) s <-> s <> EmptyString /\ allChars p s = true.
Proof.
  unfold RPlus. split.
  - intros Hm. inversion Hm as [| |? ? s1 s2 M1 M2| | | |]; subst.
    inversion M1; subst. simpl. split; [discriminate|].
    apply Matches_star_class in M2. rewrite M2, H0. reflexivity.
  - intros [Hne Ha]. destruct s as [|c s]; [congruence|]. simpl in Ha.
    apply Bool.andb_true_iff in Ha. destruct Ha as [Hc Ha].
    change (String c s) with (String c EmptyString ++ s).
    constructor; [constructor; exact Hc | apply Matches_star_class; exact Ha].
Qed.

Lemma Matches_char c s : Matches (RClass (Ascii.eqb c)) s <-> s = String c EmptyString.
Proof.
  split.
  - intros Hm. inversion Hm; subst. apply Ascii.eqb_eq in H0. subst. reflexivity.
  - intros ->. constructor. apply Ascii.eqb_refl.
Qed.

Lemma test_emailRegex s : test Checkout.emailRegex s = true <-> emailShape s.
Proof.
  rewrite test_Matches. unfold Checkout.emailRegex, emailShape, emailPiece. split.
  - intros Hm.
    inversion Hm as [| |? ? l s2 Ml M2| | | |]; subst.
    inversion M2 as [| |? ? a s3 Ma M3| | | |]; subst.
    inversion M3 as [| |? ? d s4 Md M4| | | |]; subst.
    inversion M4 as [| |? ? dot t Mdot Mt| | | |]; subst.
    apply Matches_char in Ma. apply Matches_char in Mdot. subst.
    apply Matches_plus_class in Ml. apply Matches_plus_class in Md.
    apply Matches_plus_class in Mt.
    exists l, d, t. repeat split; tauto.
  - intros (l & d & t & -> & Hl & Hd & Ht).
    constructor; [apply Matches_plus_class; exact Hl|].
    change ("@" ++ d ++ "." ++ t) with (String "@" EmptyString ++ d ++ "." ++ t).
    constructor; [apply Matches_char; reflexivity|].
    constructor; [apply Matches_plus_class; exact Hd|].
    change ("." ++ t) with (String "." EmptyString ++ t).
    constructor; [apply Matches_char; reflexivity|].
    apply Matches_plus_class; exact Ht.
Qed.

End RegexFacts.

Module InputFacts.
Import JS Async Spec Checkout CheckoutFacts TraceFacts.
Local Open Scope async_scope.

Lemma allChars_removeAll cls s : allChars (fun c => negb (cls c)) (removeAll cls s) = true.
Proof.
  induction s as [|c s IH]; simpl; [reflexivity|].
  destruct (cls c) eqn:E; simpl; [exact IH | rewrite E, IH; reflexivity].
Qed.

Lemma removeAll_clean cls s :
  allChars (fun c => negb (cls c)) s = true -> removeAll cls s = s.
Proof.
  induction s as [|c s IH]; simpl; [reflexivity|].
  intros Ha. apply Bool.andb_true_iff in Ha. destruct Ha as [Hc Ha].
  apply Bool.negb_true_iff in Hc. rewrite Hc, (IH Ha). reflexivity.
Qed.

Lemma removeAll_idempotent cls s : removeAll cls (removeAll cls s) = removeAll cls s.
Proof. apply removeAll_clean, allChars_removeAll. Qed.

Lemma allChars_slice0 p n : forall s, allChars p s = true -> allChars p (slice0 n s) = true.
Proof.
  induction n as [|n IH]; intros [|c s]; simpl; try reflexivity.
  intros Ha. apply Bool.andb_true_iff in Ha. destruct Ha as [Hc Ha].
  rewrite Hc, (IH _ Ha). reflexivity.
Qed.

Lemma length_slice0 n : forall s, String.length (slice0 n s) = Nat.min n (String.length s).
Proof. induction n as [|n IH]; intros [|c s]; simpl; try reflexivity. rewrite IH. reflexivity. Qed.

Lemma slice0_short n : forall s, String.length s <= n -> slice0 n s = s.
Proof.
  induction n as [|n IH]; intros [|c s]; simpl; try reflexivity; try lia.
  intros Hl. rewrite IH by lia. reflexivity.
Qed.

Lemma allDigits_allChars s : allDigits s = allChars class_digit s.
Proof. induction s as [|c s IH]; simpl; [reflexivity | rewrite IH; reflexivity]. Qed.

Lemma allChars_ext p q s : (forall c, p c = q c) -> allChars p s = allChars q s.
Proof. intros E. induction s as [|c s IH]; simpl; [reflexivity | rewrite E, IH; reflexivity]. Qed.

Lemma removeAll_none cls s : (forall c, cls c = false) -> removeAll cls s = s.
Proof.
  intros Hc. induction s as [|c s IH]; simpl; [reflexivity|].
  rewrite Hc, IH. reflexivity.
Qed.

Lemma handleInputChange_kept i name value :
  handleInputChange i name value = setField i name (kept name value).
Proof.
  unfold handleInputChange, kept, fieldClass, fieldLimit.
  destruct (String.eqb name "phone") eqn:E1; [reflexivity|].
  destruct (String.eqb name "firstName") eqn:E2;
    [apply String.eqb_eq in E2; subst name; reflexivity|].
  destruct (String.eqb name "lastName") eqn:E3;
    [apply String.eqb_eq in E3; subst name; reflexivity|].
  destruct (String.eqb name "zipCode") eqn:E4;
    [apply String.eqb_eq in E4; subst name; reflexivity|].
  destruct (String.eqb name "city") eqn:E5; [reflexivity|].
  destruct (String.eqb name "province") eqn:E6; [reflexivity|].
  cbn [orb]. rewrite removeAll_none by reflexivity. reflexivity.
Qed.

Lemma kept_allowed name value :
  allChars (fieldClass name) (kept name value) = true /\
  (forall n, fieldLimit name = Some n -> String.length (kept name value) <= n).
Proof.
  unfold kept.
  assert (Hc : allChars (fieldClass name)
                 (removeAll (fun c => negb (fieldClass name c)) value) = true).
  { rewrite (allChars_ext _ (fun c => negb (negb (fieldClass name c))))
      by (intros c; rewrite Bool.negb_involutive; reflexivity).
    apply allChars_removeAll. }
  destruct (fieldLimit name) as [n|].
  - split; [apply allChars_slice0, Hc|].
    intros n' E. injection E as <-. rewrite length_slice0. lia.
  - split; [exact Hc | discriminate].
Qed.

Lemma kept_clean name value :
  allChars (fieldClass name) value = true ->
  (forall n, fieldLimit name = Some n -> String.length value <= n) ->
  kept name value = value.
Proof.
  intros Ha Hl. unfold kept. rewrite removeAll_clean.
  - destruct (fieldLimit name) as [n|]; [apply slice0_short, Hl; reflexivity | reflexivity].
  - rewrite (allChars_ext _ (fieldClass name))
      by (intros c; apply Bool.negb_involutive). exact Ha.
Qed.

Lemma kept_stable name value : kept name (kept name value) = kept name value.
Proof. destruct (kept_allowed name value) as [Ha Hl]. apply kept_clean; assumption. Qed.

Lemma shippingField_setField i name value :
  In name requiredFields -> shippingField (setField i name value) name = value.
Proof.
  unfold requiredFields. intros Hin. simpl in Hin.
  repeat (destruct Hin as [<-|Hin]; [reflexivity|]). contradiction.
Qed.

Lemma shippingField_setField_other i name other value :
  In other requiredFields -> other <> name ->
  shippingField (setField i name value) other = shippingField i other.
Proof.
  unfold requiredFields. intros Hin Hne. simpl in Hin.
  assert (Hf : forall f, f = other -> String.eqb name f = false).
  { intros f ->. apply String.eqb_neq. congruence. }
  repeat (destruct Hin as [<-|Hin];
          [unfold setField, shippingField; cbn [String.eqb Ascii.eqb Bool.eqb firstName lastName
             email phone address city province zipCode];
           rewrite (Hf _ eq_refl); reflexivity|]).
  contradiction.
Qed.

Lemma setField_setField i name v1 v2 :
  setField (setField i name v1) name v2 = setField i name v2.
Proof.
  unfold setField. cbn [firstName lastName email phone address city province zipCode].
  repeat match goal with |- context [if ?b then _ else _] => destruct b end; reflexivity.
Qed.

Lemma setField_same i name :
  In name requiredFields -> setField i name (shippingField i name) = i.
Proof.
  unfold requiredFields. intros Hin. simpl in Hin.
  repeat (destruct Hin as [<-|Hin]; [destruct i; reflexivity|]). contradiction.
Qed.

End InputFacts.

Module PrefillFacts.
Import JS Async Spec Checkout.

Lemma split_space_cons s : exists piece pieces, split_space s = piece :: pieces.
Proof.
  induction s as [|c s (p & ps & IH)]; simpl.
  - eexists _, _. reflexivity.
  - destruct (Ascii.eqb c " "); [eexists _, _; reflexivity|].
    rewrite IH. eexists _, _. reflexivity.
Qed.

Lemma concat_cons_space piece pieces :
  String.concat " " (piece :: pieces)
  = piece ++ match pieces with [] => "" | _ => " " ++ String.concat " " pieces end.
Proof.
  destruct pieces; simpl; [|reflexivity].
  induction piece as [|c p IH]; simpl; [reflexivity | rewrite <- IH; reflexivity].
Qed.

(** Joining the pieces with spaces gives the string back. *)
Lemma join_split_space s : String.concat " " (split_space s) = s.
Proof.
  induction s as [|c s IH]; [reflexivity|].
  cbn [split_space].
  destruct (Ascii.eqb_spec c " ") as [->|Hc].
  - destruct (split_space_cons s) as (p & ps & E). rewrite E in *.
    change (String.concat " " ("" :: p :: ps)) with (" " ++ String.concat " " (p :: ps)).
    rewrite IH. reflexivity.
  - destruct (split_space_cons s) as (p & ps & E). rewrite E in *.
    rewrite concat_cons_space in *. rewrite <- IH. reflexivity.
Qed.

Lemma split_space_head s :
  countChar " " (hd EmptyString (split_space s)) = 0 /\
  (countChar " " s = 0 <-> tl (split_space s) = []).
Proof.
  induction s as [|c s [IH1 IH2]]; cbn [split_space countChar].
  - split; [reflexivity | split; reflexivity].
  - destruct (Ascii.eqb_spec c " ") as [->|Hc].
    + cbn [hd tl countChar]. split; [reflexivity|].
      destruct (split_space_cons s) as (p & ps & E). rewrite E.
      split; [lia | discriminate].
    + destruct (split_space_cons s) as (p & ps & E). rewrite E in *.
      cbn [hd tl countChar] in *.
      replace (Ascii.eqb c " ") with false by (symmetry; apply Ascii.eqb_neq; exact Hc).
      split; [exact IH1 | exact IH2].
Qed.

Lemma prefill_name userName userEmail prev :
  let i := prefill userName userEmail prev in
  countChar " " (firstName i) = 0 /\
  (countChar " " userName = 0 -> firstName i = userName /\ lastName i = "") /\
  (countChar " " userName <> 0 -> userName = firstName i ++ " " ++ lastName i).
Proof.
  cbn [prefill firstName lastName].
  destruct (split_space_head userName) as [Hh Ht].
  pose proof (join_split_space userName) as Hj.
  destruct (split_space_cons userName) as (p & ps & E). rewrite E in *.
  cbn [hd tl] in *. rewrite concat_cons_space in Hj.
  split; [exact Hh|]. split.
  - intros H0. apply Ht in H0. subst ps. split; [|reflexivity].
    rewrite <- Hj. symmetry. apply RegexFacts.append_nil_r.
  - intros Hn. destruct ps as [|q qs]; [exfalso; apply Hn, Ht; reflexivity|].
    symmetry. exact Hj.
Qed.

End PrefillFacts.

Module SubmitFacts.
Import JS Async Cart Spec Checkout CheckoutFacts TraceFacts.
Local Open Scope async_scope.

Lemma validateForm_run i w :
  exists es,
    validateForm i w = (Normal (formAccepted i), after w es) /\
    (if formAccepted i then es = []
     else exists message,
            es = [EvToast "error" [JSString "Validation Error"; JSString message]]).
Proof.
  destruct (validateForm_result i w) as (w' & E & Hy & Hn). fold (formAccepted i) in *.
  destruct (formAccepted i).
  - exists []. rewrite E, (Hy eq_refl). split; reflexivity.
  - destruct (Hn eq_refl) as (message & ->). eexists. split; [exact E|].
    exists message. reflexivity.
Qed.

Section Page.
Variable clear : M bool.
Variable refresh : M unit.

Lemma handleSubmit_settles st w :
  exists w',
    handleSubmit clear refresh st w = (Normal tt, w') /\
    (formAccepted (shippingInfo st) = true ->
     exists t, trace w' = (t ++ [EvSetIsProcessing false])%list).
Proof.
  unfold handleSubmit.
  unfold bind at 1. unfold emit at 1. cbv iota beta.
  unfold bind at 1.
  match goal with |- context [validateForm _ ?w1] =>
    destruct (validateForm_run (shippingInfo st) w1) as (es & E & _); rewrite E
  end.
  destruct (formAccepted (shippingInfo st)); cbn [negb].
  - unfold bind at 1. unfold emit at 1. cbv iota beta.
    unfold tryFinally, tryCatch.
    match goal with |- context [let (r, w') := match ?b ?w1 with _ => _ end in _] =>
      destruct (b w1) as [[[]|t] w2]
    end.
    + unfold emit. eexists. split; [reflexivity|]. intros _. eexists. reflexivity.
    + unfold bind, consoleError, emit. eexists. split; [reflexivity|].
      intros _. eexists. reflexivity.
  - eexists. split; [reflexivity | discriminate].
Qed.




End Page.



End SubmitFacts.

Module WireFacts.
Import JS Async Cart Spec FloatFacts CartFacts.

(** *** Errors made from a message *)

Lemma newError_or message fallback :
  newError (or_ message (JSString fallback))
  = match messageText message fallback with
    | Normal text => ErrorObject "Error" (JSString text)
    | Throw t => t
    end.
Proof.
  unfold messageText, or_.
  destruct (ToBoolean message) eqn:E; [|reflexivity].
  destruct message; try discriminate E; reflexivity.
Qed.

Lemma messageText_string s fallback : s <> "" -> messageText (JSString s) fallback = Normal s.
Proof.
  intros Hs. unfold messageText, or_. cbn [ToBoolean].
  replace (String.eqb s "") with false by (symmetry; apply String.eqb_neq; exact Hs).
  reflexivity.
Qed.

Lemma messageText_falsy message fallback :
  ToBoolean message = false -> messageText message fallback = Normal fallback.
Proof. intros Hf. unfold messageText, or_. rewrite Hf. reflexivity. Qed.

Lemma messageText_object props fallback :
  messageText (JSObject props) fallback
  = match assoc "toString" props with
    | Some _ => Throw TypeError_noPrimitive
    | None => Normal "[object Object]"
    end.
Proof. reflexivity. Qed.

(** *** Numbers on the wire *)

Lemma isNegativeZero_spec x :
  isNegativeZero x = match Prim2SF x with S754_zero true => true | _ => false end.
Proof.
  unfold isNegativeZero. rewrite classify_spec.
  destruct (Prim2SF x) as [[|]|[|]| |[|] m e]; try reflexivity;
    unfold SF64classify, SFclassify;
    destruct (Z.pos (digits2_pos m) =? prec)%Z; reflexivity.
Qed.

Lemma isFinite_spec x :
  isFinite x = match Prim2SF x with S754_zero _ | S754_finite _ _ _ => true | _ => false end.
Proof.
  unfold isFinite, is_finite. fold (isNaN x). fold (isInfinity x).
  rewrite isNaN_spec, CartMoreFacts.isInfinity_spec.
  destruct (Prim2SF x); reflexivity.
Qed.

Lemma JSON_stringify_number x :
  JSON_stringify (JSNumber x)
  = Some (match Prim2SF x with
          | S754_nan | S754_infinity _ => JSNull
          | S754_zero _ => JSNumber 0
          | S754_finite _ _ _ => JSNumber x
          end).
Proof.
  cbn [JSON_stringify]. rewrite isFinite_spec, isNegativeZero_spec.
  destruct (Prim2SF x) as [[|]|[|]| |s m e] eqn:E; try reflexivity.
  apply Prim2SF_zero in E. subst x. reflexivity.
Qed.

(** [Math.max(1, n)] for a number that is not NaN is a positive number,
    which is infinite only when [n] is Infinity. *)
Lemma clamped_positive n :
  isNaN n = false ->
  match Prim2SF (Math_max [1%float; n]) with
  | S754_infinity false | S754_finite false _ _ => True
  | _ => False
  end.
Proof.
  intros Hn. pose proof (clamped_ge_1 n Hn) as Hge.
  unfold ge in Hge. rewrite leb_spec in Hge.
  change (Prim2SF 1) with (S754_finite false 4503599627370496 (-52)) in Hge.
  destruct (Prim2SF (Math_max [1%float; n])) as [[|]|[|]| |[|] m e];
    try discriminate Hge; exact I.
Qed.

Lemma clamped_infinite n :
  isNaN n = false -> (isInfinity (Math_max [1%float; n]) = true <-> n = infinity).
Proof.
  intros Hn. split.
  - rewrite Math_max_1, Hn. destruct (gt n 1) eqn:Hg; [|discriminate].
    rewrite CartMoreFacts.isInfinity_spec.
    unfold gt in Hg. rewrite ltb_spec in Hg.
    change (Prim2SF 1) with (S754_finite false 4503599627370496 (-52)) in Hg.
    destruct (Prim2SF n) as [s|[|]| |s m e] eqn:E; try discriminate.
    intros _. exact (Prim2SF_infinity n false E).
  - intros ->. reflexivity.
Qed.

Lemma JSON_stringify_clamped n :
  isNaN n = false ->
  let clamped := Math_max [1%float; n] in
  JSON_stringify (JSNumber clamped)
  = Some (if isInfinity clamped then JSNull else JSNumber clamped).
Proof.
  intros Hn clamped. rewrite JSON_stringify_number, CartMoreFacts.isInfinity_spec.
  pose proof (clamped_positive n Hn) as Hp. fold clamped in Hp.
  destruct (Prim2SF clamped) as [s|[|]| |[|] m e]; try contradiction; reflexivity.
Qed.

End WireFacts.

(** The conversions on concrete values: numbers as [String] prints them,
    values as messages of errors, and what [JSON.stringify] writes. *)
Example conversions_run :
  map Number_prototype_toString
    [0.1; 1; 42; 2500; 1.5; 123.456; -0.001; 1e21; 100000000000000000000; 1e-7; 0.000001;
     0.30000000000000004; 5e-324; 1.7976931348623157e308; -0; parseFloat "1e400"]%float
  = ["0.1"; "1"; "42"; "2500"; "1.5"; "123.456"; "-0.001"; "1e+21"; "100000000000000000000";
     "1e-7"; "0.000001"; "0.30000000000000004"; "5e-324"; "1.7976931348623157e+308"; "0";
     "Infinity"] /\
  ToString (JSArray [JSNumber 1; JSNull;
                           JSArray [JSString "a"; JSBoolean true]])
  = Normal "1,,a,true" /\
  ToString (JSObject [("message", JSString "x")]) = Normal "[object Object]" /\
  ToString (JSArray [JSObject [("toString", JSNull)]])
  = Throw TypeError_noPrimitive /\
  newError (JSNumber 404) = ErrorObject "Error" (JSString "404") /\
  newError (JSArray []) = ErrorObject "Error" (JSString "") /\
  JSON_stringify
    (JSObject [("id", JSNumber 7); ("color", JSUndefined);
                  ("sizes", JSArray [JSNumber nan; JSUndefined; JSNumber (-0)])])
  = Some (JSObject [("id", JSNumber 7);
                       ("sizes", JSArray [JSNull; JSNull; JSNumber 0])]) /\
  JSON_stringify JSUndefined = None.
Proof. vm_compute. repeat split. Qed.

(* ================================================================== *)
(** * Further properties of the cart client *)
(* ================================================================== *)

(** X1: while no auth token is present (null, or the empty string),
    [addToCart] rejects with the error "Authentication required", which it
    has logged, and makes no network request. *)
Theorem addToCart_requires_a_token :
  forall (host : Host) (w : World) (productId quantity color : JSValue),
    falsyToken (authToken w) = true ->
    addToCart productId quantity color w
    = (Throw (newError (JSString "Authentication required")),
       after w [EvConsoleError "Add to cart error:"]) /\
    fetchCount (trace (snd (addToCart productId quantity color w))) = fetchCount (trace w).
Proof.
  intros host w productId quantity color Hf.
  rewrite (CartMoreFacts.addToCart_guest productId quantity color w Hf).
  split; [reflexivity|]. cbn [snd]. rewrite RetryFacts.trace_after.
  rewrite TraceFacts.fetchCount_app. cbn. lia.
Qed.

(** The theorem for a guest whose backend would accept the item. *)
Lemma addToCart_requires_a_token_witness :
  let w := worldAnswering None
             (Normal (jsonResponse 200 ""
                        (JSObject [("success", JSBoolean true);
                                   ("data", JSObject [("id", JSString "1")])]))) in
  fst (@addToCart dataHost (JSNumber 7) (JSNumber 2) JSUndefined w)
  = Throw (newError (JSString "Authentication required")) /\
  fetchCount (trace (snd (@addToCart dataHost (JSNumber 7) (JSNumber 2) JSUndefined w))) = 0.
Proof.
  intros w.
  destruct (addToCart_requires_a_token dataHost w (JSNumber 7) (JSNumber 2) JSUndefined eq_refl)
    as [E F].
  split; [rewrite E; reflexivity | exact F].
Defined.

(** X2: the quantity that [updateCartQuantity] and [addToCart] hand to
    [JSON.stringify] is [Math.max(1, n)] for the normalized quantity [n],
    a number that is at least 1, whatever quantity they were given; the
    request is the first thing they do once a token is present.  What
    the request body carries is that number, except when it is Infinity
    (the quantity was Infinity, or a string such as "Infinity" or "1e999"),
    which is written as null: the body then says [{"quantity":null}]. *)
Theorem quantity_sent_is_at_least_1_or_null :
  forall (host : Host) (w : World) (token itemId : string)
         (productId color quantity : JSValue) (n : number),
    authToken w = Some token ->
    token <> "" ->
    safeNumber quantity = Normal n ->
    let clamped := Math_max [1%float; n] in
    let sent := if isInfinity clamped then JSNull else JSNumber clamped in
    ge clamped 1 = true /\
    (isInfinity clamped = true <-> n = infinity) /\
    firstNewEvent w (snd (updateCartQuantity itemId quantity w))
    = Some (EvFetch (updateQuantityRequest token itemId clamped)) /\
    body (updateQuantityRequest token itemId clamped)
    = Some (JSObject [("quantity", sent)]) /\
    firstNewEvent w (snd (addToCart productId quantity color w))
    = Some (EvFetch (addToCartRequest token productId clamped color)) /\
    (exists props,
       body (addToCartRequest token productId clamped color) = Some (JSObject props) /\
       assoc "quantity" props = Some sent).
Proof.
  intros host w token itemId productId color quantity n Etok Hne En clamped sent.
  assert (Hn : isNaN n = false) by (eapply CartFacts.safeNumber_not_nan; exact En).
  pose proof (WireFacts.JSON_stringify_clamped n Hn) as Hw. cbv zeta in Hw.
  fold clamped in Hw. fold sent in Hw.
  split; [apply CartFacts.clamped_ge_1; exact Hn|].
  split; [apply WireFacts.clamped_infinite; exact Hn|].
  split; [|split; [|split]].
  - destruct (CartMoreFacts.updateCartQuantity_first_request itemId quantity w token n
                Etok Hne En) as (rest & E).
    unfold firstNewEvent. rewrite E. apply TraceFacts.nth_error_first_new.
  - unfold updateQuantityRequest. cbn [body].
    change (JSON_stringify (JSObject [("quantity", JSNumber clamped)]))
      with (Some (JSObject match JSON_stringify (JSNumber clamped) with
                           | Some written => [("quantity", written)]
                           | None => []
                           end)).
    rewrite Hw. reflexivity.
  - destruct (CartMoreFacts.safeNumber_defaulted quantity n En) as (n' & En' & Emax).
    destruct (CartMoreFacts.addToCart_first_request productId quantity color w token n'
                Etok Hne En') as (rest & E).
    unfold firstNewEvent. rewrite E, Emax. apply TraceFacts.nth_error_first_new.
  - unfold addToCartRequest. cbn [body].
    change (JSON_stringify (JSObject [("product_id", productId);
                                      ("quantity", JSNumber clamped); ("color", color)]))
      with (Some (JSObject
                    (let rest :=
                       match JSON_stringify (JSNumber clamped) with
                       | Some written =>
                           ("quantity", written)
                           :: match JSON_stringify color with
                              | Some c => [("color", c)]
                              | None => []
                              end
                       | None =>
                           match JSON_stringify color with
                           | Some c => [("color", c)]
                           | None => []
                           end
                       end in
                     match JSON_stringify productId with
                     | Some p => ("product_id", p) :: rest
                     | None => rest
                     end))).
    rewrite Hw. cbv zeta. eexists. split; [reflexivity|].
    destruct (JSON_stringify productId); reflexivity.
Qed.

(** The theorem at the quantity -3, for which both functions ask for 1,
    and at the quantity "1e999", for which both send null. *)
Lemma quantity_sent_is_at_least_1_or_null_witness :
  let w := worldAnswering (Some "t")
             (Normal (jsonResponse 200 "" (JSObject [("success", JSBoolean true)]))) in
  let sent quantity := {| url := "/api/cart/7"; method := "PUT";
                          headers := [("Content-Type", "application/json");
                                      ("Authorization", "Bearer t")];
                          body := Some (JSObject [("quantity", quantity)]) |} in
  firstNewEvent w (snd (@updateCartQuantity dataHost "7" (JSNumber (-3)) w))
  = Some (EvFetch (sent (JSNumber 1))) /\
  firstNewEvent w (snd (@updateCartQuantity dataHost "7" (JSString "1e999") w))
  = Some (EvFetch (sent JSNull)) /\
  firstNewEvent w (snd (@addToCart dataHost (JSNumber 7) (JSNumber (-3)) JSUndefined w))
  = Some (EvFetch {| url := "/api/cart"; method := "POST";
                     headers := [("Content-Type", "application/json");
                                 ("Authorization", "Bearer t")];
                     body := Some (JSObject [("product_id", JSNumber 7);
                                             ("quantity", JSNumber 1)]) |}).
Proof.
  intros w sent.
  destruct (quantity_sent_is_at_least_1_or_null dataHost w "t" "7" (JSNumber 7) JSUndefined
              (JSNumber (-3)) (-3)%float eq_refl ltac:(discriminate) eq_refl)
    as (_ & _ & E1 & _ & E2 & _).
  destruct (quantity_sent_is_at_least_1_or_null dataHost w "t" "7" (JSNumber 7) JSUndefined
              (JSString "1e999") infinity eq_refl ltac:(discriminate) eq_refl)
    as (_ & _ & E3 & _).
  split; [exact E1|]. split; [exact E3 | exact E2].
Defined.

(** X3: whenever [addToCart] resolves, it resolves to an object (never to
    null) made from the item [data.data] of the backend's answer: its
    [price] and [quantity] are the item's normalized ones, numbers that are
    never NaN; its [total] is the item's normalized total, or price times
    quantity when that is 0; every other property is the item's own.  One
    request was made and the event [cartUpdated] was dispatched once. *)
Theorem addToCart_resolves_with_the_item :
  forall (host : Host) (w w' : World) (productId quantity color result : JSValue),
    addToCart productId quantity color w = (Normal result, w') ->
    exists request response data cartItem props price itemQuantity safeTotal,
      network w (fetchCount (trace w)) request = Normal response /\
      json response = Normal data /\
      Get data "data" = Normal cartItem /\
      ToBoolean cartItem = true /\
      (let! raw := Get cartItem "price" in safeNumber raw) = Normal price /\
      (let! raw := Get cartItem "quantity" in safeNumber raw) = Normal itemQuantity /\
      (let! raw := Get cartItem "total" in safeNumber raw) = Normal safeTotal /\
      result = JSObject props /\
      GetPlain props "price" = JSNumber price /\
      isNaN price = false /\
      GetPlain props "quantity" = JSNumber itemQuantity /\
      isNaN itemQuantity = false /\
      GetPlain props "total"
      = JSNumber (if strictEqNumber safeTotal 0 then (price * itemQuantity)%float
                  else safeTotal) /\
      (forall key, key <> "price" -> key <> "quantity" -> key <> "total" ->
                   GetPlain props key = GetPlain (spread cartItem) key) /\
      fetchCount (trace w') = fetchCount (trace w) + 1 /\
      dispatchCount "cartUpdated" (trace w') = dispatchCount "cartUpdated" (trace w) + 1.
Proof.
  intros host w w' productId quantity color result Hr.
  destruct (CartMoreFacts.addToCart_resolved productId quantity color w result w' Hr)
    as (token & n & response & data & cartItem & rawPrice & price & rawQuantity
        & itemQuantity & rawTotal & safeTotal
        & Etok & Hne & En & Enet & Ej & Ed & Etc & Ep & Esp & Eq & Esq & Et & Est & -> & ->).
  eexists _, response, data, cartItem, _, price, itemQuantity, safeTotal.
  split; [exact Enet|]. split; [exact Ej|]. split; [exact Ed|]. split; [exact Etc|].
  split; [rewrite Ep; exact Esp|]. split; [rewrite Eq; exact Esq|].
  split; [rewrite Et; exact Est|]. split; [reflexivity|].
  split.
  { rewrite CartMoreFacts.GetPlain_setProp_other by discriminate.
    rewrite CartMoreFacts.GetPlain_setProp_other by discriminate.
    apply CartMoreFacts.GetPlain_setProp_same. }
  split; [eapply CartFacts.safeNumber_not_nan; exact Esp|].
  split.
  { rewrite CartMoreFacts.GetPlain_setProp_other by discriminate.
    apply CartMoreFacts.GetPlain_setProp_same. }
  split; [eapply CartFacts.safeNumber_not_nan; exact Esq|].
  split.
  { rewrite CartMoreFacts.GetPlain_setProp_same. f_equal.
    apply CartFacts.orNumber_not_nan. eapply CartFacts.safeNumber_not_nan; exact Est. }
  split.
  { intros key Hp Hq Ht.
    rewrite !CartMoreFacts.GetPlain_setProp_other by assumption. reflexivity. }
  rewrite RetryFacts.trace_after, TraceFacts.fetchCount_app, TraceFacts.dispatchCount_app.
  split; reflexivity.
Qed.

(** A backend item whose price is the string "12.5" and which has no
    total: the object resolved keeps the id and has price 12.5, quantity 2
    and total 25. *)
Lemma addToCart_resolves_with_the_item_witness :
  let item := JSObject [("id", JSString "1"); ("price", JSString "12.5");
                        ("quantity", JSNumber 2)] in
  let w := worldAnswering (Some "t")
             (Normal (jsonResponse 200 ""
                        (JSObject [("success", JSBoolean true); ("data", item)]))) in
  let result := JSObject [("id", JSString "1"); ("price", JSNumber 12.5);
                          ("quantity", JSNumber 2); ("total", JSNumber 25)] in
  fst (@addToCart dataHost (JSNumber 7) (JSNumber 2) JSUndefined w) = Normal result /\
  exists props price,
    result = JSObject props /\
    GetPlain props "price" = JSNumber price /\
    isNaN price = false.
Proof.
  intros item w result. split; [reflexivity|].
  destruct (addToCart_resolves_with_the_item dataHost w
              (snd (@addToCart dataHost (JSNumber 7) (JSNumber 2) JSUndefined w))
              (JSNumber 7) (JSNumber 2) JSUndefined result eq_refl)
    as (_ & _ & _ & _ & props & price & _ & _ & _ & _ & _ & _ & _ & _ & _ & Er & Ep & Hn & _).
  exists props, price. repeat split; assumption.
Defined.

(** X4: when the backend's answer has a falsy [success], or a falsy
    [data], [addToCart] rejects, having logged the error and dispatched no
    event.  It rejects with an Error whose message is the answer's
    [message] converted to a string, or "Failed to add to cart" when the
    [message] is falsy: a [message] that is a string is the message as it
    is, an object gives "[object Object]"; and when the [message] is an
    object that cannot be converted (it has a property [toString]), the
    function rejects with the TypeError of that conversion instead. *)
Theorem addToCart_rejects_with_the_backend_message :
  forall (host : Host) (w : World) (token : string)
         (productId quantity color : JSValue) (n : number)
         (response : Response) (data success payload message : JSValue),
    authToken w = Some token ->
    token <> "" ->
    safeNumber (defaulted quantity) = Normal n ->
    let request := addToCartRequest token productId (Math_max [1%float; n]) color in
    network w (fetchCount (trace w)) request = Normal response ->
    json response = Normal data ->
    Get data "success" = Normal success ->
    Get data "data" = Normal payload ->
    ToBoolean (and_ success payload) = false ->
    Get data "message" = Normal message ->
    let fallback := "Failed to add to cart" in
    addToCart productId quantity color w
    = (Throw (match messageText message fallback with
              | Normal text => ErrorObject "Error" (JSString text)
              | Throw t => t
              end),
       after w [EvFetch request; EvConsoleError "Add to cart error:"]) /\
    (forall text, message = JSString text -> text <> "" ->
                  messageText message fallback = Normal text) /\
    (ToBoolean message = false -> messageText message fallback = Normal fallback) /\
    (forall props, message = JSObject props ->
                   messageText message fallback
                   = match assoc "toString" props with
                     | Some _ => Throw TypeError_noPrimitive
                     | None => Normal "[object Object]"
                     end).
Proof.
  intros host w token productId quantity color n response data success payload message
         Etok Hne En request Enet Ej Es Ed Ea Em fallback.
  split; [|split; [|split]].
  - rewrite <- WireFacts.newError_or.
    exact (CartMoreFacts.addToCart_refused productId quantity color w token n response data
             success payload message Etok Hne En Enet Ej Es Ed Ea Em).
  - intros text -> Ht. apply WireFacts.messageText_string, Ht.
  - apply WireFacts.messageText_falsy.
  - intros props ->. apply WireFacts.messageText_object.
Qed.

(** A backend that refuses with a message, one that reports success
    without an item, and one whose message is an object with a property
    [toString]. *)
Lemma addToCart_rejects_with_the_backend_message_witness :
  let refusal message := JSObject [("success", JSBoolean false); ("message", message)] in
  let empty := JSObject [("success", JSBoolean true)] in
  let run body := fst (@addToCart dataHost (JSNumber 7) (JSNumber 2) JSUndefined
                         (worldAnswering (Some "t") (Normal (jsonResponse 200 "" body)))) in
  run (refusal (JSString "Out of stock")) = Throw (ErrorObject "Error" (JSString "Out of stock")) /\
  run empty = Throw (ErrorObject "Error" (JSString "Failed to add to cart")) /\
  run (refusal (JSObject [("toString", JSNumber 1)])) = Throw TypeError_noPrimitive.
Proof.
  intros refusal empty run.
  assert (H : forall body success payload message,
             Get body "success" = Normal success ->
             Get body "data" = Normal payload ->
             ToBoolean (and_ success payload) = false ->
             Get body "message" = Normal message ->
             run body = Throw (match messageText message "Failed to add to cart" with
                               | Normal text => ErrorObject "Error" (JSString text)
                               | Throw t => t
                               end)).
  { intros body success payload message Es Ed Ea Em. unfold run.
    destruct (addToCart_rejects_with_the_backend_message dataHost
                (worldAnswering (Some "t") (Normal (jsonResponse 200 "" body)))
                "t" (JSNumber 7) (JSNumber 2) JSUndefined 2%float
                (jsonResponse 200 "" body) body success payload message
                eq_refl ltac:(discriminate) eq_refl eq_refl eq_refl Es Ed Ea Em) as [E _].
    rewrite E. reflexivity. }
  split; [|split].
  - exact (H (refusal (JSString "Out of stock")) (JSBoolean false) JSUndefined
             (JSString "Out of stock") eq_refl eq_refl eq_refl eq_refl).
  - exact (H empty (JSBoolean true) JSUndefined JSUndefined eq_refl eq_refl eq_refl eq_refl).
  - exact (H (refusal (JSObject [("toString", JSNumber 1)])) (JSBoolean false) JSUndefined
             (JSObject [("toString", JSNumber 1)]) eq_refl eq_refl eq_refl eq_refl).
Defined.


(** X6: [clearCart] never rejects and sends at most one request.  It
    resolves to true exactly when a token is present and the backend
    answers the DELETE of /api/cart/clear with a status in 200..299 and a
    JSON body whose [success] is truthy; exactly then it dispatches
    [cartUpdated] and [cartCleared], once each. *)
Theorem clearCart_succeeds_iff :
  forall w : World,
    exists (b : bool) (w' : World),
      clearCart w = (Normal b, w') /\
      (b = true <-> clearedBy w) /\
      fetchCount (trace w') <= fetchCount (trace w) + 1 /\
      dispatchCount "cartUpdated" (trace w')
      = dispatchCount "cartUpdated" (trace w) + (if b then 1 else 0) /\
      dispatchCount "cartCleared" (trace w')
      = dispatchCount "cartCleared" (trace w) + (if b then 1 else 0).
Proof.
  intros w.
  destruct (CartMoreFacts.clearCart_outcome w) as (b & es & E & Hf & _ & Hu & Hc & Hb).
  exists b, (after w es). split; [exact E|]. split; [exact Hb|].
  rewrite RetryFacts.trace_after, TraceFacts.fetchCount_app, !TraceFacts.dispatchCount_app.
  rewrite Hu, Hc. repeat split. lia.
Qed.

(** X7: [clearCartAfterCheckout], the retry wrapper around [clearCart]
    itself, always resolves; it sends at most three requests and pauses at
    most twice; and it resolves to true exactly when the event
    [cartCleared] was dispatched, which happens at most once. *)
Theorem clearCartAfterCheckout_is_bounded :
  forall w : World,
    exists (b : bool) (w' : World),
      clearCartAfterCheckout w = (Normal (Some b), w') /\
      fetchCount (trace w') <= fetchCount (trace w) + 3 /\
      sleepCount (trace w') <= sleepCount (trace w) + 2 /\
      dispatchCount "cartCleared" (trace w')
      = dispatchCount "cartCleared" (trace w) + (if b then 1 else 0).
Proof.
  intros w.
  assert (Hop : forall w0,
    exists b es,
      clearCart w0 = (Normal b, after w0 es) /\
      fetchCount es <= 1 /\ sleepCount es = 0 /\
      dispatchCount "cartCleared" es = (if b then 1 else 0)).
  { intros w0.
    destruct (CartMoreFacts.clearCart_outcome w0) as (b & es & E & Hf & Hs & _ & Hc & _).
    exists b, es. repeat split; assumption. }
  destruct (CartMoreFacts.clearCartAfterCheckoutWith_quiet clearCart Hop w)
    as (b & es & E & Hf & Hs & Hd).
  exists b, (after w es). split; [exact E|].
  rewrite RetryFacts.trace_after, TraceFacts.fetchCount_app, TraceFacts.sleepCount_app,
    TraceFacts.dispatchCount_app, Hd.
  repeat split; lia.
Qed.

(** X8: [getCartSummary] never throws on the list that [getCart] resolves
    to, whatever the backend sent and however objects convert to numbers:
    every fetched cart has a summary, which counts its lines. *)
Theorem fetched_cart_has_a_summary :
  forall (host : Host) (w : World),
    exists items w' summary,
      getCart w = (Normal items, w') /\
      getCartSummary items = Normal summary /\
      CartSummary.itemCount summary = List.length items.
Proof. intros host w. apply CartMoreFacts.getCart_then_summary. Qed.

(** X9: [getCartTotal] adds up line by line, in order: the total of a cart
    with one more line at its end is the total of the cart plus what that
    line contributes, which for a line without a total of its own (one
    that normalizes to 0) is [calculateItemTotal] of its price and
    quantity. *)
Theorem getCartTotal_adds_line_by_line :
  forall (host : Host) (items : list CartItem.t) (item : CartItem.t),
    getCartTotal (items ++ [item])
    = (let! sum := getCartTotal items in
       let! t := lineTotal item in
       Normal (sum + t)%float) /\
    (safeNumber (CartItem.total item) = Normal 0%float ->
     lineTotal item = calculateItemTotal (CartItem.price item) (CartItem.quantity item)).
Proof.
  intros host items item. split.
  - apply CartMoreFacts.getCartTotal_snoc.
  - apply CartMoreFacts.lineTotal_without_total.
Qed.

(** X10: [validateCartItem] accepts an item (returns a truthy value)
    exactly when the item is truthy, its normalized price is at least 0,
    its normalized quantity is above 0 and its [id] and [product_id] are
    truthy; what it returns then is the item's [product_id] itself. *)
Theorem validateCartItem_accepts_iff :
  forall (host : Host) (item v : JSValue),
    validateCartItem item = Normal v /\ ToBoolean v = true <->
    exists rawPrice price rawQuantity quantity item_id,
      ToBoolean item = true /\
      Get item "price" = Normal rawPrice /\ safeNumber rawPrice = Normal price /\
      ge price 0 = true /\
      Get item "quantity" = Normal rawQuantity /\ safeNumber rawQuantity = Normal quantity /\
      gt quantity 0 = true /\
      Get item "id" = Normal item_id /\ ToBoolean item_id = true /\
      Get item "product_id" = Normal v /\ ToBoolean v = true.
Proof. intros host item v. apply CartMoreFacts.validateCartItem_accepted. Qed.

(** X11: [calculateItemTotal] returns the product of the two normalized
    numbers, and that product is NaN exactly when one of them is a zero
    and the other an infinity. *)
Theorem calculateItemTotal_is_NaN_iff :
  forall (host : Host) (price quantity : JSValue) (p q : number),
    safeNumber price = Normal p ->
    safeNumber quantity = Normal q ->
    calculateItemTotal price quantity = Normal (p * q)%float /\
    isNaN (p * q)%float = isZero p && isInfinity q || isInfinity p && isZero q.
Proof.
  intros host price quantity p q Ep Eq. split.
  - unfold calculateItemTotal. rewrite Ep, Eq. reflexivity.
  - apply CartMoreFacts.mul_nan; eapply CartFacts.safeNumber_not_nan; eassumption.
Qed.

(** The price "Infinity" at quantity 0 gives NaN; the price "12.5" at
    quantity 2 gives 25. *)
Lemma calculateItemTotal_is_NaN_iff_witness :
  (exists x, @calculateItemTotal dataHost (JSString "Infinity") (JSNumber 0) = Normal x
             /\ isNaN x = true) /\
  @calculateItemTotal dataHost (JSString "12.5") (JSNumber 2) = Normal 25%float.
Proof.
  split.
  - destruct (calculateItemTotal_is_NaN_iff dataHost (JSString "Infinity") (JSNumber 0)
                infinity 0%float eq_refl eq_refl) as [E Hn].
    eexists. split; [exact E | exact Hn].
  - destruct (calculateItemTotal_is_NaN_iff dataHost (JSString "12.5") (JSNumber 2)
                12.5%float 2%float eq_refl eq_refl) as [E _].
    exact E.
Defined.

(** The cart client on two backends: one that reports success, and a
    network that is down (three attempts, two pauses, no event); and
    [validateCartItem] on an item whose price cannot be read (it counts
    as 0 and the item's product id comes back), on one with a negative
    price, on null and on a number. *)
Example cart_client_runs :
  let succeeding := worldAnswering (Some "t")
                      (Normal (jsonResponse 200 "" (JSObject [("success", JSBoolean true)]))) in
  let down := worldAnswering (Some "t") (Throw (NonError "offline")) in
  let item price := JSObject [("id", JSString "a"); ("product_id", JSNumber 7);
                              ("price", price); ("quantity", JSNumber 1)] in
  fst (clearCart succeeding) = Normal true /\
  fst (clearCartAfterCheckout succeeding) = Normal (Some true) /\
  fetchCount (trace (snd (clearCartAfterCheckout succeeding))) = 1 /\
  fst (clearCartAfterCheckout down) = Normal (Some false) /\
  fetchCount (trace (snd (clearCartAfterCheckout down))) = 3 /\
  sleepCount (trace (snd (clearCartAfterCheckout down))) = 2 /\
  dispatchCount "cartCleared" (trace (snd (clearCartAfterCheckout down))) = 0 /\
  @validateCartItem dataHost (item (JSString "abc")) = Normal (JSNumber 7) /\
  @validateCartItem dataHost (item (JSNumber (-1))) = Normal (JSBoolean false) /\
  @validateCartItem dataHost JSNull = Normal (JSBoolean false) /\
  @validateCartItem dataHost (JSNumber 5) = Normal (JSBoolean false).
Proof. repeat split. Qed.

(* ================================================================== *)
(** * Further properties of the product client *)
(* ================================================================== *)

(** X12: [getFeaturedProducts] treats the response body exactly as
    [getProducts] does, for every body, although it tests for the envelope
    before it tests for an array; it makes one request, rejects with
    "HTTP error! status: N" on a status outside 200..299, and else
    resolves or rejects as that normalization does. *)
Theorem featured_products_normalize_alike :
  forall (data : JSValue) (w : World),
    ProductApi.normalizeFeatured data = ProductApi.normalizeProducts data /\
    fst (ProductApi.getFeaturedProducts w)
    = (let! response := network w (fetchCount (trace w)) (readerRequest "/featured") in
       if ok response then
         let! body := json response in ProductApi.normalizeProducts body
       else Throw (newError (JSString ("HTTP error! status: "
                                         ++ integerToString (status response))))) /\
    fetchCount (trace (snd (ProductApi.getFeaturedProducts w))) = fetchCount (trace w) + 1.
Proof.
  intros data w. split; [apply ProductMoreFacts.normalizeFeatured_normalizeProducts|].
  rewrite ProductMoreFacts.getFeaturedProducts_run.
  destruct (let! response := network w (fetchCount (trace w)) (readerRequest "/featured") in _)
    as [v|t]; cbn [fst snd]; (split; [reflexivity|]);
    rewrite RetryFacts.trace_after, TraceFacts.fetchCount_app; reflexivity.
Qed.

(** X13: [getProduct] resolves to [data.data] when that is truthy and to
    the response body [data] itself otherwise: the [success] flag of the
    body plays no part.  It rejects with "HTTP error! status: N" on a
    status outside 200..299, and with what the network, the JSON parser or
    the property access (on a body null) throws. *)
Theorem getProduct_ignores_the_success_flag :
  forall (id : string) (w : World),
    fst (ProductApi.getProduct id w)
    = (let! response := network w (fetchCount (trace w)) (readerRequest ("/" ++ id)) in
       if ok response then
         let! data := json response in
         let! payload := Get data "data" in
         Normal (or_ payload data)
       else Throw (newError (JSString ("HTTP error! status: "
                                         ++ integerToString (status response))))) /\
    fetchCount (trace (snd (ProductApi.getProduct id w))) = fetchCount (trace w) + 1.
Proof.
  intros id w. rewrite ProductMoreFacts.getProduct_run.
  destruct (let! response := network w (fetchCount (trace w)) (readerRequest ("/" ++ id)) in _)
    as [v|t]; cbn [fst snd]; (split; [reflexivity|]);
    rewrite RetryFacts.trace_after, TraceFacts.fetchCount_app; reflexivity.
Qed.

(** X14: [getCategories] never rejects.  It makes one request and
    resolves to [data.data || data || []] when the endpoint answers with a
    status in 200..299 and a JSON body other than null, and to the five
    default categories in every other case (no answer, another status, a
    body that is not JSON or is null).  Each default category has a display
    name from which [getCategoryFromDisplayName] gives it back. *)
Theorem getCategories_never_rejects :
  forall w : World,
    exists (v : JSValue) (w' : World),
      ProductApi.getCategories w = (Normal v, w') /\
      fetchCount (trace w') = fetchCount (trace w) + 1 /\
      v = match categoriesAnswer w with
          | Some answer => answer
          | None => ProductApi.defaultCategories
          end /\
      ProductApi.defaultCategories = JSArray (map JSString categoryCodes) /\
      forallb (roundTrips ProductApi.getProductDisplayName
                 ProductApi.getCategoryFromDisplayName) categoryCodes = true.
Proof.
  intros w. destruct (ProductMoreFacts.getCategories_run w) as (es & E & Hf).
  eexists _, _. split; [exact E|].
  rewrite RetryFacts.trace_after.
  change (EvFetch ?r :: es) with ([EvFetch r] ++ es)%list.
  rewrite !TraceFacts.fetchCount_app, Hf.
  repeat split.
Qed.

(** X15: [getAuthToken] of the product client (and its copy in the
    checkout page) never throws and returns either null or a truthy value.
    It returns null outside the browser, when reading the storage throws,
    when no session is stored or the stored text is empty, when the stored
    text is not JSON, when the session parsed is null (reading its [token]
    throws), and when the session's [token] is missing or falsy; in every
    other case it returns the session's [token]. *)
Theorem getAuthToken_gives_null_or_a_truthy_token :
  forall (JSON_parse : string -> Completion JSValue) (hasWindow : bool)
         (sessionData : Completion (option string)),
    let token := ProductApi.getAuthToken JSON_parse hasWindow sessionData in
    (token = JSNull \/ ToBoolean token = true) /\
    (hasWindow = false -> token = JSNull) /\
    (forall t, sessionData = Throw t -> token = JSNull) /\
    (sessionData = Normal None -> token = JSNull) /\
    (sessionData = Normal (Some "") -> token = JSNull) /\
    (forall text t,
       sessionData = Normal (Some text) -> JSON_parse text = Throw t -> token = JSNull) /\
    (forall text session,
       sessionData = Normal (Some text) -> JSON_parse text = Normal session ->
       isNullish session = true -> token = JSNull) /\
    (forall text session t,
       sessionData = Normal (Some text) -> JSON_parse text = Normal session ->
       Get session "token" = Normal t -> ToBoolean t = false -> token = JSNull) /\
    (forall text session,
       sessionData = Normal (Some text) -> JSON_parse text = Normal session ->
       Get session "token" = Normal JSUndefined -> token = JSNull) /\
    (forall text session t,
       hasWindow = true ->
       sessionData = Normal (Some text) -> text <> "" ->
       JSON_parse text = Normal session ->
       Get session "token" = Normal t ->
       token = if ToBoolean t then t else JSNull).
Proof.
  intros JSON_parse hasWindow sessionData token.
  assert (Hparsed : forall text session t,
            sessionData = Normal (Some text) -> JSON_parse text = Normal session ->
            Get session "token" = Normal t -> ToBoolean t = false -> token = JSNull).
  { intros text session t -> Ep Eg Ef. unfold token, ProductApi.getAuthToken.
    destruct hasWindow; [|reflexivity]. cbn [negb].
    destruct (String.eqb text ""); [reflexivity|].
    rewrite Ep. cbn [cbind]. rewrite Eg. unfold or_. rewrite Ef. reflexivity. }
  split; [apply ProductMoreFacts.getAuthToken_null_or_truthy|].
  split; [intros ->; reflexivity|].
  split; [intros t ->; unfold token, ProductApi.getAuthToken; destruct hasWindow; reflexivity|].
  split; [intros ->; unfold token, ProductApi.getAuthToken; destruct hasWindow; reflexivity|].
  split; [intros ->; unfold token, ProductApi.getAuthToken; destruct hasWindow; reflexivity|].
  split; [|split; [|split; [exact Hparsed|split]]].
  - intros text t -> Ep. unfold token, ProductApi.getAuthToken.
    destruct hasWindow; [|reflexivity]. cbn [negb].
    destruct (String.eqb text ""); [reflexivity|]. rewrite Ep. reflexivity.
  - intros text session -> Ep Hn. unfold token, ProductApi.getAuthToken.
    destruct hasWindow; [|reflexivity]. cbn [negb].
    destruct (String.eqb text ""); [reflexivity|]. rewrite Ep. cbn [cbind].
    destruct (RouteMoreFacts.Get_nullish session "token" Hn) as (t & ->). reflexivity.
  - intros text session Es Ep Eg. exact (Hparsed text session JSUndefined Es Ep Eg eq_refl).
  - intros text session t -> -> Hne Ep Eg. unfold token, ProductApi.getAuthToken.
    cbn [negb].
    replace (String.eqb text "") with false by (symmetry; apply String.eqb_neq; exact Hne).
    rewrite Ep. cbn [cbind]. rewrite Eg. reflexivity.
Qed.

(** X16: the query parameters [getProducts] sends: [search], [category],
    [sort_by] and [sort_order] when they are given and not empty;
    [min_price], [max_price] and [in_stock] whenever they are given, also
    for a price 0 and for [in_stock: false]; each at most once; and none
    at all when no parameter object is passed. *)
Theorem query_parameters_sent :
  forall (Number_toString : number -> string) (p : ProductApi.GetProductsParams.t),
    let q := ProductApi.searchParamsOf Number_toString (Some p) in
    lookup "search" q = nonEmpty (ProductApi.GetProductsParams.search p) /\
    lookup "category" q = nonEmpty (ProductApi.GetProductsParams.category p) /\
    lookup "min_price" q
    = option_map Number_toString (ProductApi.GetProductsParams.min_price p) /\
    lookup "max_price" q
    = option_map Number_toString (ProductApi.GetProductsParams.max_price p) /\
    lookup "in_stock" q
    = option_map ProductApi.Boolean_toString (ProductApi.GetProductsParams.in_stock p) /\
    lookup "sort_by" q = nonEmpty (ProductApi.GetProductsParams.sort_by p) /\
    lookup "sort_order" q = nonEmpty (ProductApi.GetProductsParams.sort_order p) /\
    NoDup (map fst q) /\
    ProductApi.searchParamsOf Number_toString None = [].
Proof.
  intros Number_toString p q. unfold q, ProductApi.searchParamsOf.
  repeat rewrite ?ProductMoreFacts.lookup_app, ?ProductMoreFacts.lookup_appendIfTruthy,
    ?ProductMoreFacts.lookup_appendIfDefined.
  cbn [String.eqb Ascii.eqb Bool.eqb].
  repeat (split; [repeat match goal with
                    | |- context [match ?x with Some _ => _ | None => _ end] => destruct x
                    end; reflexivity|]).
  split; [|reflexivity].
  apply ProductMoreFacts.searchParams_names_NoDup.
Qed.

(** X17: the query string [getProducts] appends to the URL is well
    formed whatever the parameters hold: it has one [=] per parameter sent
    and one [&] between two parameters, every other code unit being a
    letter, a digit or one of [* - . _ % +]; so no value can add a
    parameter or end the query, and the URL gets a [?] exactly when some
    parameter is sent. *)
Theorem query_string_is_well_formed :
  forall (Number_toString : number -> string)
         (params : option ProductApi.GetProductsParams.t),
    let pairs := ProductApi.searchParamsOf Number_toString params in
    let query := ProductApi.URLSearchParams_toString pairs in
    countChar "=" query = List.length pairs /\
    countChar "&" query = List.length pairs - 1 /\
    allChars (fun c => isEncoded c || Ascii.eqb c "&"%char || Ascii.eqb c "="%char) query
    = true /\
    (query = "" <-> pairs = []).
Proof.
  intros Number_toString params pairs query.
  destruct (ProductMoreFacts.query_counts pairs) as (Ha & He & Hc). fold query in Ha, He, Hc.
  repeat split; try assumption.
  - intros Eq. rewrite Eq in He. destruct pairs; [reflexivity | discriminate He].
  - unfold query. intros ->. reflexivity.
Qed.

(** The filtering shortcuts of the product client are [getProducts] on
    these query strings: searching for the empty string without a
    category is the unfiltered listing; [getInStockProducts] always asks
    for [in_stock=true]; [getProductsByPriceRange] always sends both
    bounds; [getProductsSorted] sorts ascending unless told otherwise. *)
Lemma filter_shortcuts_send_these_queries :
  forall (Number_toString : number -> string) (w : World),
    ProductApi.searchProducts Number_toString "" None w = ProductApi.getProducts "" w /\
    ProductApi.getInStockProducts Number_toString None w
    = ProductApi.getProducts "in_stock=true" w /\
    (forall minPrice maxPrice,
       ProductApi.getProductsByPriceRange Number_toString minPrice maxPrice None w
       = ProductApi.getProducts
           ("min_price=" ++ ProductApi.urlencode (Number_toString minPrice)
            ++ "&max_price=" ++ ProductApi.urlencode (Number_toString maxPrice)) w) /\
    (forall sortBy,
       sortBy <> "" ->
       ProductApi.getProductsSorted Number_toString sortBy None None w
       = ProductApi.getProducts
           ("sort_by=" ++ ProductApi.urlencode sortBy ++ "&sort_order=asc") w).
Proof.
  intros Number_toString w. split; [reflexivity|]. split; [reflexivity|]. split.
  - intros minPrice maxPrice. reflexivity.
  - intros sortBy Hne.
    unfold ProductApi.getProductsSorted, ProductApi.getProductsOf, ProductApi.searchParamsOf.
    cbn [ProductApi.GetProductsParams.search ProductApi.GetProductsParams.category
         ProductApi.GetProductsParams.min_price ProductApi.GetProductsParams.max_price
         ProductApi.GetProductsParams.in_stock ProductApi.GetProductsParams.sort_by
         ProductApi.GetProductsParams.sort_order
         ProductApi.appendIfTruthy ProductApi.appendIfDefined app].
    replace (String.eqb sortBy "") with false by (symmetry; apply String.eqb_neq; exact Hne).
    reflexivity.
Qed.


(** The product client on concrete answers: a product in an envelope
    whose [success] is false, the categories endpoint missing, answering
    null and answering a list; and the query string of a search term that
    holds a space, an ampersand and an equals sign; the token read from
    a stored session; and a product deleted, one that is not there, and
    one that the backend refuses with a numeric message. *)
Example product_client_runs :
  let answering status body := worldAnswering None (Normal (jsonResponse status "" body)) in
  let product := JSObject [("id", JSNumber 5)] in
  fst (ProductApi.getProduct "5"
         (answering 200%Z (JSObject [("success", JSBoolean false); ("data", product)])))
  = Normal product /\
  fst (ProductApi.getCategories (answering 404%Z JSNull)) = Normal ProductApi.defaultCategories /\
  fst (ProductApi.getCategories (answering 200%Z JSNull)) = Normal ProductApi.defaultCategories /\
  fst (ProductApi.getCategories
         (answering 200%Z (JSObject [("data", JSArray [JSString "E-Bike"])])))
  = Normal (JSArray [JSString "E-Bike"]) /\
  ProductApi.URLSearchParams_toString [("search", "e bike&x=1"); ("category", "E-Bike")]
  = "search=e+bike%26x%3D1&category=E-Bike" /\
  ProductApi.getAuthToken (fun _ => Normal (JSObject [("token", JSString "abc")]))
    true (Normal (Some "{}"))
  = JSString "abc" /\
  fst (ProductApi.deleteProduct "5"
         (worldAnswering (Some "t") (Normal (jsonResponse 204 "" JSNull))))
  = Normal tt /\
  fst (ProductApi.deleteProduct "5"
         (worldAnswering (Some "t")
            (Normal (jsonResponse 404 "" (JSObject [("error", JSString "gone")])))))
  = Throw (ErrorObject "Error" (JSString "HTTP error! status: 404")) /\
  fst (ProductApi.deleteProduct "5"
         (worldAnswering (Some "t")
            (Normal (jsonResponse 409 "" (JSObject [("message", JSNumber 1.5)])))))
  = Throw (ErrorObject "Error" (JSString "1.5")).
Proof. vm_compute. repeat split. Qed.

(* ================================================================== *)
(** * Further properties of the order proxy *)
(* ================================================================== *)

(** X19: the POST handler always answers: it never rejects, sends at most
    one request to the backend, and returns either its own answer 500
    "Internal server error", or the status of the backend's answer with,
    as the body, the parsed body of that answer written again by
    [JSON.stringify]. *)
Theorem POST_always_answers :
  forall (base : string) (request : OrdersRoute.NextRequest)
         (requestBody : Completion JSValue) (w : World),
    exists (r : OrdersRoute.NextResponse) (w' : World),
      OrdersRoute.POST base request requestBody w = (Normal r, w') /\
      fetchCount (trace w') <= fetchCount (trace w) + 1 /\
      (r = response500 \/
       exists body response data written,
         requestBody = Normal body /\
         network w (fetchCount (trace w))
           (createOrderRequest base (OrdersRoute.headers_get request "authorization") body)
         = Normal response /\
         json response = Normal data /\
         JSON_stringify data = Some written /\
         r = {| OrdersRoute.responseStatus := status response;
                OrdersRoute.responseBody := written |}).
Proof.
  intros base request requestBody w.
  destruct (RouteMoreFacts.POST_settles base request requestBody w) as (r & es & E & Hf & Hr).
  exists r, (after w es). split; [exact E|].
  rewrite RetryFacts.trace_after, TraceFacts.fetchCount_app. split; [lia | exact Hr].
Qed.

(** X20: the POST handler forwards an order whether or not the request is
    authenticated.  For a parsed request body other than null it sends the
    body, written by [JSON.stringify], to the backend with the incoming
    authorization header, or with no such header when the request has none
    or an empty one; and when the backend answers with a JSON body other
    than null and a status in 200..599 other than 204, 205 and 304, it
    relays that status and, as the body, the answer's parsed body written
    again by [JSON.stringify].  Either body is the value itself when that
    holds no number that is infinite or -0; a number that is infinite is
    written as null, and -0 as 0. *)
Theorem POST_forwards_and_relays :
  forall (base : string) (request : OrdersRoute.NextRequest) (body : JSValue) (w : World)
         (response : Response) (data written : JSValue),
    isNullish body = false ->
    let backendRequest :=
      createOrderRequest base (OrdersRoute.headers_get request "authorization") body in
    network w (fetchCount (trace w)) backendRequest = Normal response ->
    json response = Normal data ->
    isNullish data = false ->
    relayableStatus (status response) = true ->
    JSON_stringify data = Some written ->
    OrdersRoute.POST base request (Normal body) w
    = (Normal {| OrdersRoute.responseStatus := status response;
                 OrdersRoute.responseBody := written |},
       after w [EvConsoleLog "Creating order:"; EvFetch backendRequest;
                EvConsoleLog "Order creation response:"]) /\
    Async.body backendRequest = JSON_stringify body /\
    (writtenAsIs body = true -> Async.body backendRequest = Some body) /\
    (writtenAsIs data = true -> written = data) /\
    JSON_stringify (JSObject [("total", JSNumber infinity); ("discount", JSNumber (-0))])
    = Some (JSObject [("total", JSNull); ("discount", JSNumber 0)]) /\
    (falsyToken (OrdersRoute.headers_get request "authorization") = true ->
     headers backendRequest
     = [("Accept", "application/json"); ("Content-Type", "application/json")]) /\
    (forall value,
       OrdersRoute.headers_get request "authorization" = Some value -> value <> "" ->
       headers backendRequest
       = [("Accept", "application/json"); ("Content-Type", "application/json");
          ("Authorization", value)]).
Proof.
  intros base request body w response data written Hb backendRequest En Ej Hd Hs Hw.
  split; [|split; [|split; [|split; [|split; [|split]]]]].
  - rewrite (RouteMoreFacts.POST_forwarded base request body w Hb). cbv zeta.
    fold backendRequest. rewrite En, Ej, Hd, Hw, Hs. rewrite TraceFacts.after_after.
    reflexivity.
  - reflexivity.
  - intros Hx. unfold backendRequest, createOrderRequest. cbn [Async.body].
    apply JsonFacts.JSON_stringify_writtenAsIs, Hx.
  - intros Hx. rewrite (JsonFacts.JSON_stringify_writtenAsIs data Hx) in Hw.
    injection Hw as <-. reflexivity.
  - reflexivity.
  - intros Hf. unfold backendRequest, createOrderRequest. cbn [headers]. rewrite Hf. reflexivity.
  - intros value Hh Hv. unfold backendRequest, createOrderRequest. cbn [headers].
    rewrite Hh. cbn [falsyToken tokenString].
    replace (String.eqb value "") with false by (symmetry; apply String.eqb_neq; exact Hv).
    reflexivity.
Qed.

(** A guest order, answered by the backend with 201; and an order whose
    total overflowed, which goes to the backend with the total null. *)
Lemma POST_forwards_and_relays_witness :
  let order total := JSObject [("is_guest", JSBoolean true); ("total", total)] in
  let created := JSObject [("success", JSBoolean true)] in
  let w := worldAnswering None (Normal (jsonResponse 201 "" created)) in
  let run total := OrdersRoute.POST "http://backend/api" {| OrdersRoute.requestHeaders := [] |}
                     (Normal (order total)) w in
  let sent total := {| url := "http://backend/api/orders"; method := "POST";
                       headers := [("Accept", "application/json");
                                   ("Content-Type", "application/json")];
                       body := Some (order total) |} in
  run (JSNumber 2500)
  = (Normal {| OrdersRoute.responseStatus := 201; OrdersRoute.responseBody := created |},
     after w [EvConsoleLog "Creating order:"; EvFetch (sent (JSNumber 2500));
              EvConsoleLog "Order creation response:"]) /\
  run (JSNumber infinity)
  = (Normal {| OrdersRoute.responseStatus := 201; OrdersRoute.responseBody := created |},
     after w [EvConsoleLog "Creating order:"; EvFetch (sent JSNull);
              EvConsoleLog "Order creation response:"]).
Proof.
  intros order created w run sent. split.
  - destruct (POST_forwards_and_relays "http://backend/api"
                {| OrdersRoute.requestHeaders := [] |} (order (JSNumber 2500)) w
                (jsonResponse 201 "" created) created created
                eq_refl eq_refl eq_refl eq_refl eq_refl eq_refl) as [E _].
    exact E.
  - destruct (POST_forwards_and_relays "http://backend/api"
                {| OrdersRoute.requestHeaders := [] |} (order (JSNumber infinity)) w
                (jsonResponse 201 "" created) created created
                eq_refl eq_refl eq_refl eq_refl eq_refl eq_refl) as [E _].
    exact E.
Defined.

(** X21: when the incoming request has no readable body (its JSON does
    not parse) or its body is null, the POST handler answers 500 "Internal
    server error" without contacting the backend. *)
Theorem POST_unreadable_body_is_500 :
  forall (base : string) (request : OrdersRoute.NextRequest)
         (requestBody : Completion JSValue) (w : World),
    match requestBody with
    | Normal body => isNullish body = true
    | Throw _ => True
    end ->
    OrdersRoute.POST base request requestBody w
    = (Normal response500, after w [EvConsoleError "Orders POST error:"]) /\
    fetchCount (trace (snd (OrdersRoute.POST base request requestBody w)))
    = fetchCount (trace w).
Proof.
  intros base request requestBody w Hb.
  rewrite (RouteMoreFacts.POST_unreadable base request requestBody w Hb).
  split; [reflexivity|]. cbn [snd].
  rewrite RetryFacts.trace_after, TraceFacts.fetchCount_app. cbn. lia.
Qed.

(** The body null, with a backend that would accept anything. *)
Lemma POST_unreadable_body_is_500_witness :
  let w := worldAnswering None
             (Normal (jsonResponse 201 "" (JSObject [("success", JSBoolean true)]))) in
  fst (OrdersRoute.POST "http://backend/api" {| OrdersRoute.requestHeaders := [] |}
         (Normal JSNull) w)
  = Normal response500 /\
  fetchCount (trace (snd (OrdersRoute.POST "http://backend/api"
                            {| OrdersRoute.requestHeaders := [] |} (Normal JSNull) w))) = 0.
Proof.
  intros w.
  destruct (POST_unreadable_body_is_500 "http://backend/api"
              {| OrdersRoute.requestHeaders := [] |} (Normal JSNull) w eq_refl) as [E F].
  split; [rewrite E; reflexivity | exact F].
Defined.

(* ================================================================== *)
(** * Further properties of the checkout page *)
(* ================================================================== *)

(** X22: whatever is typed into the phone field, what [handleInputChange]
    stores is made of digits only and is at most 11 long; so the phone
    pattern of [validateForm] accepts it exactly when it is 11 long, and
    the form's phone check passes exactly when it is 11 long and starts
    with 09. *)
Theorem typed_phone_is_checked_by_length :
  forall (i : Checkout.ShippingInfo) (value : string),
    let p := Checkout.phone (Checkout.handleInputChange i "phone" value) in
    allDigits p = true /\
    String.length p <= 11 /\
    test Checkout.phoneRegex p = (String.length p =? 11)%nat /\
    phoneAccepted p = (String.length p =? 11)%nat && startsWith p "09".
Proof.
  intros i value p.
  assert (Ep : p = kept "phone" value)
    by (unfold p; rewrite InputFacts.handleInputChange_kept; reflexivity).
  destruct (InputFacts.kept_allowed "phone" value) as [Ha Hl].
  change (fieldClass "phone") with class_digit in Ha.
  rewrite <- InputFacts.allDigits_allChars, <- Ep in Ha.
  specialize (Hl 11 eq_refl). rewrite <- Ep in Hl.
  split; [exact Ha|]. split; [exact Hl|].
  rewrite CheckoutFacts.test_phoneRegex. unfold phoneAccepted. rewrite Ha, !Bool.andb_true_r.
  split; reflexivity.
Qed.

(** X23: what [handleInputChange] stores in a field of the form is made
    of the code units allowed there (digits in the phone and the zip code;
    letters, white space, apostrophe and hyphen in the first name, last
    name, city and province; anything in the email and the address), and a
    typed value that holds only such code units, and for the phone at most
    11 of them, is stored as it is. *)
Theorem typed_fields_keep_allowed_characters :
  forall (i : Checkout.ShippingInfo) (name value : string),
    In name Checkout.requiredFields ->
    let storedValue :=
      Checkout.shippingField (Checkout.handleInputChange i name value) name in
    allChars (fieldClass name) storedValue = true /\
    (allChars (fieldClass name) value = true ->
     (forall n, fieldLimit name = Some n -> String.length value <= n) ->
     storedValue = value).
Proof.
  intros i name value Hin storedValue.
  assert (Es : storedValue = kept name value).
  { unfold storedValue. rewrite InputFacts.handleInputChange_kept.
    apply InputFacts.shippingField_setField, Hin. }
  rewrite Es. split.
  - apply InputFacts.kept_allowed.
  - apply InputFacts.kept_clean.
Qed.

(** A city typed with digits and punctuation, and a zip code typed with
    letters. *)
Lemma typed_fields_keep_allowed_characters_witness :
  let form := exampleForm "09123456789" in
  Checkout.city (Checkout.handleInputChange form "city" "Quezon City 2!") = "Quezon City " /\
  Checkout.zipCode (Checkout.handleInputChange form "zipCode" "PH-1100") = "1100" /\
  allChars (fieldClass "city")
    (Checkout.shippingField (Checkout.handleInputChange form "city" "Quezon City 2!") "city")
  = true.
Proof.
  intros form. split; [reflexivity|]. split; [reflexivity|].
  destruct (typed_fields_keep_allowed_characters form "city" "Quezon City 2!"
              ltac:(cbn; tauto)) as [H _].
  exact H.
Defined.

(** X24: typing into one field of the form leaves the other seven as
    they were, and typing the stored value of the field again changes
    nothing. *)
Theorem typing_is_local_and_stable :
  forall (i : Checkout.ShippingInfo) (name value : string),
    In name Checkout.requiredFields ->
    let i' := Checkout.handleInputChange i name value in
    (forall other,
       In other Checkout.requiredFields -> other <> name ->
       Checkout.shippingField i' other = Checkout.shippingField i other) /\
    Checkout.handleInputChange i' name (Checkout.shippingField i' name) = i'.
Proof.
  intros i name value Hin i'. unfold i'.
  rewrite InputFacts.handleInputChange_kept. split.
  - intros other Ho Hne. apply InputFacts.shippingField_setField_other; assumption.
  - rewrite InputFacts.handleInputChange_kept.
    rewrite (InputFacts.shippingField_setField _ _ _ Hin).
    rewrite InputFacts.kept_stable. apply InputFacts.setField_setField.
Qed.

(** A phone typed with spaces and a country prefix. *)
Lemma typing_is_local_and_stable_witness :
  let form := exampleForm "" in
  let form' := Checkout.handleInputChange form "phone" "+63 912 345 6789 00" in
  Checkout.phone form' = "63912345678" /\
  Checkout.email form' = Checkout.email form /\
  Checkout.handleInputChange form' "phone" (Checkout.phone form') = form'.
Proof.
  intros form form'.
  destruct (typing_is_local_and_stable form "phone" "+63 912 345 6789 00"
              ltac:(cbn; tauto)) as [Hother Hstable].
  split; [reflexivity|]. split.
  - exact (Hother "email" ltac:(cbn; tauto) ltac:(discriminate)).
  - exact Hstable.
Defined.

(** X25: [validateForm] returns true exactly when none of the eight
    fields is blank, the email has the shape local@domain.tld (three
    pieces, none empty, none holding white space or an [@]; the domain
    and the last piece may hold further dots), and the phone is 11 digits
    starting with 09. *)
Theorem validateForm_accepts_iff :
  forall (i : Checkout.ShippingInfo) (w : World),
    fst (Checkout.validateForm i w) = Normal true <->
    (forall field, In field Checkout.requiredFields ->
                   filled (Checkout.shippingField i field) = true) /\
    emailShape (Checkout.email i) /\
    phoneAccepted (Checkout.phone i) = true.
Proof.
  intros i w.
  destruct (CheckoutFacts.validateForm_result i w) as (w' & E & _). rewrite E. cbn [fst].
  assert (Hv : otherFieldsValid i && phoneAccepted (Checkout.phone i) = true <->
               (forall field, In field Checkout.requiredFields ->
                              filled (Checkout.shippingField i field) = true) /\
               test Checkout.emailRegex (Checkout.email i) = true /\
               phoneAccepted (Checkout.phone i) = true).
  { unfold otherFieldsValid. rewrite !Bool.andb_true_iff. split.
    - intros [[[[[[[[H1 H2] H3] H4] H5] H6] H7] H8] H9].
      split; [|split; assumption].
      intros field Hin. cbn in Hin.
      repeat (destruct Hin as [<-|Hin]; [first [assumption
                | apply CheckoutFacts.phoneAccepted_filled; assumption]|]).
      contradiction.
    - intros (Hf & He & Hp).
      repeat split; try assumption;
        match goal with
        | |- filled (?f i) = true =>
            first [ exact (Hf "firstName" ltac:(cbn; tauto))
                  | exact (Hf "lastName" ltac:(cbn; tauto))
                  | exact (Hf "email" ltac:(cbn; tauto))
                  | exact (Hf "address" ltac:(cbn; tauto))
                  | exact (Hf "city" ltac:(cbn; tauto))
                  | exact (Hf "province" ltac:(cbn; tauto))
                  | exact (Hf "zipCode" ltac:(cbn; tauto)) ]
        end. }
  rewrite <- RegexFacts.test_emailRegex. rewrite <- Hv.
  split; [intros H; injection H as H; exact H | intros ->; reflexivity].
Qed.

(** X26: [handleSubmit] never rejects, whatever the backend, the cart
    module and the cart context do; and once the form has passed
    validation, the last thing it does is to reset the processing flag. *)
Theorem handleSubmit_always_settles :
  forall (clearCartAfterCheckout : M bool) (refreshCart : M unit)
         (st : Checkout.PageState) (w : World),
    exists w' : World,
      Checkout.handleSubmit clearCartAfterCheckout refreshCart st w = (Normal tt, w') /\
      (formAccepted (Checkout.shippingInfo st) = true ->
       exists t, trace w' = (t ++ [EvSetIsProcessing false])%list).
Proof.
  intros clear refresh st w. apply SubmitFacts.handleSubmit_settles.
Qed.





(** X29: filling the form from the signed-in user splits the user's name
    at its first space: the first name holds no space; a name without a
    space becomes the first name, the last name being empty; any other
    name is the first name, a space and the last name.  The email is the
    user's, and the other fields stay as they were. *)
Theorem prefill_splits_the_name_at_the_first_space :
  forall (userName userEmail : string) (prev : Checkout.ShippingInfo),
    let i := Checkout.prefill userName userEmail prev in
    countChar " " (Checkout.firstName i) = 0 /\
    (countChar " " userName = 0 ->
     Checkout.firstName i = userName /\ Checkout.lastName i = "") /\
    (countChar " " userName <> 0 ->
     userName = Checkout.firstName i ++ " " ++ Checkout.lastName i) /\
    Checkout.email i = userEmail /\
    (forall field,
       In field ["phone"; "address"; "city"; "province"; "zipCode"] ->
       Checkout.shippingField i field = Checkout.shippingField prev field).
Proof.
  intros userName userEmail prev i.
  destruct (PrefillFacts.prefill_name userName userEmail prev) as (H1 & H2 & H3).
  split; [exact H1|]. split; [exact H2|]. split; [exact H3|]. split; [reflexivity|].
  intros field Hin. cbn in Hin.
  repeat (destruct Hin as [<-|Hin]; [reflexivity|]). contradiction.
Qed.


(** The page on concrete inputs: names with and without spaces, the
    email pattern, and the cart of a signed-in user whose backend reports
    success without items. *)
Example checkout_page_runs :
  let w := worldAnswering (Some "t")
             (Normal (jsonResponse 200 "" (JSObject [("success", JSBoolean true)]))) in
  Checkout.split_space "a  b " = ["a"; ""; "b"; ""] /\
  Checkout.lastName (Checkout.prefill "Juan Dela Cruz" "j@x.ph" (exampleForm ""))
  = "Dela Cruz" /\
  Checkout.firstName (Checkout.prefill " Juan" "j@x.ph" (exampleForm "")) = "" /\
  test Checkout.emailRegex "a@b.c.d" = true /\
  test Checkout.emailRegex "a@b" = false /\
  test Checkout.emailRegex "a b@c.d" = false /\
  test Checkout.emailRegex "a@@b.c" = false /\
  trace (snd (@Checkout.fetchCart dataHost w))
  = [EvFetch (cartRequest "t"); EvCall "setCart"; EvRouterPush "/cart" [];
     EvCall "setLoading"].
Proof. repeat split. Qed.
